(** * Forecasting core of the Pearls AQI dashboards

    A shallow embedding of [src/streamlitaap.py] (seasonal AQI forecaster,
    AQI categories, table loader), of [src/webapp.py] (hourly weather
    forecaster, linear trend estimator), of what the tabs of the two
    dashboards compute from them, and of the loop of the feature pipeline
    ([src/test_aqi_ds10pearls.py]).

    Numbers.  A Python/numpy float is idealised as an exact rational, plus
    the one special value NaN that pandas uses for missing data: rounding
    and the infinities are outside the model, and the statements say which
    formula the code evaluates.  Where a statement gives the exact value of
    a mean (a constant history), it is about the inputs on which the
    double arithmetic of the code is exact; [Binary64] evaluates such a
    mean in double precision.  Timestamps are whole seconds since the
    epoch (naive, no time zone). *)

From Stdlib Require Import ZArith QArith Qminmax List String Ascii Bool Lia Lqa
  Permutation Sorted DecimalString.
From Stdlib Require PrimFloat Uint63.
Import ListNotations.

Open Scope string_scope.
Open Scope list_scope.
Open Scope Z_scope.
Open Scope Q_scope.

(** ** Floats with NaN *)

Inductive float : Type :=
| NaN
| Fin (q : Q).

Definition fadd (a b : float) : float :=
  match a, b with Fin x, Fin y => Fin (x + y) | _, _ => NaN end.

Definition fsub (a b : float) : float :=
  match a, b with Fin x, Fin y => Fin (x - y) | _, _ => NaN end.

Definition fmul (a b : float) : float :=
  match a, b with Fin x, Fin y => Fin (x * y) | _, _ => NaN end.

Definition fneg (a : float) : float :=
  match a with Fin x => Fin (- x) | NaN => NaN end.

(** Division of numpy scalars: 0/0 is NaN (a warning, no exception).  A
    non-zero numerator over 0 would be an infinity; the divisions of the
    embedded code are the one of [calc_trend], where a zero denominator
    forces a zero numerator (lemma [trend_den_zero_num_zero]), and one by
    the constant 10. *)
Definition fdiv (a b : float) : float :=
  match a, b with
  | Fin x, Fin y => if Qeq_bool y 0 then NaN else Fin (x / y)
  | _, _ => NaN
  end.

(** [a <= b] on floats: every comparison with NaN is False. *)
Definition fle (a : float) (b : Q) : bool :=
  match a with Fin x => Qle_bool x b | NaN => false end.

(** Equality of floats up to equality of rationals. *)
Definition feq (a b : float) : Prop :=
  match a, b with
  | NaN, NaN => True
  | Fin x, Fin y => x == y
  | _, _ => False
  end.

Definition is_nan (a : float) : bool :=
  match a with NaN => true | Fin _ => false end.

(** [np.clip(x, lo, hi)] is [minimum(maximum(x, lo), hi)]; both propagate
    NaN. *)
Definition np_clip (x : float) (lo hi : Q) : float :=
  match x with
  | NaN => NaN
  | Fin q => Fin (Qmin (Qmax q lo) hi)
  end.

(** [lo <= x <= hi] for a float; NaN is in no interval. *)
Definition within (x : float) (lo hi : Q) : Prop :=
  match x with
  | NaN => False
  | Fin q => lo <= q /\ q <= hi
  end.

(** ** Exceptions *)

Inductive exn : Type :=
| KeyError (key_repr : string)
| ValueError (msg : string)
| TypeError (msg : string)
| OverflowError (msg : string).

Inductive result (A : Type) : Type :=
| Ok (a : A)
| Raise (e : exn).

Arguments Ok {A} a.
Arguments Raise {A} e.

Definition bind {A B : Type} (m : result A) (f : A -> result B) : result B :=
  match m with
  | Ok a => f a
  | Raise e => Raise e
  end.

Notation "x <- m ;; k" := (bind m (fun x => k))
  (at level 61, m at next level, right associativity).

(** [str(e)] *)
Definition str (e : exn) : string :=
  match e with
  | KeyError k => k
  | ValueError m => m
  | TypeError m => m
  | OverflowError m => m
  end.

(** The body of a [for] loop that appends one item per iteration, run in
    order; the first exception leaves the loop. *)
Fixpoint for_each {A B : Type} (f : A -> result B) (l : list A)
  : result (list B) :=
  match l with
  | [] => Ok []
  | a :: l' =>
      b <- f a ;;
      bs <- for_each f l' ;;
      Ok (b :: bs)
  end.

(** ** Series *)

(** The non-missing values of a float column. *)
Fixpoint valid (l : list float) : list Q :=
  match l with
  | [] => []
  | NaN :: l' => valid l'
  | Fin q :: l' => q :: valid l'
  end.

Definition Qsum (l : list Q) : Q := fold_right Qplus 0 l.

Definition Qlen (l : list Q) : Q := inject_Z (Z.of_nat (List.length l)).

Definition Qmean (l : list Q) : Q := Qsum l / Qlen l.

(** [Series.mean()], skipping NaN; NaN when nothing is left. *)
Definition mean (l : list float) : float :=
  match valid l with
  | [] => NaN
  | v => Fin (Qmean v)
  end.

(** Sum of squared deviations from the mean. *)
Definition Qss (l : list Q) : Q :=
  Qsum (map (fun x => (x - Qmean l) * (x - Qmean l)) l).

(** [Series.tail(n)] *)
Definition tail {A : Type} (n : nat) (l : list A) : list A :=
  skipn (List.length l - n) l.

(** ** Calendar *)

(** [Timestamp.dayofweek] and [datetime.weekday()]: Monday is 0.  The epoch
    (1970-01-01) was a Thursday. *)
Definition dayofweek (t : Z) : Z := ((t / 86400) + 3) mod 7.

(** [Timestamp.hour] *)
Definition hour (t : Z) : Z := (t mod 86400) / 3600.

(** ** AQI categories ([src/streamlitaap.py], [get_aqi_category]) *)

Definition get_aqi_category (aqi : float) : string * string :=
  if fle aqi 50 then ("Good", "#10b981")
  else if fle aqi 100 then ("Moderate", "#f59e0b")
  else if fle aqi 150 then ("Unhealthy for Sensitive", "#ff6b6b")
  else if fle aqi 200 then ("Unhealthy", "#ef4444")
  else if fle aqi 300 then ("Very Unhealthy", "#c026d3")
  else ("Hazardous", "#7c2d12").

(** ** Tables *)

(** A field of a row as [read_csv] yields it. *)
Inductive cell : Type :=
| Missing
| Number (q : Q)
| Text (s : string).

(** A row of a loaded table: [timestamp] is the parsed (datetime64) value
    of the 'timestamp' column, [cells] the fields of the row by position. *)
Record Row : Type := mkRow { timestamp : Z; cells : list cell }.

(** A loaded table: the column labels and the rows. *)
Record DataFrame : Type := mkDF { columns : list string; rows : list Row }.

(** Positions of a label among the column labels. *)
Fixpoint positions (name : string) (cols : list string) (i : nat) : list nat :=
  match cols with
  | [] => []
  | c :: cols' =>
      if String.eqb c name then i :: positions name cols' (S i)
      else positions name cols' (S i)
  end.

(** Position of the one column called [name]: a missing label is a
    KeyError; a label that occurs twice selects a frame, not a column.  The
    conversion of the loader raises on a frame; the forecasters are taken
    to stop there as well: what they do with a frame in the place of a
    column is outside the embedding. *)
Definition column_index (cols : list string) (name : string) : result nat :=
  match positions name cols 0 with
  | [] => Raise (KeyError ("'" ++ name ++ "'"))
  | [i] => Ok i
  | _ => Raise (ValueError ("The column label '" ++ name ++ "' is not unique"))
  end.

(** A field read as a float: a missing field is NaN, text is not a
    number. *)
Definition to_float (name : string) (c : cell) : result float :=
  match c with
  | Missing => Ok NaN
  | Number q => Ok (Fin q)
  | Text _ => Raise (TypeError ("Could not convert column '" ++ name ++ "' to numeric"))
  end.

(** [df[name]] as a numeric series, one value per row, paired with the
    row's timestamp.  A row shorter than the header is padded with missing
    fields, as [read_csv] does. *)
Definition series (df_rows : list Row) (cols : list string) (name : string)
  : result (list (Z * float)) :=
  i <- column_index cols name ;;
  for_each (fun r => x <- to_float name (nth i (cells r) Missing) ;;
                     Ok (timestamp r, x)) df_rows.

Definition values (s : list (Z * float)) : list float := map snd s.

(** [df.groupby(key)[name]], the first read of a column in either
    forecaster: the series of the column; the selection from the groups
    has its own wording for a label that is missing. *)
Definition grouped (df_rows : list Row) (cols : list string) (name : string)
  : result (list (Z * float)) :=
  match positions name cols 0 with
  | [] => Raise (KeyError ("'Column not found: " ++ name ++ "'"))
  | _ => series df_rows cols name
  end.

(** [df.sort_values('timestamp')]: ascending.  Rows with equal timestamps
    are kept in their order here (pandas leaves their order open). *)
Fixpoint insert_row (r : Row) (l : list Row) : list Row :=
  match l with
  | [] => [r]
  | r' :: l' =>
      if (timestamp r <=? timestamp r')%Z then r :: l
      else r' :: insert_row r l'
  end.

Fixpoint sort_values (l : list Row) : list Row :=
  match l with
  | [] => []
  | r :: l' => insert_row r (sort_values l')
  end.

(** [groupby(key)[col].agg(f)]: one entry per observed key, keys in
    ascending order.  [keys] lists the possible keys in order. *)
Definition groupby {A : Type} (key : Z -> Z) (keys : list Z)
  (f : list float -> A) (s : list (Z * float)) : list (Z * A) :=
  flat_map (fun k =>
    match filter (fun p => (key (fst p) =? k)%Z) s with
    | [] => []
    | g => [(k, f (values g))]
    end) keys.

(** [d.get(k)] on a dict or a Series indexed by the group keys. *)
Fixpoint lookup {A : Type} (k : Z) (d : list (Z * A)) : option A :=
  match d with
  | [] => None
  | (k', a) :: d' => if (k' =? k)%Z then Some a else lookup k d'
  end.

Definition get {A : Type} (d : list (Z * A)) (k : Z) (default : A) : A :=
  match lookup k d with Some a => a | None => default end.

(** [k in d] *)
Definition contains {A : Type} (d : list (Z * A)) (k : Z) : bool :=
  match lookup k d with Some _ => true | None => false end.

(** [d[k]] on a dict: KeyError when the key is absent. *)
Definition getitem {A : Type} (d : list (Z * A)) (k : Z) : result A :=
  match lookup k d with
  | Some a => Ok a
  | None => Raise (KeyError (NilZero.string_of_int (Z.to_int k)))
  end.

Definition weekdays : list Z := [0; 1; 2; 3; 4; 5; 6]%Z.

Definition hours_of_day : list Z :=
  map Z.of_nat (seq 0 24).

(** [timedelta(days=n)] in seconds *)
Definition days_delta (n : Z) : Z := (86400 * n)%Z.

(** ** The seasonal AQI forecaster ([src/streamlitaap.py]) *)

Module Streamlitaap.

Record Forecast : Type :=
  mkForecast { day : nat; aqi : float; temp : float; date : Z }.

Section Forecaster.

(** The environment of one call: [now d] is what [datetime.now()] returns
    in the iteration for day [d]; [uniform k a b] is the value of the
    [k]-th call of [np.random.uniform], made with the finite bounds [a]
    and [b]; [sqrtQ] is the floating-point square root. *)
Variable now : nat -> Z.
Variable uniform : nat -> Q -> Q -> Q.
Variable sqrtQ : Q -> Q.

(** [Series.std()]: sample standard deviation (ddof = 1) of the non-missing
    values, NaN when fewer than two are left. *)
Definition std (l : list float) : float :=
  let v := valid l in
  if (List.length v <? 2)%nat then NaN
  else Fin (sqrtQ (Qss v / (Qlen v - 1))).

(** [np.random.uniform(low, high)]: numpy raises OverflowError when
    [high - low] is not finite. *)
Definition np_random_uniform (k : nat) (low high : float) : result float :=
  match low, high with
  | Fin a, Fin b => Ok (Fin (uniform k a b))
  | _, _ => Raise (OverflowError "Range exceeds valid bounds")
  end.

(** [groupby('dow')['aqi'].agg(['mean', 'std']).to_dict('index')] *)
Definition daily_aqi (aqi_s : list (Z * float)) : list (Z * (float * float)) :=
  groupby dayofweek weekdays (fun g => (mean g, std g)) aqi_s.

(** [groupby('dow')['temp'].mean().to_dict()] *)
Definition daily_temp (temp_s : list (Z * float)) : list (Z * float) :=
  groupby dayofweek weekdays mean temp_s.

(** [recent = df_sorted.tail(336)], one column of it *)
Definition recent (s : list (Z * float)) : list float := values (tail 336 s).

Definition recent_aqi (aqi_s : list (Z * float)) : float := mean (recent aqi_s).

Definition recent_temp (temp_s : list (Z * float)) : float :=
  mean (recent temp_s).

Definition recent_aqi_last3 (aqi_s : list (Z * float)) : float :=
  mean (tail 72 (recent aqi_s)).

Definition aqi_trend (aqi_s : list (Z * float)) : float :=
  fsub (recent_aqi_last3 aqi_s) (recent_aqi aqi_s).

(** [fdate = datetime.now() + timedelta(days=day)] *)
Definition fdate (d : nat) : Z := (now d + days_delta (Z.of_nat d))%Z.

(** The [if dow in daily_aqi: ... else: ...] of the loop body:
    [(base_aqi, aqi_std)]. *)
Definition seasonal_aqi (aqi_s : list (Z * float)) (dow : Z)
  : result (float * float) :=
  if contains (daily_aqi aqi_s) dow then
    stats <- getitem (daily_aqi aqi_s) dow ;;
    Ok (fst stats, snd stats)
  else Ok (recent_aqi aqi_s, std (recent aqi_s)).

(** [base_temp = daily_temp.get(dow, recent_temp)] *)
Definition seasonal_temp (temp_s : list (Z * float)) (dow : Z) : float :=
  get (daily_temp temp_s) dow (recent_temp temp_s).

Definition of_nat (n : nat) : float := Fin (inject_Z (Z.of_nat n)).

(** The values of one iteration before clipping:
    [(predicted_aqi, predicted_temp)]. *)
Definition predict (aqi_s temp_s : list (Z * float)) (d : nat)
  : result (float * float) :=
  let dow := dayofweek (fdate d) in
  stats <- seasonal_aqi aqi_s dow ;;
  let '(base_aqi, aqi_std) := stats in
  let base_temp := seasonal_temp temp_s dow in
  jitter <- np_random_uniform (2 * (d - 1))
              (fmul (fneg aqi_std) (Fin (2 # 10)))
              (fmul aqi_std (Fin (2 # 10))) ;;
  let predicted_aqi :=
    fadd (fadd base_aqi (fmul (fmul (aqi_trend aqi_s) (of_nat d)) (Fin (3 # 10))))
         jitter in
  jitter_t <- np_random_uniform (2 * (d - 1) + 1) (Fin (- (1))) (Fin 1) ;;
  let predicted_temp := fadd base_temp jitter_t in
  Ok (predicted_aqi, predicted_temp).

(** One iteration of the loop: the record appended to [forecasts]. *)
Definition forecast_day (aqi_s temp_s : list (Z * float)) (d : nat)
  : result Forecast :=
  p <- predict aqi_s temp_s d ;;
  Ok {| day := d;
        aqi := np_clip (fst p) 10 500;
        temp := np_clip (snd p) 15 45;
        date := fdate d |}.

(** The body of the [try] of [forecast_simple]. *)
Definition forecast_simple_try (df : DataFrame) (days : nat)
  : result (list Forecast) :=
  let df_sorted := sort_values (rows df) in
  aqi_s <- grouped df_sorted (columns df) "aqi" ;;
  temp_s <- grouped df_sorted (columns df) "temp" ;;
  for_each (forecast_day aqi_s temp_s) (seq 1 days).

(** [forecast_simple(df, days)]: the returned value ([None] is the absent
    result) and the messages handed to [st.error]. *)
Definition forecast_simple (df : DataFrame) (days : nat)
  : option (list Forecast) * list string :=
  match forecast_simple_try df days with
  | Ok forecasts => (Some forecasts, [])
  | Raise e => (None, [("Forecast error: " ++ str e)%string])
  end.

End Forecaster.

End Streamlitaap.

(** ** The hourly weather forecaster ([src/webapp.py]) *)

Module Webapp.

Record Forecast : Type :=
  mkForecast { day : nat;
               temps : list float;
               humidity : list float;
               wind : list float }.

Record Trends : Type :=
  mkTrends { temp_trend : float; humidity_trend : float; wind_trend : float }.

(** [Series.max()] and [Series.min()] of a timestamp column; [None] is NaT,
    the value on an empty column. *)
Definition ts_max (l : list Z) : option Z :=
  match l with
  | [] => None
  | t :: l' => Some (fold_right Z.max t l')
  end.

Definition ts_min (l : list Z) : option Z :=
  match l with
  | [] => None
  | t :: l' => Some (fold_right Z.min t l')
  end.

(** [total_seconds() / 3600] of a time difference in seconds *)
Definition to_hours (dt : Z) : Q := inject_Z dt / 3600.

(** [recent = df_sorted[df_sorted['timestamp'] >= last_timestamp -
    timedelta(days=7)]], one column of it.  A comparison with NaT is
    False. *)
Definition recent (s : list (Z * float)) : list (Z * float) :=
  match ts_max (map fst s) with
  | None => []
  | Some last_timestamp =>
      filter (fun p => (last_timestamp - days_delta 7 <=? fst p)%Z) s
  end.

(** [data['hrs']]: hours elapsed since the first timestamp of [data]. *)
Definition hrs (data : list (Z * float)) : list Q :=
  match ts_min (map fst data) with
  | None => []
  | Some t0 => map (fun p => to_hours (fst p - t0)) data
  end.

(** [x[mask], y[mask]] with [mask = ~np.isnan(y)], as pairs. *)
Fixpoint mask (x : list Q) (y : list float) : list (Q * Q) :=
  match x, y with
  | a :: x', Fin b :: y' => (a, b) :: mask x' y'
  | _ :: x', NaN :: y' => mask x' y'
  | _, _ => []
  end.

(** [np.sum((x - x.mean()) * (y - y.mean()))] *)
Definition Qsxy (xy : list (Q * Q)) : Q :=
  let mx := Qmean (map fst xy) in
  let my := Qmean (map snd xy) in
  Qsum (map (fun p => (fst p - mx) * (snd p - my)) xy).

(** [calc_trend(data, col)], [data[col]] given as a series *)
Definition calc_trend (data : list (Z * float)) : float :=
  let xy := mask (hrs data) (values data) in
  if (List.length xy <? 2)%nat then Fin 0
  else fdiv (Fin (Qsxy xy)) (Fin (Qss (map fst xy))).

(** [recent[col].tail(24).mean()] *)
Definition base (s : list (Z * float)) : float :=
  mean (values (tail 24 (recent s))).

(** [groupby('hour')[col].mean()] *)
Definition hourly (s : list (Z * float)) : list (Z * float) :=
  groupby hour hours_of_day mean s.

(** [groupby('dow')[col].mean()] *)
Definition weekly (s : list (Z * float)) : list (Z * float) :=
  groupby dayofweek weekdays mean s.

(** [(recent['timestamp'].max() - recent['timestamp'].min())
     .total_seconds() / 3600]; NaN on an empty window. *)
Definition last_hrs (s : list (Z * float)) : float :=
  match ts_max (map fst (recent s)), ts_min (map fst (recent s)) with
  | Some hi, Some lo => Fin (to_hours (hi - lo))
  | _, _ => NaN
  end.

(** [profile.get(k, default) - profile.mean()] *)
Definition deviation (profile : list (Z * float)) (k : Z) (default : float)
  : float :=
  fsub (get profile k default) (mean (values profile)).

(** [hr_off = last_hrs + (day - 1) * 24 + hr] *)
Definition hr_off (s : list (Z * float)) (d hr : nat) : float :=
  fadd (fadd (last_hrs s) (Fin (inject_Z ((Z.of_nat d - 1) * 24))))
       (Fin (inject_Z (Z.of_nat hr))).

Section Forecaster.

(** [now d] is what [datetime.now()] returns in the iteration for day [d];
    [normal k loc scale] is the value of the [k]-th call of
    [np.random.normal]. *)
Variable now : nat -> Z.
Variable normal : nat -> Q -> Q -> Q.

(** Number of [np.random.normal] calls made before hour [hr] of day [d]. *)
Definition draws_before (d hr : nat) : nat := 3 * (24 * (d - 1) + hr).

Definition dow_of (d : nat) : Z :=
  dayofweek (now d + days_delta (Z.of_nat d)).

(** [pred_t], before clipping *)
Definition pred_t (t_s : list (Z * float)) (d hr : nat) : float :=
  let weekly_t := deviation (weekly t_s) (dow_of d) (base t_s) in
  let t_seas := deviation (hourly t_s) (Z.of_nat hr) (base t_s) in
  fadd (fadd (fadd (fadd (base t_s) t_seas) weekly_t)
             (fmul (calc_trend (recent t_s)) (hr_off t_s d hr)))
       (Fin (normal (draws_before d hr) 0 (3 # 10))).

(** [pred_h], before clipping *)
Definition pred_h (h_s : list (Z * float)) (d hr : nat) : float :=
  let weekly_h := deviation (weekly h_s) (dow_of d) (base h_s) in
  let h_seas := deviation (hourly h_s) (Z.of_nat hr) (base h_s) in
  fadd (fadd (fadd (fadd (base h_s) h_seas) weekly_h)
             (fmul (calc_trend (recent h_s)) (hr_off h_s d hr)))
       (Fin (normal (draws_before d hr + 1) 0 (15 # 10))).

(** [pred_w], before clipping *)
Definition pred_w (w_s : list (Z * float)) (d hr : nat) : float :=
  let w_seas := deviation (hourly w_s) (Z.of_nat hr) (base w_s) in
  fadd (fadd (fadd (base w_s) w_seas)
             (fmul (calc_trend (recent w_s)) (hr_off w_s d hr)))
       (Fin (normal (draws_before d hr + 2) 0 (2 # 10))).

(** One iteration of the outer loop: the record [fc]. *)
Definition forecast_day (t_s h_s w_s : list (Z * float)) (d : nat) : Forecast :=
  {| day := d;
     temps := map (fun hr => np_clip (pred_t t_s d hr) 15 45) (seq 0 24);
     humidity := map (fun hr => np_clip (pred_h h_s d hr) 20 100) (seq 0 24);
     wind := map (fun hr => np_clip (pred_w w_s d hr) 0 25) (seq 0 24) |}.

(** The body of the [try] of [forecast_weather]. *)
Definition forecast_weather_try (df : DataFrame) (days : nat)
  : result (list Forecast * Trends) :=
  let df_sorted := sort_values (rows df) in
  t_s <- grouped df_sorted (columns df) "temp_C" ;;
  h_s <- grouped df_sorted (columns df) "humidity_percent" ;;
  w_s <- grouped df_sorted (columns df) "wind_speed_mps" ;;
  Ok (map (forecast_day t_s h_s w_s) (seq 1 days),
      {| temp_trend := calc_trend (recent t_s);
         humidity_trend := calc_trend (recent h_s);
         wind_trend := calc_trend (recent w_s) |}).

(** [forecast_weather(df, days)]: the returned pair ([(None, None)] is the
    absent result) and the messages handed to [st.error]. *)
Definition forecast_weather (df : DataFrame) (days : nat)
  : (option (list Forecast) * option Trends) * list string :=
  match forecast_weather_try df days with
  | Ok (forecasts, trends) => ((Some forecasts, Some trends), [])
  | Raise e => ((None, None), [("Forecast error: " ++ str e)%string])
  end.

End Forecaster.

End Webapp.

(** ** The table loader ([load_data], the same in both apps) *)

(** White space as [str.strip()] understands it, on ASCII text. *)
Definition is_space (c : ascii) : bool :=
  let n := nat_of_ascii c in
  ((9 <=? n) && (n <=? 13) || (28 <=? n) && (n <=? 32))%nat.

Fixpoint lstrip (s : list ascii) : list ascii :=
  match s with
  | c :: s' => if is_space c then lstrip s' else s
  | [] => []
  end.

Definition rstrip (s : list ascii) : list ascii := rev (lstrip (rev s)).

(** [str.strip()] *)
Definition strip (s : string) : string :=
  string_of_list_ascii (rstrip (lstrip (list_ascii_of_string s))).

(** [str.strip()] removes the blanks of Unicode as well; on a label made
    of ASCII characters only they are the ones above. *)
Definition ascii_label (s : string) : bool :=
  forallb (fun c => (nat_of_ascii c <? 128)%nat) (list_ascii_of_string s).

(** What [pd.read_csv] yields: the header as written in the file and the
    rows of fields. *)
Record RawFrame : Type :=
  mkRaw { raw_columns : list string; raw_rows : list (list cell) }.

(** [df.dropna(subset=['timestamp'])] on rows paired with their parsed
    timestamp ([None] is NaT). *)
Fixpoint dropna (l : list (option Z * list cell)) : list Row :=
  match l with
  | [] => []
  | (Some t, r) :: l' => mkRow t r :: dropna l'
  | (None, _) :: l' => dropna l'
  end.

Section Loader.

(** [to_datetime col] is the outcome of
    [pd.to_datetime(col, errors='coerce')] on the column [col]: an
    exception ([errors='coerce'] does not cover every failure: a column
    that mixes UTC offsets raises), or the value given to each field,
    [None] being NaT, which is what a field that does not parse becomes. *)
Variable to_datetime : list cell -> result (cell -> option Z).

(** The body of the [try] of [load_data]; [file] is the outcome of
    [pd.read_csv]. *)
Definition load_data_try (file : result RawFrame) : result DataFrame :=
  df <- file ;;
  let cols := map strip (raw_columns df) in
  i <- column_index cols "timestamp" ;;
  let col := map (fun r => nth i r Missing) (raw_rows df) in
  parse <- to_datetime col ;;
  let parsed := map (fun r => (parse (nth i r Missing), r)) (raw_rows df) in
  Ok {| columns := cols; rows := sort_values (dropna parsed) |}.

(** [load_data()]: the returned table ([None] on failure) and the messages
    handed to [st.error]. *)
Definition load_data (file : result RawFrame) : option DataFrame * list string :=
  match load_data_try file with
  | Ok df => (Some df, [])
  | Raise e => (None, [("Error loading data: " ++ str e)%string])
  end.

End Loader.

(** ** Reference definitions *)

(** Following the specification of the trend estimator: the covariance of
    the samples, the variance of their abscissas, and the slope of the
    least-squares line as their ratio. *)
Definition covariance (xy : list (Q * Q)) : Q :=
  Webapp.Qsxy xy / Qlen (map fst xy).

Definition variance (x : list Q) : Q := Qss x / Qlen x.

Definition ols_slope (xy : list (Q * Q)) : float :=
  fdiv (Fin (covariance xy)) (Fin (variance (map fst xy))).

(** The non-missing samples [calc_trend] works on: elapsed hours since the
    first timestamp of the window, and the value. *)
Definition samples (data : list (Z * float)) : list (Q * Q) :=
  Webapp.mask (Webapp.hrs data) (values data).

(** Sum of squared residuals of the line [a + b * x] on the samples. *)
Definition sse (xy : list (Q * Q)) (a b : Q) : Q :=
  Qsum (map (fun p => (snd p - (a + b * fst p)) * (snd p - (a + b * fst p))) xy).

(** ** Stand-ins for the environment, to run the code on examples *)

(** A clock that stands still at [t]. *)
Definition clock_at (t : Z) : nat -> Z := fun _ => t.

(** 1970-01-04 00:00, a Sunday. *)
Definition sunday : Z := 259200%Z.

(** The uniform draw in the middle of its interval. *)
Definition midpoint : nat -> Q -> Q -> Q := fun _ a b => (a + b) / 2.

(** A normal draw that returns its mean whatever the scale: the noise
    stubbed to 0 when the mean is 0. *)
Definition no_noise : nat -> Q -> Q -> Q := fun _ loc _ => loc.

(** Square root, rounded down to six decimals. *)
Definition sqrt6 (q : Q) : Q :=
  Z.sqrt (Qnum q * 1000000000000 / Zpos (Qden q)) # 1000000.

(** A history of two Monday rows whose temperature is missing. *)
Definition df_missing_temp : DataFrame :=
  {| columns := ["timestamp"; "temp"; "aqi"];
     rows := [ mkRow 345600 [Text "1970-01-05 00:00"; Missing; Number 80];
               mkRow 349200 [Text "1970-01-05 01:00"; Missing; Number 90] ] |}.

(** A history of two Monday rows with values beyond the clipping bounds. *)
Definition df_extreme : DataFrame :=
  {| columns := ["timestamp"; "temp"; "aqi"];
     rows := [ mkRow 345600 [Text "1970-01-05 00:00"; Number 50; Number 700];
               mkRow 349200 [Text "1970-01-05 01:00"; Number 52; Number 900] ] |}.

(** A two-row weather history. *)
Definition df_weather : DataFrame :=
  {| columns := ["timestamp"; "temp_C"; "humidity_percent"; "wind_speed_mps";
                 "pm2_5_ugm3"];
     rows := [ mkRow 345600 [Text "1970-01-05 00:00"; Number 20; Number 50;
                             Number 2; Number 30];
               mkRow 432000 [Text "1970-01-06 00:00"; Number 22; Number 60;
                             Number 4; Number 35] ] |}.

(** A history with two Monday rows and a single Tuesday row: the Tuesday
    group has no standard deviation. *)
Definition df_short : DataFrame :=
  {| columns := ["timestamp"; "temp"; "aqi"];
     rows := [ mkRow 345600 [Text "1970-01-05 00:00"; Number 20; Number 80];
               mkRow 349200 [Text "1970-01-05 01:00"; Number 21; Number 90];
               mkRow 432000 [Text "1970-01-06 00:00"; Number 22; Number 70] ] |}.

(** A weather table without its humidity column. *)
Definition df_no_humidity : DataFrame :=
  {| columns := ["timestamp"; "temp_C"; "wind_speed_mps"];
     rows := [ mkRow 345600 [Text "1970-01-05 00:00"; Number 20; Number 2] ] |}.

(** The AQI and temperature series of [df_extreme]. *)
Definition aqi_extreme : list (Z * float) :=
  [(345600, Fin 700); (349200, Fin 900)]%Z.

Definition temp_extreme : list (Z * float) :=
  [(345600, Fin 50); (349200, Fin 52)]%Z.




(** Following the specification of the hourly forecaster, which gives every
    quantity a day-of-week deviation: the wind speed before clipping. *)
Definition claimed_pred_w (now : nat -> Z) (normal : nat -> Q -> Q -> Q)
  (w_s : list (Z * float)) (d hr : nat) : float :=
  let weekly_w :=
    Webapp.deviation (Webapp.weekly w_s) (Webapp.dow_of now d) (Webapp.base w_s) in
  let w_seas :=
    Webapp.deviation (Webapp.hourly w_s) (Z.of_nat hr) (Webapp.base w_s) in
  fadd (fadd (fadd (fadd (Webapp.base w_s) w_seas) weekly_w)
             (fmul (Webapp.calc_trend (Webapp.recent w_s)) (Webapp.hr_off w_s d hr)))
       (Fin (normal (Webapp.draws_before d hr + 2)%nat 0 (2 # 10))).

(** The trailing 7-day window of a timestamp column. *)
Definition window (ts : list Z) : list Z :=
  match Webapp.ts_max ts with
  | None => []
  | Some last_timestamp => filter (fun t => (last_timestamp - days_delta 7 <=? t)%Z) ts
  end.

(** 1970-01-05 00:00, a Monday. *)
Definition monday : Z := 345600%Z.

(** The wind speed series of [df_weather]. *)
Definition wind_weather : list (Z * float) :=
  [(345600, Fin 2); (432000, Fin 4)]%Z.

(** Every row of the table holds the number [c] in the column [name]. *)
Definition constant_column (df : DataFrame) (name : string) (c : Q) : Prop :=
  exists i, column_index (columns df) name = Ok i /\
            forall r, In r (rows df) -> nth i (cells r) Missing = Number c.

(** Weather tables of two rows with constant columns: one within the
    clipping bounds, one with a temperature below them, one whose two rows
    carry the same timestamp. *)
Definition df_steady : DataFrame :=
  {| columns := ["timestamp"; "temp_C"; "humidity_percent"; "wind_speed_mps"];
     rows := [ mkRow 345600 [Text "1970-01-05 00:00"; Number 20; Number 50; Number 3];
               mkRow 349200 [Text "1970-01-05 01:00"; Number 20; Number 50; Number 3] ] |}.

Definition df_cold : DataFrame :=
  {| columns := ["timestamp"; "temp_C"; "humidity_percent"; "wind_speed_mps"];
     rows := [ mkRow 345600 [Text "1970-01-05 00:00"; Number 10; Number 50; Number 3];
               mkRow 349200 [Text "1970-01-05 01:00"; Number 10; Number 50; Number 3] ] |}.

Definition df_twins : DataFrame :=
  {| columns := ["timestamp"; "temp_C"; "humidity_percent"; "wind_speed_mps"];
     rows := [ mkRow 345600 [Text "1970-01-05 00:00"; Number 20; Number 50; Number 3];
               mkRow 345600 [Text "1970-01-05 00:00"; Number 20; Number 50; Number 3] ] |}.

(** A label without white space at either end. *)
Definition no_outer_space (s : string) : Prop :=
  match list_ascii_of_string s with
  | [] => True
  | c :: _ => is_space c = false
  end /\
  match rev (list_ascii_of_string s) with
  | [] => True
  | c :: _ => is_space c = false
  end.

(** A stand-in for the timestamp parser: the text of a whole number is that
    many seconds since the epoch, anything else does not parse. *)
Definition parse_epoch (col : list cell) : result (cell -> option Z) :=
  Ok (fun c => match c with
               | Text s => option_map Z.of_int (NilZero.int_of_string s)
               | _ => None
               end).

(** A stand-in for the parser on a column that mixes UTC offsets. *)
Definition parse_mixed (col : list cell) : result (cell -> option Z) :=
  Raise (ValueError "Mixed timezones detected. Pass utc=True in to_datetime or tz='UTC' in DatetimeIndex to convert to a common timezone.").

(** A file with padded labels, rows out of order and one timestamp that
    does not parse. *)
Definition raw_messy : RawFrame :=
  {| raw_columns := [" timestamp "; "aqi "; "  temp"];
     raw_rows := [ [Text "7200"; Number 80; Number 21];
                   [Text "n/a"; Number 85; Number 22];
                   [Text "3600"; Number 90; Number 23] ] |}.

(** A file with the same timestamp on two rows. *)
Definition raw_twins : RawFrame :=
  {| raw_columns := ["timestamp"; "aqi"; "temp"];
     raw_rows := [ [Text "3600"; Number 80; Number 21];
                   [Text "3600"; Number 90; Number 23] ] |}.

(** Ascending order of timestamps, equal timestamps allowed. *)
Definition by_time (r r' : Row) : Prop := (timestamp r <= timestamp r')%Z.

(** The rows of a window that carry a value, as (timestamp, value). *)
Definition valid_rows (data : list (Z * float)) : list (Z * Q) :=
  flat_map (fun p => match snd p with
                     | Fin y => [(fst p, y)]
                     | NaN => []
                     end) data.

(** The sample of a row: hours elapsed since [t0], and the value. *)
Definition sample_of (t0 : Z) (r : Z * Q) : Q * Q :=
  (Webapp.to_hours (fst r - t0), snd r).

(** [~np.isnan(y)] on a row of a series. *)
Definition has_value (p : Z * float) : bool := negb (is_nan (snd p)).

(** The categories of [get_aqi_category] with their colours, in the order
    of the branches, and the rank of a category in that order. *)
Definition categories : list (string * string) :=
  [ ("Good", "#10b981"); ("Moderate", "#f59e0b");
    ("Unhealthy for Sensitive", "#ff6b6b"); ("Unhealthy", "#ef4444");
    ("Very Unhealthy", "#c026d3"); ("Hazardous", "#7c2d12") ].

Fixpoint rank_in (l : list (string * string)) (c : string * string) : nat :=
  match l with
  | [] => O
  | c' :: l' =>
      if (String.eqb (fst c') (fst c) && String.eqb (snd c') (snd c))%bool then O
      else S (rank_in l' c)
  end.

Definition severity (c : string * string) : nat := rank_in categories c.

(** [s.iloc[-1]]: the last element; [None] stands for the IndexError on an
    empty column, which the guard [len(df) > 0] of the callers excludes. *)
Definition iloc_last {A : Type} (l : list A) : option A :=
  match rev l with
  | [] => None
  | a :: _ => Some a
  end.

(** [df[name].iloc[-1]] in the dashboards ([current_temp], [current_aqi],
    ...): the table is used as loaded, without a further sort. *)
Definition current (df : DataFrame) (name : string) : result (option float) :=
  s <- series (rows df) (columns df) name ;;
  Ok (iloc_last (values s)).

(** ** The forecast tab of the weather dashboard ([src/webapp.py]) *)

(** [a > b] on floats: False with NaN. *)
Definition fgt (a : float) (b : Q) : bool :=
  match a with Fin x => negb (Qle_bool x b) | NaN => false end.

(** ["Rising" if trends[...] > 0 else "Falling"], with the icons of the
    source *)
Definition trend_label (slope : float) : string :=
  if fgt slope 0 then "📈 Rising" else "📉 Falling".

Definition fmin (a b : float) : float :=
  match a, b with Fin x, Fin y => Fin (Qmin x y) | _, _ => NaN end.

Definition fmax (a b : float) : float :=
  match a, b with Fin x, Fin y => Fin (Qmax x y) | _, _ => NaN end.

(** [np.mean] of a list: NaN as soon as one element is NaN, and on the
    empty list. *)
Definition np_mean (l : list float) : float :=
  if existsb is_nan l then NaN else mean l.

(** [np.min] and [np.max] of a list: NaN as soon as one element is NaN; a
    ValueError on the empty list. *)
Definition np_min (l : list float) : result float :=
  match l with
  | [] => Raise (ValueError "zero-size array to reduction operation minimum which has no identity")
  | x :: l' => Ok (fold_left fmin l' x)
  end.

Definition np_max (l : list float) : result float :=
  match l with
  | [] => Raise (ValueError "zero-size array to reduction operation maximum which has no identity")
  | x :: l' => Ok (fold_left fmax l' x)
  end.

(** The [if avg_t > 35: ... elif ...] of the daily card: [(cond, color)]. *)
Definition condition (avg_t : float) : string * string :=
  if fgt avg_t 35 then ("🔥 Very Hot", "#ef4444")
  else if fgt avg_t 30 then ("☀️ Hot", "#f59e0b")
  else if fgt avg_t 25 then ("🌤️ Warm", "#10b981")
  else ("😊 Pleasant", "#3b82f6").

(** What the card of one forecast day shows. *)
Record Card : Type :=
  mkCard { avg_t : float; min_t : float; max_t : float;
           avg_h : float; avg_w : float; cond : string * string }.

(** The body of [for i, fc in enumerate(forecasts)] up to the rendering. *)
Definition card (fc : Webapp.Forecast) : result Card :=
  let avg := np_mean (Webapp.temps fc) in
  lo <- np_min (Webapp.temps fc) ;;
  hi <- np_max (Webapp.temps fc) ;;
  Ok {| avg_t := avg; min_t := lo; max_t := hi;
        avg_h := np_mean (Webapp.humidity fc);
        avg_w := np_mean (Webapp.wind fc);
        cond := condition avg |}.

(** ** The insights tab of the dashboards *)

(** [heat_idx = recent_t + (0.5 * (recent_h - 50) / 10)] *)
Definition heat_index (recent_t recent_h : float) : float :=
  fadd recent_t (fdiv (fmul (Fin (1 # 2)) (fsub recent_h (Fin 50))) (Fin 10)).

(** The [if heat_idx > 35: ... elif ...] that picks the advice. *)
Definition advice (heat_idx : float) : string :=
  if fgt heat_idx 35 then "Stay indoors • High heat risk"
  else if fgt heat_idx 30 then "Early morning walks recommended"
  else "Perfect for outdoor activities".

(** The heat index of a table: [df[temp].tail(24).mean()] and
    [df[humidity].tail(24).mean()] put together.  The column labels differ
    between the two apps. *)
Definition table_heat_index (df : DataFrame) (temp_col hum_col : string)
  : result float :=
  t <- series (rows df) (columns df) temp_col ;;
  h <- series (rows df) (columns df) hum_col ;;
  Ok (heat_index (mean (tail 24 (values t))) (mean (tail 24 (values h)))).

(** The entry of a profile that wins under [better], NaN entries skipped;
    an entry replaces the current one only when strictly better, so the
    first of several equal ones is kept. *)
Fixpoint best (better : Q -> Q -> bool) (profile : list (Z * float))
  (acc : option (Z * Q)) : option (Z * Q) :=
  match profile with
  | [] => acc
  | (_, NaN) :: profile' => best better profile' acc
  | (k, Fin v) :: profile' =>
      match acc with
      | None => best better profile' (Some (k, v))
      | Some (_, v0) =>
          if better v v0 then best better profile' (Some (k, v))
          else best better profile' acc
      end
  end.

Definition Qlt_bool (a b : Q) : bool := negb (Qle_bool b a).

(** [int(s.idxmax())] and [int(s.idxmin())]: the key of the first largest
    (smallest) value; without any value there is no key and an exception
    is raised, by [idxmax] itself or by [int] on its NaN. *)
Definition idxmax (profile : list (Z * float)) : result Z :=
  match best (fun v v0 => Qlt_bool v0 v) profile None with
  | Some (k, _) => Ok k
  | None => Raise (ValueError "attempt to get argmax of an empty sequence")
  end.

Definition idxmin (profile : list (Z * float)) : result Z :=
  match best (fun v v0 => Qlt_bool v v0) profile None with
  | Some (k, _) => Ok k
  | None => Raise (ValueError "attempt to get argmin of an empty sequence")
  end.

(** [s.max()] and [s.min()], NaN skipped; NaN without any value. *)
Definition series_max (profile : list (Z * float)) : float :=
  match best (fun v v0 => Qlt_bool v0 v) profile None with
  | Some (_, v) => Fin v
  | None => NaN
  end.

Definition series_min (profile : list (Z * float)) : float :=
  match best (fun v v0 => Qlt_bool v v0) profile None with
  | Some (_, v) => Fin v
  | None => NaN
  end.

(** A block [try: ... except: pass]: what it shows, nothing on an
    exception. *)
Definition shown {A : Type} (block : result A) : option A :=
  match block with Ok a => Some a | Raise _ => None end.

(** "Peak Heat": the hour with the highest mean temperature and that
    mean. *)
Definition peak_heat (df : DataFrame) (temp_col : string) : option (Z * float) :=
  shown (s <- series (rows df) (columns df) temp_col ;;
         let ht := groupby hour hours_of_day mean s in
         ph <- idxmax ht ;;
         Ok (ph, series_max ht)).

(** "Best Walk Time": the hour with the lowest mean temperature and that
    mean. *)
Definition best_walk (df : DataFrame) (temp_col : string) : option (Z * float) :=
  shown (s <- series (rows df) (columns df) temp_col ;;
         let ct := groupby hour hours_of_day mean s in
         ch <- idxmin ct ;;
         Ok (ch, series_min ct)).

(** ** The feature pipeline ([src/test_aqi_ds10pearls.py]) *)

Module Pipeline.

(** A [datetime] at midnight, as the configured [start_date] and
    [end_date] are; [relativedelta] leaves the time of day alone. *)
Record date : Type := mkDate { year : Z; month : Z; day : Z }.

Definition is_leap (y : Z) : bool :=
  ((y mod 4 =? 0) && (negb (y mod 100 =? 0) || (y mod 400 =? 0)))%Z.

(** [calendar.monthrange(y, m)[1]] *)
Definition days_in_month (y m : Z) : Z :=
  if (m =? 2)%Z then (if is_leap y then 29 else 28)%Z
  else if ((m =? 4) || (m =? 6) || (m =? 9) || (m =? 11))%Z then 30%Z
  else 31%Z.

(** [d + relativedelta(months=1)]: the next month, the day brought back to
    the last day of that month when it has fewer days. *)
Definition add_month (d : date) : date :=
  let y := if (month d =? 12)%Z then (year d + 1)%Z else year d in
  let m := if (month d =? 12)%Z then 1%Z else (month d + 1)%Z in
  {| year := y; month := m; day := Z.min (day d) (days_in_month y m) |}.

(** [a < b] on datetimes *)
Definition date_ltb (a b : date) : bool :=
  ((year a <? year b) ||
   ((year a =? year b) &&
    ((month a <? month b) || ((month a =? month b) && (day a <? day b)))))%Z.

(** [min(a, b)]: [b] only when [b < a]. *)
Definition date_min (a b : date) : date := if date_ltb b a then b else a.

(** [start_date] and [end_date] of the configuration *)
Definition start_date : date := {| year := 2024; month := 1; day := 1 |}.
Definition end_date : date := {| year := 2025; month := 1; day := 1 |}.

Inductive Outcome (T : Type) : Type :=
| Aborted
| Saved (table : T).

Arguments Aborted {T}.
Arguments Saved {T} table.

Section FeaturePipeline.

(** [F] is a fetched frame and [T] the saved feature table.  [fetch a b]
    is [fetch_open_meteo_chunk(latitude, longitude, a, b)], which may
    raise; [empty] is [DataFrame.empty]; [engineer] stands for the
    concatenation, renaming and saving of the frames kept, which may
    raise as well. *)
Variables F T : Type.
Variable fetch : date -> date -> result F.
Variable empty : F -> bool.
Variable engineer : list F -> result T.

(** The [while current < end_date] loop, [fuel] bounding its iterations:
    [None] when the fuel runs out. *)
Fixpoint feature_loop (fuel : nat) (stop current : date) (frames : list F)
  : option (result (list F)) :=
  match fuel with
  | O => None
  | S fuel' =>
      if date_ltb current stop then
        let chunk_end := date_min (add_month current) stop in
        match fetch current chunk_end with
        | Raise e => Some (Raise e)
        | Ok df_chunk =>
            feature_loop fuel' stop chunk_end
              (if empty df_chunk then frames else frames ++ [df_chunk])
        end
      else Some (Ok frames)
  end.

(** [run_feature_pipeline()] between two dates *)
Definition run_between (fuel : nat) (start stop : date)
  : option (result (Outcome T)) :=
  match feature_loop fuel stop start [] with
  | None => None
  | Some (Raise e) => Some (Raise e)
  | Some (Ok []) => Some (Ok Aborted)
  | Some (Ok frames) => Some (t <- engineer frames ;; Ok (Saved t))
  end.

(** [run_feature_pipeline()] *)
Definition run_feature_pipeline (fuel : nat) : option (result (Outcome T)) :=
  run_between fuel start_date end_date.

End FeaturePipeline.

(** The date ranges the loop asks for, in order. *)
Fixpoint schedule (fuel : nat) (stop current : date) : option (list (date * date)) :=
  match fuel with
  | O => None
  | S fuel' =>
      if date_ltb current stop then
        let chunk_end := date_min (add_month current) stop in
        option_map (cons (current, chunk_end)) (schedule fuel' stop chunk_end)
      else Some []
  end.

(** Months since year 0. *)
Definition month_index (d : date) : Z := (12 * year d + month d)%Z.

(** Enough fuel for the loop from [start] to [stop]. *)
Definition enough (start stop : date) : nat :=
  S (Z.to_nat (month_index stop - month_index start + 1)).

(** The ranges of [sch] follow one another from [a] to [b]: each starts
    where the one before ends, is not empty and ends a month after its
    start, or at [b] if that comes first. *)
Fixpoint chained (a : date) (sch : list (date * date)) (b : date) : Prop :=
  match sch with
  | [] => a = b
  | (x, y) :: sch' =>
      x = a /\ date_ltb x y = true /\
      (y = add_month x \/ (y = b /\ date_ltb b (add_month x) = true)) /\
      chained y sch' b
  end.

(** A month between 1 and 12. *)
Definition valid_month (d : date) : Prop := (1 <= month d <= 12)%Z.

(** [not df_chunk.empty] *)
Definition kept {F : Type} (empty : F -> bool) (fs : list F) : list F :=
  filter (fun f => negb (empty f)) fs.

End Pipeline.

(** ** Constant histories and double precision *)

(** The finite numbers of IEEE-754 binary64, the floats of the code:
    [m * 2^e] with a significand below 2^53. *)
Definition binary64 (q : Q) : Prop :=
  exists m e : Z,
    (Z.abs m < 2 ^ 53)%Z /\ (-1074 <= e <= 971)%Z /\
    q == inject_Z m * Qpower 2 e.

(** [c] and its multiples up to [n] are floats.  The sum of up to [n]
    copies of [c], in whatever order it is taken, and its quotient by
    their number are then computed without rounding, so that on a column
    of [n] rows that all hold [c] the rational floats of this file are the
    floats of the code. *)
Definition exact_multiples (c : Q) (n : nat) : Prop :=
  forall j : nat, (1 <= j <= n)%nat -> binary64 (inject_Z (Z.of_nat j) * c).

(** The trailing window of a table with the timestamps [ts] has two rows
    or more, all of them on the latest timestamp: the elapsed hours are
    all 0 and the slope of [calc_trend] is 0/0. *)
Definition stalled (ts : list Z) : bool :=
  match Webapp.ts_max ts with
  | None => false
  | Some last =>
      (2 <=? List.length (window ts))%nat && forallb (Z.eqb last) (window ts)
  end.

(** The code computes in double precision, which the rational floats leave
    out.  The binary64 numbers of the kernel give the value that the mean
    of a column really takes. *)
Module Binary64.

Definition of_Z (z : Z) : PrimFloat.float := PrimFloat.of_uint63 (Uint63.of_Z z).

(** [Series.mean()] of a short column without missing values: the values
    are added in order and the sum is divided by their number. *)
Definition mean (l : list PrimFloat.float) : PrimFloat.float :=
  PrimFloat.div (fold_left PrimFloat.add l PrimFloat.zero)
                (of_Z (Z.of_nat (List.length l))).

(** [recent[col].tail(24).mean()], on the values of the window *)
Definition base (window_values : list PrimFloat.float) : PrimFloat.float :=
  mean (tail 24 window_values).

(** The float written [0.1] *)
Definition tenth : PrimFloat.float := PrimFloat.div (of_Z 1) (of_Z 10).

End Binary64.

(** * Properties *)

(** ** AQI categories *)

Lemma fle_Fin (q b : Q) : fle (Fin q) b = true <-> q <= b.
Proof. apply Qle_bool_iff. Qed.

Lemma fle_Fin_false (q b : Q) : fle (Fin q) b = false <-> b < q.
Proof.
  simpl. split; intro H.
  - apply Qnot_le_lt. intro Hle. apply Qle_bool_iff in Hle. congruence.
  - destruct (Qle_bool q b) eqn:E; [|reflexivity].
    apply Qle_bool_iff in E. exfalso. apply (Qlt_not_le _ _ H E).
Qed.

Ltac category :=
  unfold get_aqi_category;
  repeat match goal with
  | H : _ <= _ |- _ => apply fle_Fin in H; rewrite H; clear H
  | H : _ < _ |- _ => apply fle_Fin_false in H; rewrite H; clear H
  end; reflexivity.

(** C10: [get_aqi_category] is a total function that splits the AQI values
    at 50, 100, 150, 200 and 300 into six categories, each with its colour:
    up to 50 (zero and negative values included) "Good", (50,100]
    "Moderate", (100,150] "Unhealthy for Sensitive", (150,200]
    "Unhealthy", (200,300] "Very Unhealthy", above 300 "Hazardous"; the
    six cases cover every value and exclude one another. *)
Theorem get_aqi_category_partition (q : Q) :
  (q <= 50 -> get_aqi_category (Fin q) = ("Good", "#10b981")) /\
  (50 < q -> q <= 100 -> get_aqi_category (Fin q) = ("Moderate", "#f59e0b")) /\
  (100 < q -> q <= 150 ->
   get_aqi_category (Fin q) = ("Unhealthy for Sensitive", "#ff6b6b")) /\
  (150 < q -> q <= 200 -> get_aqi_category (Fin q) = ("Unhealthy", "#ef4444")) /\
  (200 < q -> q <= 300 ->
   get_aqi_category (Fin q) = ("Very Unhealthy", "#c026d3")) /\
  (300 < q -> get_aqi_category (Fin q) = ("Hazardous", "#7c2d12")) /\
  (q <= 50 \/ (50 < q /\ q <= 100) \/ (100 < q /\ q <= 150) \/
   (150 < q /\ q <= 200) \/ (200 < q /\ q <= 300) \/ 300 < q).
Proof.
  repeat apply conj; intros.
  - category.
  - category.
  - assert (H1 : 50 < q) by lra. category.
  - assert (H1 : 50 < q) by lra. assert (H2 : 100 < q) by lra. category.
  - assert (H1 : 50 < q) by lra. assert (H2 : 100 < q) by lra.
    assert (H3 : 150 < q) by lra. category.
  - assert (H1 : 50 < q) by lra. assert (H2 : 100 < q) by lra.
    assert (H3 : 150 < q) by lra. assert (H4 : 200 < q) by lra. category.
  - destruct (Qlt_le_dec 50 q); [|lra].
    destruct (Qlt_le_dec 100 q); [|lra].
    destruct (Qlt_le_dec 150 q); [|lra].
    destruct (Qlt_le_dec 200 q); [|lra].
    destruct (Qlt_le_dec 300 q); lra.
Qed.

Lemma get_aqi_category_partition_witness :
  get_aqi_category (Fin 0) = ("Good", "#10b981") /\
  get_aqi_category (Fin (- (5))) = ("Good", "#10b981") /\
  get_aqi_category (Fin 50) = ("Good", "#10b981") /\
  get_aqi_category (Fin (501 # 10)) = ("Moderate", "#f59e0b") /\
  get_aqi_category (Fin 150) = ("Unhealthy for Sensitive", "#ff6b6b") /\
  get_aqi_category (Fin 175) = ("Unhealthy", "#ef4444") /\
  get_aqi_category (Fin 300) = ("Very Unhealthy", "#c026d3") /\
  get_aqi_category (Fin 301) = ("Hazardous", "#7c2d12").
Proof.
  repeat apply conj.
  - apply (get_aqi_category_partition 0). lra.
  - apply (get_aqi_category_partition (- (5))). lra.
  - apply (get_aqi_category_partition 50). lra.
  - apply (get_aqi_category_partition (501 # 10)); lra.
  - apply (get_aqi_category_partition 150); lra.
  - apply (get_aqi_category_partition 175); lra.
  - apply (get_aqi_category_partition 300); lra.
  - apply (get_aqi_category_partition 301); lra.
Defined.

(** ** Sums and means of rationals *)

Lemma Qsum_ext {A : Type} (f g : A -> Q) (l : list A) :
  (forall a, In a l -> f a == g a) -> Qsum (map f l) == Qsum (map g l).
Proof.
  induction l as [|a l IH]; simpl; intro H; [reflexivity|].
  rewrite (H a (or_introl eq_refl)), IH; [reflexivity|].
  intros b Hb. apply H. now right.
Qed.

Lemma Qsum_plus {A : Type} (f g : A -> Q) (l : list A) :
  Qsum (map (fun a => f a + g a) l) == Qsum (map f l) + Qsum (map g l).
Proof. induction l as [|a l IH]; simpl; [|rewrite IH]; ring. Qed.

Lemma Qsum_scale {A : Type} (c : Q) (f : A -> Q) (l : list A) :
  Qsum (map (fun a => c * f a) l) == c * Qsum (map f l).
Proof. induction l as [|a l IH]; simpl; [|rewrite IH]; ring. Qed.

Lemma Qlen_cons (a : Q) (l : list Q) : Qlen (a :: l) == 1 + Qlen l.
Proof.
  unfold Qlen. cbn [List.length]. rewrite Nat2Z.inj_succ, <- Z.add_1_l.
  rewrite inject_Z_plus. reflexivity.
Qed.

Lemma Qlen_nonneg (l : list Q) : 0 <= Qlen l.
Proof.
  unfold Qlen. change 0 with (inject_Z 0). rewrite <- Zle_Qle. lia.
Qed.

Lemma Qlen_pos (l : list Q) : l <> [] -> 0 < Qlen l.
Proof.
  destruct l as [|a l]; [congruence|]. intros _.
  rewrite Qlen_cons. pose proof (Qlen_nonneg l). lra.
Qed.

Lemma Qlen_map {A : Type} (f g : A -> Q) (l : list A) :
  Qlen (map f l) = Qlen (map g l).
Proof. unfold Qlen. now rewrite !length_map. Qed.

Lemma Qsum_const {A : Type} (c : Q) (f : A -> Q) (l : list A) :
  Qsum (map (fun _ => c) l) == c * Qlen (map f l).
Proof.
  induction l as [|a l IH]; [simpl; unfold Qlen; simpl; ring|].
  cbn [map]. rewrite Qlen_cons. simpl. rewrite IH. ring.
Qed.

(** The deviations from the mean add up to zero. *)
Lemma Qsum_centered {A : Type} (f : A -> Q) (l : list A) :
  l <> [] ->
  Qsum (map (fun a => f a - Qmean (map f l)) l) == 0.
Proof.
  intro Hl.
  assert (Hn : 0 < Qlen (map f l)).
  { apply Qlen_pos. destruct l; [congruence|discriminate]. }
  rewrite (Qsum_ext _ (fun a => f a + (-1) * Qmean (map f l))) by (intros; ring).
  rewrite Qsum_plus, Qsum_scale, (Qsum_const _ f).
  unfold Qmean. field. lra.
Qed.

Lemma Qsum_nonneg {A : Type} (f : A -> Q) (l : list A) :
  (forall a, In a l -> 0 <= f a) -> 0 <= Qsum (map f l).
Proof.
  induction l as [|a l IH]; simpl; intro H; [lra|].
  pose proof (H a (or_introl eq_refl)).
  assert (0 <= Qsum (map f l)) by (apply IH; intros; apply H; now right).
  lra.
Qed.

Lemma Qsum_zero_terms {A : Type} (f : A -> Q) (l : list A) :
  (forall a, In a l -> 0 <= f a) -> Qsum (map f l) == 0 ->
  forall a, In a l -> f a == 0.
Proof.
  induction l as [|b l IH]; simpl; intros H H0 a Ha; [contradiction|].
  pose proof (H b (or_introl eq_refl)).
  assert (0 <= Qsum (map f l)) by (apply Qsum_nonneg; intros; apply H; now right).
  destruct Ha as [->|Ha]; [lra|].
  apply IH; auto. lra.
Qed.

Lemma Qsquare_nonneg (x : Q) : 0 <= x * x.
Proof.
  destruct (Qlt_le_dec x 0) as [H|H].
  - setoid_replace (x * x) with ((- x) * (- x)) by ring.
    apply Qmult_le_0_compat; lra.
  - apply Qmult_le_0_compat; lra.
Qed.

Lemma Qss_nonneg (l : list Q) : 0 <= Qss l.
Proof. unfold Qss. apply Qsum_nonneg. intros. apply Qsquare_nonneg. Qed.

Lemma Qsquare_zero (x : Q) : x * x == 0 -> x == 0.
Proof.
  intro H. destruct (Qeq_dec x 0) as [|Hx]; [assumption|].
  exfalso. apply Hx. apply Qmult_integral in H. tauto.
Qed.

(** A vanishing sum of squared deviations: every value is the mean. *)
Lemma Qss_zero (l : list Q) : Qss l == 0 -> forall x, In x l -> x == Qmean l.
Proof.
  unfold Qss. intros H x Hx.
  pose proof (Qsum_zero_terms (fun x => (x - Qmean l) * (x - Qmean l)) l
                (fun a _ => Qsquare_nonneg _) H x Hx) as H0.
  apply Qsquare_zero in H0. lra.
Qed.

(** ** The linear trend estimator *)

Lemma feq_refl (a : float) : feq a a.
Proof. destruct a; simpl; [exact I|reflexivity]. Qed.

Lemma feq_sym (a b : float) : feq a b -> feq b a.
Proof. destruct a, b; simpl; auto. intro H. now symmetry. Qed.

Lemma feq_trans (a b c : float) : feq a b -> feq b c -> feq a c.
Proof.
  destruct a, b, c; simpl; auto; try contradiction.
  intros H1 H2. now rewrite H1.
Qed.

Lemma hrs_length (data : list (Z * float)) :
  List.length (Webapp.hrs data) = List.length data.
Proof.
  unfold Webapp.hrs. destruct data as [|p data]; [reflexivity|].
  cbn [map Webapp.ts_min]. cbn [List.length]. now rewrite length_map.
Qed.

Lemma mask_length (x : list Q) (y : list float) :
  List.length x = List.length y ->
  List.length (Webapp.mask x y) = List.length (valid y).
Proof.
  revert y. induction x as [|a x IH]; intros [|[|b] y] H; simpl in *;
    try discriminate; auto.
Qed.

Lemma samples_length (data : list (Z * float)) :
  List.length (samples data) = List.length (valid (values data)).
Proof.
  unfold samples. apply mask_length.
  unfold values. now rewrite hrs_length, length_map.
Qed.

Lemma Qeq_bool_false (x y : Q) : ~ x == y -> Qeq_bool x y = false.
Proof.
  intro H. destruct (Qeq_bool x y) eqn:E; [|reflexivity].
  apply Qeq_bool_eq in E. contradiction.
Qed.

Lemma Qeq_bool_true (x y : Q) : x == y -> Qeq_bool x y = true.
Proof. apply Qeq_eq_bool. Qed.

Lemma fdiv_scale (a b n : Q) :
  0 < n -> feq (fdiv (Fin a) (Fin b)) (fdiv (Fin (a / n)) (Fin (b / n))).
Proof.
  intro Hn. simpl. destruct (Qeq_dec b 0) as [Hb|Hb].
  - rewrite (Qeq_bool_true _ _ Hb).
    rewrite Qeq_bool_true; [exact I|]. rewrite Hb. field. lra.
  - rewrite (Qeq_bool_false _ _ Hb).
    rewrite Qeq_bool_false.
    + simpl. field. split; [lra|assumption].
    + intro H. apply Hb.
      setoid_replace b with ((b / n) * n) by (field; lra).
      rewrite H. ring.
Qed.

(** When the abscissas have no spread the numerator of the slope is zero as
    well: the division of [calc_trend] by zero is 0/0. *)
Lemma trend_den_zero_num_zero (xy : list (Q * Q)) :
  Qss (map fst xy) == 0 -> Webapp.Qsxy xy == 0.
Proof.
  intro H. unfold Webapp.Qsxy.
  rewrite (Qsum_ext _ (fun _ => 0 * 0)).
  - rewrite (Qsum_const _ fst). ring.
  - intros p Hp.
    rewrite (Qss_zero _ H (fst p)) by (now apply in_map).
    ring.
Qed.

Section LeastSquares.

Variable xy : list (Q * Q).
Let mx := Qmean (map fst xy).
Let my := Qmean (map snd xy).
Let Suu := Qss (map fst xy).
Let Suv := Webapp.Qsxy xy.
Let Svv := Qss (map snd xy).

Lemma sse_decompose (l : list (Q * Q)) (m1 m2 a b : Q) :
  sse l a b ==
    Qsum (map (fun p => (snd p - m2) * (snd p - m2)) l)
    - 2 * b * Qsum (map (fun p => (fst p - m1) * (snd p - m2)) l)
    + b * b * Qsum (map (fun p => (fst p - m1) * (fst p - m1)) l)
    + 2 * (m2 - a - b * m1)
      * (Qsum (map (fun p => snd p - m2) l) - b * Qsum (map (fun p => fst p - m1) l))
    + (m2 - a - b * m1) * (m2 - a - b * m1) * Qlen (map fst l).
Proof.
  unfold sse. induction l as [|p l IH].
  - unfold Qlen. simpl. ring.
  - cbn [map]. rewrite Qlen_cons. cbn [Qsum fold_right].
    unfold Qsum in IH. rewrite IH. ring.
Qed.

Lemma sse_centered (a b : Q) :
  xy <> [] ->
  sse xy a b ==
    Svv - 2 * b * Suv + b * b * Suu
    + (my - a - b * mx) * (my - a - b * mx) * Qlen (map fst xy).
Proof.
  intro Hne. rewrite (sse_decompose xy mx my).
  unfold mx, my at 4 5. rewrite (Qsum_centered fst xy Hne), (Qsum_centered snd xy Hne).
  unfold Svv, Suu, Suv, Qss, Webapp.Qsxy. rewrite !map_map.
  fold mx my. ring.
Qed.

(** The slope [Suv / Suu], with the intercept that puts the line through
    the point of means, has the least sum of squared residuals. *)
Lemma least_squares (a' b' : Q) :
  ~ Suu == 0 ->
  sse xy (my - (Suv / Suu) * mx) (Suv / Suu) <= sse xy a' b'.
Proof.
  intro Hne.
  assert (Hl : xy <> []).
  { intro E. apply Hne. unfold Suu. rewrite E. reflexivity. }
  assert (Hpos : 0 < Suu).
  { pose proof (Qss_nonneg (map fst xy)). fold Suu in H.
    apply Qle_lteq in H. destruct H as [H|H]; [assumption|].
    exfalso. apply Hne. now symmetry. }
  rewrite !(sse_centered _ _ Hl).
  assert (Hn : 0 <= Qlen (map fst xy)) by apply Qlen_nonneg.
  set (n := Qlen (map fst xy)) in *.
  set (c := my - a' - b' * mx).
  set (e := b' - Suv / Suu).
  assert (H1 : 0 <= Suu * (e * e))
    by (apply Qmult_le_0_compat; [lra|apply Qsquare_nonneg]).
  assert (H2 : 0 <= c * c * n)
    by (apply Qmult_le_0_compat; [apply Qsquare_nonneg|assumption]).
  assert (E : Svv - 2 * b' * Suv + b' * b' * Suu + c * c * n
              - (Svv - 2 * (Suv / Suu) * Suv + Suv / Suu * (Suv / Suu) * Suu
                 + (my - (my - Suv / Suu * mx) - Suv / Suu * mx)
                   * (my - (my - Suv / Suu * mx) - Suv / Suu * mx) * n)
              == Suu * (e * e) + c * c * n).
  { unfold e. field. lra. }
  lra.
Qed.

End LeastSquares.

Lemma variance_zero (x : list Q) : Qss x == 0 -> variance x == 0.
Proof.
  intro H. unfold variance. rewrite H. unfold Qdiv. ring.
Qed.

(** C4: with fewer than two non-missing samples in the window [calc_trend]
    returns the slope 0 and raises nothing; otherwise it returns the ratio
    of the covariance of (elapsed hours since the first timestamp of the
    window, value) to the variance of the elapsed hours, both taken over
    the non-missing samples, and whenever that variance is not zero this
    is the slope of the least-squares line through the samples. *)
Theorem calc_trend_spec (data : list (Z * float)) :
  ((List.length (valid (values data)) < 2)%nat ->
   Webapp.calc_trend data = Fin 0) /\
  ((2 <= List.length (valid (values data)))%nat ->
   feq (Webapp.calc_trend data) (ols_slope (samples data)) /\
   (~ variance (map fst (samples data)) == 0 ->
    exists b : Q,
      Webapp.calc_trend data = Fin b /\
      b == covariance (samples data) / variance (map fst (samples data)) /\
      forall a' b' : Q,
        sse (samples data)
            (Qmean (map snd (samples data)) - b * Qmean (map fst (samples data))) b
        <= sse (samples data) a' b')).
Proof.
  pose proof (samples_length data) as Hlen.
  unfold Webapp.calc_trend. fold (samples data). split; intro H.
  - replace (List.length (samples data) <? 2)%nat with true; [reflexivity|].
    symmetry. apply Nat.ltb_lt. lia.
  - replace (List.length (samples data) <? 2)%nat with false
      by (symmetry; apply Nat.ltb_ge; lia).
    assert (Hn : 0 < Qlen (map fst (samples data))).
    { apply Qlen_pos. destruct (samples data); [simpl in Hlen; lia|discriminate]. }
    split.
    + unfold ols_slope, covariance, variance. now apply fdiv_scale.
    + intro Hvar.
      assert (Hss : ~ Qss (map fst (samples data)) == 0).
      { intro E. apply Hvar. now apply variance_zero. }
      exists (Webapp.Qsxy (samples data) / Qss (map fst (samples data))).
      split; [|split].
      * simpl. now rewrite (Qeq_bool_false _ _ Hss).
      * unfold covariance, variance. field. split; [lra|assumption].
      * intros a' b'. now apply least_squares.
Qed.

Lemma calc_trend_spec_witness :
  Webapp.calc_trend [(0%Z, NaN); (3600%Z, Fin 1)] = Fin 0 /\
  feq (Webapp.calc_trend [(0%Z, Fin 2); (43200%Z, NaN); (86400%Z, Fin 4)])
      (Fin (1 # 12)).
Proof.
  split.
  - apply (proj1 (calc_trend_spec [(0%Z, NaN); (3600%Z, Fin 1)])). simpl. lia.
  - eapply feq_trans.
    + apply (proj2 (calc_trend_spec
                      [(0%Z, Fin 2); (43200%Z, NaN); (86400%Z, Fin 4)])).
      simpl. lia.
    + vm_compute. reflexivity.
Defined.

(** ** Loops and exceptions *)

Lemma bind_Ok {A B : Type} (m : result A) (f : A -> result B) (b : B) :
  bind m f = Ok b -> exists a, m = Ok a /\ f a = Ok b.
Proof. destruct m as [a|e]; simpl; [eauto|discriminate]. Qed.

Lemma for_each_Forall2 {A B : Type} (f : A -> result B) (l : list A) :
  forall bs, for_each f l = Ok bs -> Forall2 (fun a b => f a = Ok b) l bs.
Proof.
  induction l as [|a l IH]; simpl; intros bs H.
  - injection H as <-. constructor.
  - apply bind_Ok in H as (b & Hb & H).
    apply bind_Ok in H as (bs' & Hbs & H).
    injection H as <-. constructor; auto.
Qed.

Lemma Forall2_for_each {A B : Type} (f : A -> result B) (l : list A) (bs : list B) :
  Forall2 (fun a b => f a = Ok b) l bs -> for_each f l = Ok bs.
Proof. induction 1 as [|a b l bs H _ IH]; simpl; [|rewrite H, IH]; reflexivity. Qed.

Lemma for_each_length {A B : Type} (f : A -> result B) (l : list A) (bs : list B) :
  for_each f l = Ok bs -> List.length bs = List.length l.
Proof.
  intro H. apply for_each_Forall2 in H. symmetry.
  now apply Forall2_length in H.
Qed.

Lemma for_each_In {A B : Type} (f : A -> result B) (l : list A) (bs : list B) (b : B) :
  for_each f l = Ok bs -> In b bs -> exists a, In a l /\ f a = Ok b.
Proof.
  intros H. apply for_each_Forall2 in H.
  induction H as [|a b' l bs H _ IH]; simpl; [contradiction|].
  intros [<-|Hb]; [eauto|]. destruct (IH Hb) as (a' & ? & ?). eauto.
Qed.

Lemma for_each_nth {A B : Type} (f : A -> result B) (l : list A) (bs : list B)
  (i : nat) (a : A) :
  for_each f l = Ok bs -> nth_error l i = Some a ->
  exists b, nth_error bs i = Some b /\ f a = Ok b.
Proof.
  intros H. apply for_each_Forall2 in H. revert i.
  induction H as [|a' b' l bs H _ IH]; intros [|i] Hi; simpl in *;
    try discriminate.
  - injection Hi as <-. eauto.
  - auto.
Qed.

(** ** Clipping *)

Lemma np_clip_within (q lo hi : Q) :
  lo <= hi -> within (np_clip (Fin q) lo hi) lo hi.
Proof.
  intro H. simpl. split.
  - apply Q.min_glb; [apply Q.le_max_r|assumption].
  - apply Q.le_min_r.
Qed.

Lemma np_clip_cases (x : float) (lo hi : Q) :
  lo <= hi -> np_clip x lo hi = NaN \/ within (np_clip x lo hi) lo hi.
Proof.
  intro H. destruct x as [|q]; [now left|right]. now apply np_clip_within.
Qed.

Lemma np_clip_id (q lo hi : Q) :
  lo <= q -> q <= hi -> feq (np_clip (Fin q) lo hi) (Fin q).
Proof.
  intros H1 H2. simpl. rewrite Q.max_l by assumption.
  now rewrite Q.min_l.
Qed.

(** ** Shape of a successful forecast *)

Lemma grouped_Ok (rs : list Row) (cols : list string) (name : string)
  (s : list (Z * float)) :
  grouped rs cols name = Ok s <-> series rs cols name = Ok s.
Proof.
  unfold grouped, series, column_index.
  destruct (positions name cols 0) as [|i l]; [|reflexivity].
  cbn [bind]. split; discriminate.
Qed.

Section SimpleShape.

Variable now : nat -> Z.
Variable uniform : nat -> Q -> Q -> Q.
Variable sqrtQ : Q -> Q.

Let forecast_simple := Streamlitaap.forecast_simple now uniform sqrtQ.
Let forecast_simple_try := Streamlitaap.forecast_simple_try now uniform sqrtQ.
Let forecast_day := Streamlitaap.forecast_day now uniform sqrtQ.
Let predict := Streamlitaap.predict now uniform sqrtQ.

Lemma forecast_simple_Some (df : DataFrame) (days : nat) (fs : list Streamlitaap.Forecast) :
  fst (forecast_simple df days) = Some fs <-> forecast_simple_try df days = Ok fs.
Proof.
  unfold forecast_simple, Streamlitaap.forecast_simple. fold forecast_simple_try.
  destruct (forecast_simple_try df days); simpl; split; congruence.
Qed.

Lemma forecast_simple_try_Ok (df : DataFrame) (days : nat) (fs : list Streamlitaap.Forecast) :
  forecast_simple_try df days = Ok fs ->
  exists aqi_s temp_s,
    series (sort_values (rows df)) (columns df) "aqi" = Ok aqi_s /\
    series (sort_values (rows df)) (columns df) "temp" = Ok temp_s /\
    for_each (forecast_day aqi_s temp_s) (seq 1 days) = Ok fs.
Proof.
  unfold forecast_simple_try, Streamlitaap.forecast_simple_try. intro H.
  apply bind_Ok in H as (aqi_s & Ha & H).
  apply bind_Ok in H as (temp_s & Ht & H).
  apply grouped_Ok in Ha, Ht. eauto.
Qed.

Lemma forecast_day_Ok (aqi_s temp_s : list (Z * float)) (d : nat) (r : Streamlitaap.Forecast) :
  forecast_day aqi_s temp_s d = Ok r ->
  exists p_aqi p_temp,
    predict aqi_s temp_s d = Ok (p_aqi, p_temp) /\
    r = {| Streamlitaap.day := d;
           Streamlitaap.aqi := np_clip p_aqi 10 500;
           Streamlitaap.temp := np_clip p_temp 15 45;
           Streamlitaap.date := Streamlitaap.fdate now d |}.
Proof.
  unfold forecast_day, Streamlitaap.forecast_day. intro H.
  apply bind_Ok in H as ([p_aqi p_temp] & Hp & H).
  injection H as <-. eauto.
Qed.

(** The record at position [i] of a successful forecast is the one of the
    iteration for day [i + 1]. *)
Lemma forecast_simple_nth (df : DataFrame) (days : nat) (fs : list Streamlitaap.Forecast)
  (d : nat) :
  forecast_simple_try df days = Ok fs -> (1 <= d <= days)%nat ->
  exists aqi_s temp_s r,
    series (sort_values (rows df)) (columns df) "aqi" = Ok aqi_s /\
    series (sort_values (rows df)) (columns df) "temp" = Ok temp_s /\
    nth_error fs (d - 1) = Some r /\
    forecast_day aqi_s temp_s d = Ok r.
Proof.
  intros H Hd. apply forecast_simple_try_Ok in H as (aqi_s & temp_s & Ha & Ht & H).
  assert (Hn : nth_error (seq 1 days) (d - 1) = Some d).
  { rewrite nth_error_nth' with (d := O) by (rewrite length_seq; lia).
    rewrite seq_nth by lia. f_equal. lia. }
  destruct (for_each_nth _ _ _ _ _ H Hn) as (r & Hr & Hf).
  exists aqi_s, temp_s, r. auto.
Qed.

End SimpleShape.

Section WeatherShape.

Variable now : nat -> Z.
Variable normal : nat -> Q -> Q -> Q.

Let forecast_weather := Webapp.forecast_weather now normal.
Let forecast_weather_try := Webapp.forecast_weather_try now normal.
Let forecast_day := Webapp.forecast_day now normal.

Lemma forecast_weather_Some (df : DataFrame) (days : nat) (fs : list Webapp.Forecast) :
  fst (fst (forecast_weather df days)) = Some fs <->
  exists trends, forecast_weather_try df days = Ok (fs, trends).
Proof.
  unfold forecast_weather, Webapp.forecast_weather. fold forecast_weather_try.
  destruct (forecast_weather_try df days) as [[fs' tr]|e]; simpl; split.
  - intro H. injection H as ->. eauto.
  - intros (tr' & H). congruence.
  - discriminate.
  - intros (tr' & H). discriminate.
Qed.

Lemma forecast_weather_try_Ok (df : DataFrame) (days : nat) (fs : list Webapp.Forecast)
  (trends : Webapp.Trends) :
  forecast_weather_try df days = Ok (fs, trends) ->
  exists t_s h_s w_s,
    series (sort_values (rows df)) (columns df) "temp_C" = Ok t_s /\
    series (sort_values (rows df)) (columns df) "humidity_percent" = Ok h_s /\
    series (sort_values (rows df)) (columns df) "wind_speed_mps" = Ok w_s /\
    fs = map (forecast_day t_s h_s w_s) (seq 1 days) /\
    trends = {| Webapp.temp_trend := Webapp.calc_trend (Webapp.recent t_s);
                Webapp.humidity_trend := Webapp.calc_trend (Webapp.recent h_s);
                Webapp.wind_trend := Webapp.calc_trend (Webapp.recent w_s) |}.
Proof.
  unfold forecast_weather_try, Webapp.forecast_weather_try. intro H.
  apply bind_Ok in H as (t_s & Ht & H).
  apply bind_Ok in H as (h_s & Hh & H).
  apply bind_Ok in H as (w_s & Hw & H).
  apply grouped_Ok in Ht, Hh, Hw.
  injection H as <- <-. exists t_s, h_s, w_s. auto.
Qed.

End WeatherShape.

(** ** Bounds of the forecast values *)

(** C3, as the code has it: every value in the records of a returned
    forecast is NaN (missing data: [np.clip] passes NaN through) or lies
    within its bounds: AQI in [10,500], temperature in [15,45], humidity in
    [20,100], wind speed in [0,25], wherever the unclipped value lies. *)
Theorem forecast_values_clipped :
  (forall now uniform sqrtQ df days fs r,
      fst (Streamlitaap.forecast_simple now uniform sqrtQ df days) = Some fs ->
      In r fs ->
      (Streamlitaap.aqi r = NaN \/ within (Streamlitaap.aqi r) 10 500) /\
      (Streamlitaap.temp r = NaN \/ within (Streamlitaap.temp r) 15 45)) /\
  (forall now normal df days fs r v,
      fst (fst (Webapp.forecast_weather now normal df days)) = Some fs ->
      In r fs ->
      (In v (Webapp.temps r) -> v = NaN \/ within v 15 45) /\
      (In v (Webapp.humidity r) -> v = NaN \/ within v 20 100) /\
      (In v (Webapp.wind r) -> v = NaN \/ within v 0 25)).
Proof.
  split.
  - intros now uniform sqrtQ df days fs r H Hr.
    apply forecast_simple_Some, forecast_simple_try_Ok in H
      as (aqi_s & temp_s & _ & _ & H).
    destruct (for_each_In _ _ _ _ H Hr) as (d & _ & Hd).
    apply forecast_day_Ok in Hd as (p_aqi & p_temp & _ & ->). simpl.
    split; apply np_clip_cases; lra.
  - intros now normal df days fs r v H Hr.
    apply forecast_weather_Some in H as (trends & H).
    apply forecast_weather_try_Ok in H as (t_s & h_s & w_s & _ & _ & _ & -> & _).
    apply in_map_iff in Hr as (d & <- & _).
    unfold Webapp.forecast_day.
    cbn [Webapp.temps Webapp.humidity Webapp.wind].
    repeat apply conj; intro Hv; apply in_map_iff in Hv as (hr & <- & _);
      apply np_clip_cases; lra.
Qed.

Lemma forecast_values_clipped_witness :
  let r := {| Streamlitaap.day := 1; Streamlitaap.aqi := Fin 500;
              Streamlitaap.temp := Fin 45; Streamlitaap.date := 345600 |} in
  fst (Streamlitaap.forecast_simple (clock_at sunday) midpoint sqrt6 df_extreme 1)
    = Some [r] /\
  (Streamlitaap.aqi r = NaN \/ within (Streamlitaap.aqi r) 10 500) /\
  (Streamlitaap.temp r = NaN \/ within (Streamlitaap.temp r) 15 45).
Proof.
  intro r. split; [vm_compute; reflexivity|].
  apply (proj1 forecast_values_clipped (clock_at sunday) midpoint sqrt6
           df_extreme 1%nat [r] r).
  - vm_compute. reflexivity.
  - left. reflexivity.
Defined.

(** C3 as stated fails on missing data: with the temperature column empty
    the forecast is returned and its temperature is NaN, in no interval. *)
Lemma clip_bounds_counterexample :
  exists r,
    fst (Streamlitaap.forecast_simple (clock_at sunday) midpoint sqrt6
           df_missing_temp 1) = Some [r] /\
    ~ within (Streamlitaap.temp r) 15 45.
Proof.
  eexists. split; [vm_compute; reflexivity|]. simpl. tauto.
Qed.

(** ** Horizon and order of the records *)






(** ** Failure of a forecast *)

(** C6: an exception raised anywhere in the computation of either
    forecaster is caught by the routine: the only trace is one message for
    the user and the absent result is returned ([None], or [(None, None)]
    for the hourly forecaster).  A sequence is returned only when the whole
    computation went through, and then it has one record per day of the
    horizon: never a part of it. *)
Theorem forecast_failure_absent :
  (forall now uniform sqrtQ df days e,
      Streamlitaap.forecast_simple_try now uniform sqrtQ df days = Raise e ->
      Streamlitaap.forecast_simple now uniform sqrtQ df days
      = (None, [("Forecast error: " ++ str e)%string])) /\
  (forall now uniform sqrtQ df days fs,
      fst (Streamlitaap.forecast_simple now uniform sqrtQ df days) = Some fs ->
      Streamlitaap.forecast_simple_try now uniform sqrtQ df days = Ok fs /\
      List.length fs = days /\
      snd (Streamlitaap.forecast_simple now uniform sqrtQ df days) = []) /\
  (forall now normal df days e,
      Webapp.forecast_weather_try now normal df days = Raise e ->
      Webapp.forecast_weather now normal df days
      = ((None, None), [("Forecast error: " ++ str e)%string])) /\
  (forall now normal df days fs,
      fst (fst (Webapp.forecast_weather now normal df days)) = Some fs ->
      (exists trends,
          Webapp.forecast_weather_try now normal df days = Ok (fs, trends)) /\
      List.length fs = days /\
      snd (Webapp.forecast_weather now normal df days) = []).
Proof.
  repeat apply conj.
  - intros now uniform sqrtQ df days e H.
    unfold Streamlitaap.forecast_simple. now rewrite H.
  - intros now uniform sqrtQ df days fs H.
    pose proof (proj1 (forecast_simple_Some _ _ _ _ _ _) H) as Ht.
    repeat apply conj; [assumption| |].
    + apply forecast_simple_try_Ok in Ht as (aqi_s & temp_s & _ & _ & Hf).
      apply for_each_length in Hf. now rewrite length_seq in Hf.
    + unfold Streamlitaap.forecast_simple. now rewrite Ht.
  - intros now normal df days e H.
    unfold Webapp.forecast_weather. now rewrite H.
  - intros now normal df days fs H.
    apply forecast_weather_Some in H as (trends & Ht).
    repeat apply conj; [eauto| |].
    + apply forecast_weather_try_Ok in Ht as (t_s & h_s & w_s & _ & _ & _ & -> & _).
      now rewrite length_map, length_seq.
    + unfold Webapp.forecast_weather. now rewrite Ht.
Qed.

(** On [df_short] the first day goes through and the second raises: nothing
    of the first day is returned. *)
Lemma forecast_failure_absent_witness :
  (exists r, Streamlitaap.forecast_simple (clock_at sunday) midpoint sqrt6 df_short 1
             = (Some [r], [])) /\
  Streamlitaap.forecast_simple (clock_at sunday) midpoint sqrt6 df_short 3
  = (None, ["Forecast error: Range exceeds valid bounds"]) /\
  Streamlitaap.forecast_simple (clock_at sunday) midpoint sqrt6 df_weather 3
  = (None, ["Forecast error: 'Column not found: aqi'"]) /\
  Webapp.forecast_weather (clock_at sunday) no_noise df_no_humidity 3
  = ((None, None), ["Forecast error: 'Column not found: humidity_percent'"]).
Proof.
  destruct forecast_failure_absent as (S1 & _ & W1 & _).
  repeat apply conj.
  - eexists. vm_compute. reflexivity.
  - apply (S1 (clock_at sunday) midpoint sqrt6 df_short 3%nat
              (OverflowError "Range exceeds valid bounds")).
    vm_compute. reflexivity.
  - apply (S1 (clock_at sunday) midpoint sqrt6 df_weather 3%nat
              (KeyError "'Column not found: aqi'")).
    vm_compute. reflexivity.
  - apply (W1 (clock_at sunday) no_noise df_no_humidity 3%nat
              (KeyError "'Column not found: humidity_percent'")).
    vm_compute. reflexivity.
Defined.

(** ** Sorting, series and groups *)

Lemma insert_row_perm (r : Row) (l : list Row) :
  Permutation (r :: l) (insert_row r l).
Proof.
  induction l as [|r' l IH]; simpl; [reflexivity|].
  destruct (timestamp r <=? timestamp r')%Z; [reflexivity|].
  rewrite perm_swap. now constructor.
Qed.

Lemma sort_values_perm (l : list Row) : Permutation l (sort_values l).
Proof.
  induction l as [|r l IH]; simpl; [constructor|].
  rewrite <- insert_row_perm. now constructor.
Qed.

Lemma sort_values_In (l : list Row) (r : Row) :
  In r (sort_values l) <-> In r l.
Proof.
  split; apply Permutation_in; [symmetry|]; apply sort_values_perm.
Qed.

Lemma insert_row_sorted (r : Row) (l : list Row) :
  Sorted by_time l -> Sorted by_time (insert_row r l).
Proof.
  induction l as [|r' l IH]; simpl; intro H; [repeat constructor|].
  destruct (timestamp r <=? timestamp r')%Z eqn:E.
  - constructor; [assumption|]. constructor. unfold by_time. lia.
  - inversion H as [|? ? Hl Hhd]; subst. constructor; [auto|].
    destruct l as [|r'' l]; simpl.
    + constructor. unfold by_time. lia.
    + destruct (timestamp r <=? timestamp r'')%Z; constructor.
      * unfold by_time. lia.
      * now inversion Hhd.
Qed.

Lemma sort_values_sorted (l : list Row) : Sorted by_time (sort_values l).
Proof.
  induction l as [|r l IH]; simpl; [constructor|]. now apply insert_row_sorted.
Qed.

(** A series carries the timestamps of the rows it is read from. *)
Lemma series_timestamps (rs : list Row) (cols : list string) (name : string)
  (s : list (Z * float)) :
  series rs cols name = Ok s -> map fst s = map timestamp rs.
Proof.
  unfold series. intro H. apply bind_Ok in H as (i & _ & H).
  apply for_each_Forall2 in H.
  induction H as [|r p rs s H _ IH]; [reflexivity|].
  apply bind_Ok in H as (x & _ & H). injection H as <-.
  cbn [map fst]. now rewrite IH.
Qed.

Lemma lookup_app {A : Type} (k : Z) (d d' : list (Z * A)) :
  lookup k (d ++ d') =
  match lookup k d with Some a => Some a | None => lookup k d' end.
Proof.
  induction d as [|[k' a] d IH]; simpl; [reflexivity|].
  destruct (k' =? k)%Z; auto.
Qed.

(** A key that no row has is not a key of the grouped result. *)
Lemma lookup_groupby_None {A : Type} (key : Z -> Z) (keys : list Z)
  (f : list float -> A) (s : list (Z * float)) (k : Z) :
  (forall p, In p s -> key (fst p) <> k) ->
  lookup k (groupby key keys f s) = None.
Proof.
  intro H. unfold groupby.
  induction keys as [|k' keys IH]; [reflexivity|].
  cbn [flat_map]. rewrite lookup_app, IH.
  destruct (filter (fun p => (key (fst p) =? k')%Z) s) as [|p g] eqn:E;
    [reflexivity|].
  simpl. destruct (k' =? k)%Z eqn:Ek; [|reflexivity].
  exfalso. apply Z.eqb_eq in Ek. subst k'.
  assert (Hp : In p (filter (fun p => (key (fst p) =? k)%Z) s))
    by (rewrite E; now left).
  apply filter_In in Hp as [Hp Hk]. apply Z.eqb_eq in Hk.
  exact (H p Hp Hk).
Qed.

(** A key that some row has is mapped to the aggregate of its rows. *)
Lemma lookup_groupby_Some {A : Type} (key : Z -> Z) (keys : list Z)
  (f : list float -> A) (s : list (Z * float)) (k : Z) :
  In k keys ->
  (exists p, In p s /\ key (fst p) = k) ->
  lookup k (groupby key keys f s)
  = Some (f (values (filter (fun p => (key (fst p) =? k)%Z) s))).
Proof.
  intros Hk (p & Hp & Hpk). unfold groupby.
  induction keys as [|k' keys IH]; [contradiction|].
  cbn [flat_map]. rewrite lookup_app.
  destruct (Z.eq_dec k' k) as [->|Hne].
  - destruct (filter (fun p => (key (fst p) =? k)%Z) s) as [|q g] eqn:E.
    + exfalso.
      assert (Hin : In p (filter (fun p => (key (fst p) =? k)%Z) s))
        by (apply filter_In; split; [assumption|now apply Z.eqb_eq]).
      rewrite E in Hin. contradiction.
    + simpl. now rewrite Z.eqb_refl.
  - destruct Hk as [Hk|Hk]; [contradiction|].
    destruct (filter (fun p => (key (fst p) =? k')%Z) s) as [|q g].
    + simpl. now apply IH.
    + simpl. apply Z.eqb_neq in Hne. rewrite Hne. now apply IH.
Qed.

Lemma dayofweek_range (t : Z) : In (dayofweek t) weekdays.
Proof.
  unfold dayofweek, weekdays.
  pose proof (Z.mod_pos_bound (t / 86400 + 3) 7 eq_refl) as H.
  set (k := ((t / 86400 + 3) mod 7)%Z) in *. simpl.
  assert (k = 0 \/ k = 1 \/ k = 2 \/ k = 3 \/ k = 4 \/ k = 5 \/ k = 6)%Z by lia.
  intuition auto.
Qed.

Lemma hour_range (t : Z) : In (hour t) hours_of_day.
Proof.
  unfold hour, hours_of_day.
  pose proof (Z.mod_pos_bound t 86400 eq_refl) as H.
  assert (H1 : (0 <= t mod 86400 / 3600 < 24)%Z).
  { split; [apply Z.div_pos; lia|apply Z.div_lt_upper_bound; lia]. }
  apply in_map_iff. exists (Z.to_nat (t mod 86400 / 3600)). split; [lia|].
  apply in_seq. lia.
Qed.

(** ** Day-of-week statistics and their fallback *)


(** The subscript [daily_aqi[dow]] is guarded by [dow in daily_aqi]: the
    look-up of the statistics raises nothing. *)
Lemma seasonal_aqi_total (sqrtQ : Q -> Q) (aqi_s : list (Z * float)) (dow : Z) :
  exists stats, Streamlitaap.seasonal_aqi sqrtQ aqi_s dow = Ok stats.
Proof.
  unfold Streamlitaap.seasonal_aqi, contains, getitem.
  destruct (lookup dow (Streamlitaap.daily_aqi sqrtQ aqi_s)); simpl; eauto.
Qed.



(** ** The seasonal AQI prediction *)


Lemma values_tail (n : nat) (s : list (Z * float)) :
  values (tail n s) = tail n (values s).
Proof.
  unfold values, tail. now rewrite skipn_map, length_map.
Qed.




Lemma midpoint_within (k : nat) (a b : Q) :
  a <= b -> a <= midpoint k a b /\ midpoint k a b <= b.
Proof.
  intro H. unfold midpoint.
  setoid_replace ((a + b) / 2) with ((1 # 2) * a + (1 # 2) * b) by field.
  lra.
Qed.



(** ** The hourly prediction *)

Lemma filter_map_fst (f : Z -> bool) (s : list (Z * float)) :
  map fst (filter (fun p => f (fst p)) s) = filter f (map fst s).
Proof.
  induction s as [|p s IH]; simpl; [reflexivity|].
  destruct (f (fst p)); simpl; now rewrite IH.
Qed.

Lemma recent_timestamps (s : list (Z * float)) :
  map fst (Webapp.recent s) = window (map fst s).
Proof.
  unfold Webapp.recent, window.
  destruct (Webapp.ts_max (map fst s)); [|reflexivity].
  apply (filter_map_fst (fun t => (z - days_delta 7 <=? t)%Z)).
Qed.

(** The elapsed hours of the window are those of its timestamps, whatever
    the column. *)
Lemma last_hrs_timestamps (s s' : list (Z * float)) :
  map fst s = map fst s' -> Webapp.last_hrs s = Webapp.last_hrs s'.
Proof.
  intro H. unfold Webapp.last_hrs. now rewrite !recent_timestamps, H.
Qed.

Lemma nth_error_map_seq {A : Type} (f : nat -> A) (n i : nat) :
  (i < n)%nat -> nth_error (map f (seq 0 n)) i = Some (f i).
Proof.
  intro H. rewrite nth_error_map.
  rewrite nth_error_nth' with (d := O) by (rewrite length_seq; lia).
  now rewrite seq_nth.
Qed.

(** C2, as the code has it: [hr_off] is the elapsed hours of the trailing
    7-day window plus (d - 1) x 24 plus h; the temperature and the humidity
    before clipping are the mean of the last 24 rows of the window, plus
    the deviation of the hour of the day from the mean of the hourly means,
    plus the deviation of the day of the week from the mean of the daily
    means, plus trend slope x [hr_off], plus a normal draw of mean 0 and
    scale 0.3 (temperature) or 1.5 (humidity); the wind speed has the same
    terms with scale 0.2 but no day-of-week deviation. *)
Theorem hourly_prediction now normal df days fs (d hr : nat) :
  fst (fst (Webapp.forecast_weather now normal df days)) = Some fs ->
  (1 <= d <= days)%nat -> (hr < 24)%nat ->
  exists t_s h_s w_s r,
    series (sort_values (rows df)) (columns df) "temp_C" = Ok t_s /\
    series (sort_values (rows df)) (columns df) "humidity_percent" = Ok h_s /\
    series (sort_values (rows df)) (columns df) "wind_speed_mps" = Ok w_s /\
    nth_error fs (d - 1) = Some r /\ Webapp.day r = d /\
    let dow := dayofweek (now d + 86400 * Z.of_nat d) in
    let hr_off :=
      fadd (fadd (Webapp.last_hrs t_s) (Fin (inject_Z ((Z.of_nat d - 1) * 24))))
           (Fin (inject_Z (Z.of_nat hr))) in
    let level s := mean (values (tail 24 (Webapp.recent s))) in
    let hourly_dev s :=
      fsub (get (Webapp.hourly s) (Z.of_nat hr) (level s))
           (mean (values (Webapp.hourly s))) in
    let weekly_dev s :=
      fsub (get (Webapp.weekly s) dow (level s)) (mean (values (Webapp.weekly s))) in
    let slope s := Webapp.calc_trend (Webapp.recent s) in
    let k := (3 * (24 * (d - 1) + hr))%nat in
    Webapp.hr_off h_s d hr = hr_off /\ Webapp.hr_off w_s d hr = hr_off /\
    nth_error (Webapp.temps r) hr =
      Some (np_clip (fadd (fadd (fadd (fadd (level t_s) (hourly_dev t_s))
                                      (weekly_dev t_s))
                                (fmul (slope t_s) hr_off))
                          (Fin (normal k 0 (3 # 10)))) 15 45) /\
    nth_error (Webapp.humidity r) hr =
      Some (np_clip (fadd (fadd (fadd (fadd (level h_s) (hourly_dev h_s))
                                      (weekly_dev h_s))
                                (fmul (slope h_s) hr_off))
                          (Fin (normal (k + 1)%nat 0 (15 # 10)))) 20 100) /\
    nth_error (Webapp.wind r) hr =
      Some (np_clip (fadd (fadd (fadd (level w_s) (hourly_dev w_s))
                                (fmul (slope w_s) hr_off))
                          (Fin (normal (k + 2)%nat 0 (2 # 10)))) 0 25).
Proof.
  intros H Hd Hhr.
  apply forecast_weather_Some in H as (trends & H).
  apply forecast_weather_try_Ok in H
    as (t_s & h_s & w_s & Ht & Hh & Hw & -> & _).
  exists t_s, h_s, w_s, (Webapp.forecast_day now normal t_s h_s w_s d).
  repeat (split; [assumption|]).
  split.
  { rewrite nth_error_map.
    rewrite nth_error_nth' with (d := O) by (rewrite length_seq; lia).
    rewrite seq_nth by lia. simpl. do 2 f_equal. lia. }
  split; [reflexivity|]. cbv zeta.
  assert (Eh : Webapp.last_hrs h_s = Webapp.last_hrs t_s).
  { apply last_hrs_timestamps.
    now rewrite (series_timestamps _ _ _ _ Hh), (series_timestamps _ _ _ _ Ht). }
  assert (Ew : Webapp.last_hrs w_s = Webapp.last_hrs t_s).
  { apply last_hrs_timestamps.
    now rewrite (series_timestamps _ _ _ _ Hw), (series_timestamps _ _ _ _ Ht). }
  split; [unfold Webapp.hr_off; now rewrite Eh|].
  split; [unfold Webapp.hr_off; now rewrite Ew|].
  unfold Webapp.forecast_day.
  cbn [Webapp.temps Webapp.humidity Webapp.wind].
  rewrite !nth_error_map_seq by assumption.
  unfold Webapp.pred_t, Webapp.pred_h, Webapp.pred_w, Webapp.deviation,
    Webapp.base, Webapp.dow_of, Webapp.draws_before, Webapp.hr_off, days_delta.
  rewrite Eh, Ew. repeat split.
Qed.

Lemma hourly_prediction_witness :
  exists r,
    fst (fst (Webapp.forecast_weather (clock_at monday) no_noise df_weather 1))
      = Some [r] /\
    feq (nth 0 (Webapp.temps r) NaN) (Fin 24) /\
    feq (nth 0 (Webapp.wind r) NaN) (Fin 5).
Proof.
  assert (Hfs : exists r,
             fst (fst (Webapp.forecast_weather (clock_at monday) no_noise
                         df_weather 1)) = Some [r])
    by (eexists; vm_compute; reflexivity).
  destruct Hfs as (r & Hfs). exists r. split; [exact Hfs|].
  destruct (hourly_prediction (clock_at monday) no_noise df_weather 1 [r] 1 0 Hfs)
    as (t_s & h_s & w_s & r' & Ht & Hh & Hw & Hn & _ & _ & _ & Etemp & _ & Ewind);
    [lia|lia|].
  injection Hn as <-.
  vm_compute in Ht. injection Ht as <-.
  vm_compute in Hw. injection Hw as <-.
  split.
  - rewrite (nth_error_nth _ _ NaN Etemp). vm_compute. reflexivity.
  - rewrite (nth_error_nth _ _ NaN Ewind). vm_compute. reflexivity.
Defined.

(** C2 as stated fails for the wind speed: on [df_weather], whose wind is 2
    on the Monday and 4 on the Tuesday, the first hour of the Tuesday is
    forecast as 5, where a day-of-week deviation would give 6. *)
Lemma hourly_wind_counterexample :
  exists r,
    fst (fst (Webapp.forecast_weather (clock_at monday) no_noise df_weather 1))
      = Some [r] /\
    series (sort_values (rows df_weather)) (columns df_weather) "wind_speed_mps"
      = Ok wind_weather /\
    feq (nth 0 (Webapp.wind r) NaN) (Fin 5) /\
    feq (np_clip (claimed_pred_w (clock_at monday) no_noise wind_weather 1 0) 0 25)
        (Fin 6) /\
    ~ feq (nth 0 (Webapp.wind r) NaN)
          (np_clip (claimed_pred_w (clock_at monday) no_noise wind_weather 1 0) 0 25).
Proof.
  eexists. split; [vm_compute; reflexivity|].
  split; [vm_compute; reflexivity|].
  split; [vm_compute; reflexivity|].
  split; [vm_compute; reflexivity|].
  vm_compute. discriminate.
Qed.

(** ** Series that hold one value *)

Lemma np_clip_feq (a b : float) (lo hi : Q) :
  feq a b -> feq (np_clip a lo hi) (np_clip b lo hi).
Proof.
  destruct a as [|x], b as [|y]; simpl; auto.
  intro H. now rewrite H.
Qed.

Lemma Qsum_all (c : Q) (l : list Q) :
  Forall (fun q => q == c) l -> Qsum l == c * Qlen l.
Proof.
  induction 1 as [|q l Hq _ IH]; [unfold Qlen; simpl; ring|].
  rewrite Qlen_cons. simpl. rewrite Hq, IH. ring.
Qed.

Lemma Qmean_all (c : Q) (l : list Q) :
  l <> [] -> Forall (fun q => q == c) l -> Qmean l == c.
Proof.
  intros Hl H. unfold Qmean. rewrite (Qsum_all _ _ H).
  pose proof (Qlen_pos _ Hl). field. lra.
Qed.

Lemma valid_all (c : Q) (l : list float) :
  Forall (fun x => feq x (Fin c)) l ->
  Forall (fun q => q == c) (valid l) /\ List.length (valid l) = List.length l.
Proof.
  induction 1 as [|x l Hx _ [IH1 IH2]]; [split; [constructor|reflexivity]|].
  destruct x as [|q]; [contradiction|]. simpl. split; [|now rewrite IH2].
  constructor; assumption.
Qed.

(** The mean of a non-empty column whose values all equal [c] is [c]. *)
Lemma mean_all (c : Q) (l : list float) :
  l <> [] -> Forall (fun x => feq x (Fin c)) l -> feq (mean l) (Fin c).
Proof.
  intros Hl H. destruct (valid_all _ _ H) as [Hv Hlen]. unfold mean.
  destruct (valid l) as [|q v] eqn:E.
  - destruct l; [congruence|discriminate].
  - simpl. apply Qmean_all; [discriminate|assumption].
Qed.

Lemma Forall_eq_feq (c : Q) (l : list float) :
  Forall (fun x => x = Fin c) l -> Forall (fun x => feq x (Fin c)) l.
Proof.
  intro H. eapply Forall_impl; [|exact H]. intros x ->. apply feq_refl.
Qed.

Lemma fsub_all (c : Q) (a b : float) :
  feq a (Fin c) -> feq b (Fin c) -> feq (fsub a b) (Fin 0).
Proof.
  destruct a as [|x], b as [|y]; simpl; try contradiction.
  intros -> ->. ring.
Qed.

(** Groups of a series whose values all equal [c]: every aggregate is
    [c]. *)
Lemma groupby_mean_all (key : Z -> Z) (keys : list Z) (s : list (Z * float)) (c : Q) :
  Forall (fun p => snd p = Fin c) s ->
  Forall (fun x => feq x (Fin c)) (values (groupby key keys mean s)).
Proof.
  intro H. unfold groupby, values.
  induction keys as [|k keys IH]; [constructor|].
  cbn [flat_map]. rewrite map_app. apply Forall_app. split; [|exact IH].
  destruct (filter (fun p => (key (fst p) =? k)%Z) s) as [|p g] eqn:E;
    [constructor|].
  assert (Hm : feq (mean (map snd (p :: g))) (Fin c)).
  { apply mean_all; [discriminate|].
    apply Forall_eq_feq, Forall_map.
    rewrite <- E. apply Forall_forall. intros q Hq.
    apply filter_In in Hq as [Hq _].
    rewrite Forall_forall in H. now apply H. }
  simpl. constructor; [exact Hm|constructor].
Qed.

Lemma lookup_In_values {A : Type} (k : Z) (d : list (Z * A)) (a : A) :
  lookup k d = Some a -> In a (map snd d).
Proof.
  induction d as [|[k' a'] d IH]; simpl; [discriminate|].
  destruct (k' =? k)%Z; [intro H; injection H as ->; now left|auto].
Qed.

Lemma get_all (profile : list (Z * float)) (k : Z) (default : float) (c : Q) :
  Forall (fun x => feq x (Fin c)) (values profile) ->
  feq default (Fin c) -> feq (get profile k default) (Fin c).
Proof.
  intros H Hd. unfold get.
  destruct (lookup k profile) as [a|] eqn:E; [|assumption].
  apply lookup_In_values in E. rewrite Forall_forall in H. now apply H.
Qed.

Lemma groupby_nonempty {A : Type} (key : Z -> Z) (keys : list Z)
  (f : list float -> A) (s : list (Z * float)) :
  (exists p, In p s /\ In (key (fst p)) keys) -> groupby key keys f s <> [].
Proof.
  intros (p & Hp & Hk) E.
  pose proof (lookup_groupby_Some key keys f s (key (fst p)) Hk
                (ex_intro _ p (conj Hp eq_refl))) as H.
  rewrite E in H. discriminate.
Qed.

(** The deviation of a seasonal profile from its own mean vanishes. *)
Lemma deviation_all (key : Z -> Z) (keys : list Z) (s : list (Z * float))
  (k : Z) (default : float) (c : Q) :
  Forall (fun p => snd p = Fin c) s ->
  (exists p, In p s /\ In (key (fst p)) keys) ->
  feq default (Fin c) ->
  feq (Webapp.deviation (groupby key keys mean s) k default) (Fin 0).
Proof.
  intros H Hne Hd. unfold Webapp.deviation.
  pose proof (groupby_mean_all key keys _ _ H) as Hg.
  apply fsub_all with (c := c).
  - now apply get_all.
  - apply mean_all; [|assumption].
    unfold values. intro E. apply map_eq_nil in E.
    now apply (groupby_nonempty key keys mean s Hne).
Qed.

Lemma fold_max_spec (t : Z) (l : list Z) :
  In (fold_right Z.max t l) (t :: l) /\
  forall x, In x (t :: l) -> (x <= fold_right Z.max t l)%Z.
Proof.
  induction l as [|a l [IH1 IH2]]; simpl.
  - split; [now left|]. intros x [->|[]]. lia.
  - split.
    + destruct (Z.max_spec a (fold_right Z.max t l)) as [[_ ->]|[_ ->]].
      * destruct IH1 as [H|H]; [now left|right; now right].
      * right. now left.
    + intros x [->|[->|Hx]].
      * specialize (IH2 x (or_introl eq_refl)). lia.
      * lia.
      * specialize (IH2 x (or_intror Hx)). lia.
Qed.

Lemma ts_max_spec (l : list Z) (m : Z) :
  Webapp.ts_max l = Some m -> In m l /\ forall x, In x l -> (x <= m)%Z.
Proof.
  destruct l as [|t l]; [discriminate|]. simpl. intro H. injection H as <-.
  apply fold_max_spec.
Qed.

Lemma ts_nonempty (l : list Z) :
  l <> [] -> exists lo hi, Webapp.ts_min l = Some lo /\ Webapp.ts_max l = Some hi.
Proof. destruct l; [congruence|]. simpl. eauto. Qed.

Lemma recent_incl (s : list (Z * float)) (p : Z * float) :
  In p (Webapp.recent s) -> In p s.
Proof.
  unfold Webapp.recent. destruct (Webapp.ts_max (map fst s)); [|contradiction].
  intro H. now apply filter_In in H.
Qed.

(** The window holds the latest row. *)
Lemma recent_nonempty (s : list (Z * float)) : s <> [] -> Webapp.recent s <> [].
Proof.
  intros Hs E. unfold Webapp.recent in E.
  destruct (Webapp.ts_max (map fst s)) as [m|] eqn:Em.
  - apply ts_max_spec in Em as [Hin _].
    apply in_map_iff in Hin as (p & Hp & Hin).
    assert (H : In p (filter (fun p => (m - days_delta 7 <=? fst p)%Z) s)).
    { apply filter_In. split; [assumption|]. rewrite Hp.
      unfold days_delta. apply Z.leb_le. lia. }
    rewrite E in H. contradiction.
  - destruct s; [congruence|discriminate].
Qed.

Lemma tail_incl {A : Type} (n : nat) (l : list A) (x : A) :
  In x (tail n l) -> In x l.
Proof.
  unfold tail. intro H.
  rewrite <- (firstn_skipn (List.length l - n) l). apply in_or_app. now right.
Qed.

Lemma tail_nonempty {A : Type} (n : nat) (l : list A) :
  l <> [] -> tail (S n) l <> [].
Proof.
  intros Hl E. apply (f_equal (@List.length A)) in E.
  unfold tail in E. rewrite length_skipn in E.
  change (@List.length A []) with 0%nat in E.
  assert (0 < List.length l)%nat by (destruct l; [congruence|simpl; lia]).
  lia.
Qed.

Section ConstantSeries.

Variable s : list (Z * float).
Variable c : Q.
Hypothesis s_nonempty : s <> [].
Hypothesis s_constant : Forall (fun p => snd p = Fin c) s.

Lemma recent_constant : Forall (fun p => snd p = Fin c) (Webapp.recent s).
Proof.
  apply Forall_forall. intros p Hp. apply recent_incl in Hp.
  rewrite Forall_forall in s_constant. now apply s_constant.
Qed.

(** The baseline level of a constant series is the constant. *)
Lemma base_constant : feq (Webapp.base s) (Fin c).
Proof.
  unfold Webapp.base. apply mean_all.
  - unfold values. intro E. apply map_eq_nil in E.
    now apply (tail_nonempty 23 _ (recent_nonempty _ s_nonempty)).
  - apply Forall_eq_feq. unfold values. apply Forall_map, Forall_forall.
    intros p Hp. apply tail_incl in Hp.
    pose proof recent_constant as H. rewrite Forall_forall in H. now apply H.
Qed.

Lemma hourly_deviation_constant (k : Z) :
  feq (Webapp.deviation (Webapp.hourly s) k (Webapp.base s)) (Fin 0).
Proof.
  apply deviation_all with (c := c); [assumption| |apply base_constant].
  destruct s as [|p s']; [congruence|].
  exists p. split; [now left|apply hour_range].
Qed.

Lemma weekly_deviation_constant (k : Z) :
  feq (Webapp.deviation (Webapp.weekly s) k (Webapp.base s)) (Fin 0).
Proof.
  apply deviation_all with (c := c); [assumption| |apply base_constant].
  destruct s as [|p s']; [congruence|].
  exists p. split; [now left|apply dayofweek_range].
Qed.

Lemma hr_off_finite (d hr : nat) : exists q, Webapp.hr_off s d hr = Fin q.
Proof.
  unfold Webapp.hr_off, Webapp.last_hrs.
  assert (H : map fst (Webapp.recent s) <> []).
  { intro E. apply map_eq_nil in E. now apply (recent_nonempty _ s_nonempty). }
  destruct (ts_nonempty _ H) as (lo & hi & -> & ->). simpl. eauto.
Qed.

End ConstantSeries.

Lemma to_hours_inj (a b : Z) : Webapp.to_hours a == Webapp.to_hours b -> a = b.
Proof.
  unfold Webapp.to_hours. intro H.
  apply inject_Z_injective.
  setoid_replace (inject_Z a) with (inject_Z a / 3600 * 3600) by field.
  rewrite H. field.
Qed.

Lemma fadd_feq (a b : float) (x y : Q) :
  feq a (Fin x) -> feq b (Fin y) -> feq (fadd a b) (Fin (x + y)).
Proof.
  destruct a, b; simpl; try contradiction. intros -> ->. reflexivity.
Qed.

Lemma fmul_zero_l (a b : float) (y : Q) :
  feq a (Fin 0) -> b = Fin y -> feq (fmul a b) (Fin 0).
Proof.
  destruct a; simpl; [contradiction|]. intros Ha ->. simpl. rewrite Ha. ring.
Qed.

(** The series of a constant column. *)
Lemma constant_column_series (df : DataFrame) (name : string) (c : Q) :
  constant_column df name c ->
  exists s,
    series (sort_values (rows df)) (columns df) name = Ok s /\
    Forall (fun p => snd p = Fin c) s.
Proof.
  intros (i & Hi & Hc).
  exists (map (fun r => (timestamp r, Fin c)) (sort_values (rows df))).
  split; [|apply Forall_map, Forall_forall; reflexivity].
  unfold series. rewrite Hi. cbn [bind].
  apply Forall2_for_each.
  assert (H : forall r, In r (sort_values (rows df)) ->
                        nth i (cells r) Missing = Number c)
    by (intros r Hr; apply Hc; now apply sort_values_In).
  induction (sort_values (rows df)) as [|r rs IH]; [constructor|].
  cbn [map]. constructor.
  - rewrite (H r (or_introl eq_refl)). reflexivity.
  - apply IH. intros r' Hr'. apply H. now right.
Qed.

(** ** The table loader *)

Lemma lstrip_split (l : list ascii) :
  exists pre, l = pre ++ lstrip l /\ Forall (fun c => is_space c = true) pre.
Proof.
  induction l as [|c l (pre & E & H)]; [exists []; split; [reflexivity|constructor]|].
  simpl. destruct (is_space c) eqn:Ec.
  - exists (c :: pre). split; [simpl; now f_equal|now constructor].
  - exists []. split; [reflexivity|constructor].
Qed.

Lemma lstrip_head (l : list ascii) :
  match lstrip l with [] => True | c :: _ => is_space c = false end.
Proof.
  induction l as [|c l IH]; simpl; [exact I|].
  destruct (is_space c) eqn:Ec; [exact IH|exact Ec].
Qed.

Lemma rstrip_split (l : list ascii) :
  exists post, l = rstrip l ++ post /\ Forall (fun c => is_space c = true) post.
Proof.
  destruct (lstrip_split (rev l)) as (pre & E & H).
  exists (rev pre). split.
  - unfold rstrip. rewrite <- rev_app_distr, <- E. now rewrite rev_involutive.
  - now apply Forall_rev.
Qed.

Lemma rstrip_last (l : list ascii) :
  match rev (rstrip l) with [] => True | c :: _ => is_space c = false end.
Proof. unfold rstrip. rewrite rev_involutive. apply lstrip_head. Qed.

Lemma rstrip_head (l : list ascii) :
  match l with [] => True | c :: _ => is_space c = false end ->
  match rstrip l with [] => True | c :: _ => is_space c = false end.
Proof.
  intro H. destruct (rstrip_split l) as (post & E & _).
  destruct (rstrip l) as [|c m]; [exact I|].
  rewrite E in H. exact H.
Qed.

(** [strip] removes white space from the two ends of a label and nothing
    else, and leaves none there. *)
Lemma strip_spec (s : string) :
  no_outer_space (strip s) /\
  exists pre post,
    list_ascii_of_string s = pre ++ list_ascii_of_string (strip s) ++ post /\
    Forall (fun c => is_space c = true) pre /\
    Forall (fun c => is_space c = true) post.
Proof.
  unfold no_outer_space, strip.
  rewrite list_ascii_of_string_of_list_ascii.
  repeat apply conj.
  - apply rstrip_head, lstrip_head.
  - apply rstrip_last.
  - destruct (lstrip_split (list_ascii_of_string s)) as (pre & E1 & H1).
    destruct (rstrip_split (lstrip (list_ascii_of_string s))) as (post & E2 & H2).
    exists pre, post. repeat apply conj; [|assumption|assumption].
    now rewrite <- E2.
Qed.

Lemma dropna_In (l : list (option Z * list cell)) (r : Row) :
  In r (dropna l) <-> In (Some (timestamp r), cells r) l.
Proof.
  induction l as [|[[t|] cs] l IH]; simpl; [tauto| |].
  - rewrite IH. split; intros [H|H]; auto; left.
    + subst r. reflexivity.
    + injection H as -> ->. now destruct r.
  - rewrite IH. split; [auto|]. intros [H|H]; [discriminate|assumption].
Qed.

Lemma load_data_Some to_datetime (file : result RawFrame) (df : DataFrame) :
  fst (load_data to_datetime file) = Some df <->
  load_data_try to_datetime file = Ok df.
Proof.
  unfold load_data. destruct (load_data_try to_datetime file); simpl;
    split; congruence.
Qed.

(** C9, as the code has it: the loader trims the white space around the
    column labels, drops exactly the rows whose timestamp does not parse,
    and returns the others, each once per occurrence in the file, in
    ascending order of timestamp; rows with equal timestamps are all kept. *)
Theorem load_data_spec to_datetime (raw : RawFrame) (df : DataFrame) :
  fst (load_data to_datetime (Ok raw)) = Some df ->
  exists i parse,
    column_index (map strip (raw_columns raw)) "timestamp" = Ok i /\
    to_datetime (map (fun r => nth i r Missing) (raw_rows raw)) = Ok parse /\
    columns df = map strip (raw_columns raw) /\
    Forall no_outer_space (columns df) /\
    let parsed r := parse (nth i r Missing) in
    Permutation (rows df) (dropna (map (fun r => (parsed r, r)) (raw_rows raw))) /\
    (forall r, In r (rows df) <->
               In (cells r) (raw_rows raw) /\ parsed (cells r) = Some (timestamp r)) /\
    Sorted by_time (rows df).
Proof.
  intro H. apply load_data_Some in H. unfold load_data_try in H.
  cbn [bind] in H. apply bind_Ok in H as (i & Hi & H).
  apply bind_Ok in H as (parse & Hparse & H). injection H as <-.
  exists i, parse. cbn [columns rows]. repeat apply conj.
  - exact Hi.
  - exact Hparse.
  - reflexivity.
  - apply Forall_map, Forall_forall. intros s _. apply strip_spec.
  - symmetry. apply sort_values_perm.
  - intro r. rewrite sort_values_In, dropna_In, in_map_iff. split.
    + intros (cs & E & Hcs). injection E as E1 E2. subst cs. now split.
    + intros [Hin Hp]. exists (cells r). split; [now rewrite Hp|assumption].
  - apply sort_values_sorted.
Qed.

Lemma load_data_spec_witness :
  exists df,
    fst (load_data parse_epoch (Ok raw_messy)) = Some df /\
    columns df = ["timestamp"; "aqi"; "temp"] /\
    map timestamp (rows df) = [3600; 7200]%Z /\
    Sorted by_time (rows df).
Proof.
  assert (H : exists df, fst (load_data parse_epoch (Ok raw_messy)) = Some df /\
                         columns df = ["timestamp"; "aqi"; "temp"] /\
                         map timestamp (rows df) = [3600; 7200]%Z)
    by (eexists; repeat apply conj; vm_compute; reflexivity).
  destruct H as (df & Hdf & Hc & Ht). exists df.
  destruct (load_data_spec parse_epoch raw_messy df Hdf)
    as (i & parse & _ & _ & _ & _ & _ & _ & Hs).
  repeat apply conj; assumption.
Defined.

(** C9 as stated fails on the deduplication: two rows of the file with the
    same timestamp are both in the loaded table. *)
Lemma load_data_counterexample :
  exists df,
    fst (load_data parse_epoch (Ok raw_twins)) = Some df /\
    map timestamp (rows df) = [3600; 3600]%Z /\
    ~ NoDup (map timestamp (rows df)).
Proof.
  eexists. split; [vm_compute; reflexivity|]. split; [reflexivity|].
  simpl. intro H. inversion H as [|? ? Hn _]. apply Hn. now left.
Qed.

(** ** More on the linear trend estimator *)

(** The samples of a window, row by row. *)
Lemma samples_unfold (data : list (Z * float)) (t0 : Z) :
  Webapp.ts_min (map fst data) = Some t0 ->
  samples data =
  flat_map (fun p => match snd p with
                     | Fin y => [(Webapp.to_hours (fst p - t0), y)]
                     | NaN => []
                     end) data.
Proof.
  intro H. unfold samples, Webapp.hrs. rewrite H. clear H.
  unfold values. induction data as [|[t [|y]] data IH]; simpl; [reflexivity| |].
  - exact IH.
  - now rewrite IH.
Qed.

Lemma Qmean_affine {A : Type} (f : A -> Q) (a b : Q) (l : list A) :
  l <> [] ->
  Qmean (map (fun p => a + b * f p) l) == a + b * Qmean (map f l).
Proof.
  intro Hl.
  assert (Hn : 0 < Qlen (map f l)).
  { apply Qlen_pos. destruct l; [congruence|discriminate]. }
  unfold Qmean. rewrite (Qlen_map (fun p => a + b * f p) f).
  rewrite (Qsum_plus (fun _ => a) (fun p => b * f p)).
  rewrite (Qsum_const a f), Qsum_scale. field. lra.
Qed.

Lemma samples_valid_rows (data : list (Z * float)) (t0 : Z) :
  Webapp.ts_min (map fst data) = Some t0 ->
  samples data = map (sample_of t0) (valid_rows data).
Proof.
  intro H. rewrite (samples_unfold _ _ H). clear H. unfold valid_rows.
  induction data as [|[t [|y]] data IH]; simpl; [reflexivity|exact IH|].
  now f_equal.
Qed.

Lemma valid_rows_In (data : list (Z * float)) (t : Z) (y : Q) :
  In (t, y) (valid_rows data) <-> In (t, Fin y) data.
Proof.
  unfold valid_rows. rewrite in_flat_map. split.
  - intros ([t' [|y']] & Hp & Hin); simpl in Hin; [contradiction|].
    destruct Hin as [E|[]]. now injection E as <- <-.
  - intro H. exists (t, Fin y). split; [assumption|now left].
Qed.

Lemma valid_rows_length (data : list (Z * float)) :
  List.length (valid_rows data) = List.length (valid (values data)).
Proof.
  unfold valid_rows, values.
  induction data as [|[t [|y]] data IH]; simpl; auto.
Qed.

Lemma valid_rows_filter (data : list (Z * float)) :
  valid_rows (filter has_value data) = valid_rows data.
Proof.
  unfold valid_rows, has_value.
  induction data as [|[t [|y]] data IH]; simpl; [reflexivity|exact IH|].
  now rewrite IH.
Qed.

(** Samples that agree up to a move of the abscissas by [k] and the map
    [y -> a + c y] of the ordinates: the spread of the abscissas is the
    same and the co-deviation is multiplied by [c]. *)
Lemma Qsxy_ext_affine {A : Type} (h h' : A -> Q * Q) (k a c : Q) (l : list A) :
  (forall r, In r l -> fst (h r) == fst (h' r) + k /\
                       snd (h r) == a + c * snd (h' r)) ->
  Webapp.Qsxy (map h l) == c * Webapp.Qsxy (map h' l) /\
  Qss (map fst (map h l)) == Qss (map fst (map h' l)).
Proof.
  intro H. destruct l as [|r0 l0].
  { unfold Webapp.Qsxy, Qss. simpl. split; ring. }
  set (l := r0 :: l0) in *. assert (Hne : l <> []) by discriminate.
  assert (Hmx : Qmean (map (fun r => fst (h r)) l)
                == k + 1 * Qmean (map (fun r => fst (h' r)) l)).
  { rewrite <- (Qmean_affine (fun r => fst (h' r)) k 1 l Hne).
    unfold Qmean.
    rewrite (Qlen_map (fun r => fst (h r)) (fun r => k + 1 * fst (h' r))).
    rewrite (Qsum_ext (fun r => fst (h r)) (fun r => k + 1 * fst (h' r))).
    - reflexivity.
    - intros r Hr. destruct (H r Hr) as [E _]. rewrite E. ring. }
  assert (Hmy : Qmean (map (fun r => snd (h r)) l)
                == a + c * Qmean (map (fun r => snd (h' r)) l)).
  { rewrite <- (Qmean_affine (fun r => snd (h' r)) a c l Hne).
    unfold Qmean.
    rewrite (Qlen_map (fun r => snd (h r)) (fun r => a + c * snd (h' r))).
    rewrite (Qsum_ext (fun r => snd (h r)) (fun r => a + c * snd (h' r))).
    - reflexivity.
    - intros r Hr. now destruct (H r Hr) as [_ E]. }
  split.
  - unfold Webapp.Qsxy. cbv zeta. rewrite !map_map.
    rewrite <- Qsum_scale. apply Qsum_ext. intros r Hr. cbv beta.
    destruct (H r Hr) as [E1 E2]. rewrite Hmx, Hmy, E1, E2. ring.
  - unfold Qss. rewrite !map_map. apply Qsum_ext. intros r Hr. cbv beta.
    destruct (H r Hr) as [E1 _]. rewrite Hmx, E1. ring.
Qed.

(** The spread of the elapsed hours vanishes exactly when the rows that
    carry a value all have one timestamp. *)
Lemma spread_zero_iff (vr : list (Z * Q)) (t0 : Z) :
  Qss (map fst (map (sample_of t0) vr)) == 0 <->
  (forall r r', In r vr -> In r' vr -> fst r = fst r').
Proof.
  split.
  - intros H r r' Hr Hr'.
    assert (Hx : forall r, In r vr ->
                 Webapp.to_hours (fst r - t0)
                 == Qmean (map fst (map (sample_of t0) vr))).
    { intros r1 Hr1. apply (Qss_zero _ H). rewrite map_map.
      apply in_map_iff. exists r1. split; [reflexivity|assumption]. }
    pose proof (Hx r Hr) as E. rewrite <- (Hx r' Hr') in E.
    apply to_hours_inj in E. lia.
  - intro H. destruct vr as [|r0 vr0]; [reflexivity|].
    set (vr := r0 :: vr0) in *.
    assert (Hall : Forall (fun q => q == Webapp.to_hours (fst r0 - t0))
                          (map fst (map (sample_of t0) vr))).
    { rewrite map_map. apply Forall_map, Forall_forall. intros r Hr. simpl.
      rewrite (H r r0 Hr (or_introl eq_refl)). reflexivity. }
    assert (Hm : Qmean (map fst (map (sample_of t0) vr))
                 == Webapp.to_hours (fst r0 - t0))
      by (apply Qmean_all; [discriminate|exact Hall]).
    unfold Qss. rewrite (Qsum_ext _ (fun _ => 0 * 0)).
    + rewrite (Qsum_const _ (fun x => x)). ring.
    + intros x Hx. rewrite Forall_forall in Hall. rewrite (Hall x Hx), Hm. ring.
Qed.

Lemma ts_min_cases (data : list (Z * float)) :
  data = [] \/ exists t0, Webapp.ts_min (map fst data) = Some t0.
Proof. destruct data; [now left|right]. simpl. eauto. Qed.

Lemma calc_trend_rows (data : list (Z * float)) (t0 : Z) :
  Webapp.ts_min (map fst data) = Some t0 ->
  Webapp.calc_trend data =
  if (List.length (valid_rows data) <? 2)%nat then Fin 0
  else fdiv (Fin (Webapp.Qsxy (map (sample_of t0) (valid_rows data))))
            (Fin (Qss (map fst (map (sample_of t0) (valid_rows data))))).
Proof.
  intro H. unfold Webapp.calc_trend. fold (samples data).
  rewrite (samples_valid_rows _ _ H). now rewrite length_map.
Qed.

(** With two values or more, all of them on the first timestamp of the
    window, the elapsed hours are all 0 and the slope is 0/0. *)
Lemma calc_trend_one_instant (data : list (Z * float)) :
  (2 <= List.length (valid (values data)))%nat ->
  (forall t y, In (t, Fin y) data -> Webapp.ts_min (map fst data) = Some t) ->
  Webapp.calc_trend data = NaN.
Proof.
  intros Hlen Hall.
  destruct (ts_min_cases data) as [->|(t0 & Ht0)]; [simpl in Hlen; lia|].
  rewrite (calc_trend_rows _ _ Ht0), valid_rows_length.
  replace (List.length (valid (values data)) <? 2)%nat with false
    by (symmetry; apply Nat.ltb_ge; lia).
  assert (E : Qss (map fst (map (sample_of t0) (valid_rows data))) == 0).
  { apply spread_zero_iff. intros [t y] [t' y'] H1 H2.
    apply valid_rows_In in H1, H2.
    pose proof (Hall t y H1) as E1. pose proof (Hall t' y' H2) as E2.
    simpl. congruence. }
  unfold fdiv. now rewrite (Qeq_bool_true _ _ E).
Qed.

Lemma fadd_nan_r (a : float) : fadd a NaN = NaN.
Proof. now destruct a. Qed.

Section TrendUndetermined.

Variable now : nat -> Z.
Variable normal : nat -> Q -> Q -> Q.
Variable s : list (Z * float).
Hypothesis trend_nan : Webapp.calc_trend (Webapp.recent s) = NaN.

Lemma pred_t_nan (d hr : nat) : Webapp.pred_t now normal s d hr = NaN.
Proof.
  unfold Webapp.pred_t. rewrite trend_nan. cbn [fmul]. now rewrite fadd_nan_r.
Qed.

Lemma pred_h_nan (d hr : nat) : Webapp.pred_h now normal s d hr = NaN.
Proof.
  unfold Webapp.pred_h. rewrite trend_nan. cbn [fmul]. now rewrite fadd_nan_r.
Qed.

Lemma pred_w_nan (d hr : nat) : Webapp.pred_w normal s d hr = NaN.
Proof.
  unfold Webapp.pred_w. rewrite trend_nan. cbn [fmul]. now rewrite fadd_nan_r.
Qed.

End TrendUndetermined.

(** X1: A window with two values or more, all of them on its first
    timestamp, has no slope: the elapsed hours are all 0 and [calc_trend]
    returns 0/0, NaN, without raising.  A quantity whose trend is NaN in a
    returned forecast has NaN for every predicted value. *)
Theorem trend_undetermined :
  (forall data,
      (2 <= List.length (valid (values data)))%nat ->
      (forall t y, In (t, Fin y) data -> Webapp.ts_min (map fst data) = Some t) ->
      Webapp.calc_trend data = NaN) /\
  (forall now normal df days fs trends,
      Webapp.forecast_weather now normal df days = ((Some fs, Some trends), []) ->
      (Webapp.temp_trend trends = NaN ->
       Forall (fun r => Forall (fun v => v = NaN) (Webapp.temps r)) fs) /\
      (Webapp.humidity_trend trends = NaN ->
       Forall (fun r => Forall (fun v => v = NaN) (Webapp.humidity r)) fs) /\
      (Webapp.wind_trend trends = NaN ->
       Forall (fun r => Forall (fun v => v = NaN) (Webapp.wind r)) fs)).
Proof.
  split; [exact calc_trend_one_instant|].
  intros now normal df days fs trends H.
  assert (Ht : Webapp.forecast_weather_try now normal df days = Ok (fs, trends)).
  { unfold Webapp.forecast_weather in H.
    destruct (Webapp.forecast_weather_try now normal df days) as [[fs' tr]|e];
      [|discriminate]. now injection H as -> ->. }
  apply forecast_weather_try_Ok in Ht as (t_s & h_s & w_s & _ & _ & _ & -> & ->).
  cbn [Webapp.temp_trend Webapp.humidity_trend Webapp.wind_trend].
  split; [|split]; intro Hn;
    apply Forall_map, Forall_forall; intros d _;
    unfold Webapp.forecast_day;
    cbn [Webapp.temps Webapp.humidity Webapp.wind];
    apply Forall_map, Forall_forall; intros hr _.
  - now rewrite (pred_t_nan now normal t_s Hn).
  - now rewrite (pred_h_nan now normal h_s Hn).
  - now rewrite (pred_w_nan normal w_s Hn).
Qed.

(** On [df_twins], two rows on one timestamp, the three trends are NaN and
    so is every predicted value. *)
Lemma trend_undetermined_witness :
  Webapp.calc_trend [(345600, Fin 20); (345600, Fin 22)]%Z = NaN /\
  exists r trends,
    Webapp.forecast_weather (clock_at monday) no_noise df_twins 1
    = ((Some [r], Some trends), []) /\
    Forall (fun v => v = NaN) (Webapp.temps r) /\
    Forall (fun v => v = NaN) (Webapp.humidity r) /\
    Forall (fun v => v = NaN) (Webapp.wind r).
Proof.
  destruct trend_undetermined as [H1 H2]. split.
  - apply H1; [simpl; lia|].
    intros t y [E|[E|[]]]; injection E as <- _; reflexivity.
  - assert (H : exists r trends,
               Webapp.forecast_weather (clock_at monday) no_noise df_twins 1
               = ((Some [r], Some trends), []) /\
               Webapp.temp_trend trends = NaN /\
               Webapp.humidity_trend trends = NaN /\
               Webapp.wind_trend trends = NaN)
      by (do 2 eexists; repeat apply conj; vm_compute; reflexivity).
    destruct H as (r & trends & Hf & Et & Eh & Ew).
    destruct (H2 _ _ _ _ _ _ Hf) as (Ht & Hh & Hw).
    exists r, trends. split; [exact Hf|]. repeat apply conj.
    + specialize (Ht Et). now inversion Ht.
    + specialize (Hh Eh). now inversion Hh.
    + specialize (Hw Ew). now inversion Hw.
Defined.

(** X3: Rows without a value do not count: when the first timestamp of the
    window belongs to a row with a value, the trend is the trend of the
    rows that carry a value, computed on the same numbers. *)
Theorem calc_trend_skips_missing (data : list (Z * float)) :
  Webapp.ts_min (map fst (filter has_value data)) = Webapp.ts_min (map fst data) ->
  Webapp.calc_trend (filter has_value data) = Webapp.calc_trend data.
Proof.
  intro H. destruct (ts_min_cases data) as [->|(t0 & Ht0)]; [reflexivity|].
  rewrite Ht0 in H.
  rewrite (calc_trend_rows _ _ Ht0), (calc_trend_rows _ _ H).
  now rewrite valid_rows_filter.
Qed.

Lemma calc_trend_skips_missing_witness :
  Webapp.calc_trend [(0, Fin 10); (7200, Fin 13); (18000, Fin 16)]%Z
  = Webapp.calc_trend
      [(0, Fin 10); (3600, NaN); (7200, Fin 13); (10800, NaN); (18000, Fin 16)]%Z.
Proof.
  apply (calc_trend_skips_missing
           [(0, Fin 10); (3600, NaN); (7200, Fin 13); (10800, NaN);
            (18000, Fin 16)]%Z).
  reflexivity.
Defined.

Lemma fold_min_shift (k t : Z) (l : list Z) :
  fold_right Z.min (t + k)%Z (map (fun x => (x + k)%Z) l)
  = (fold_right Z.min t l + k)%Z.
Proof. induction l as [|x l IH]; simpl; [reflexivity|]. rewrite IH. lia. Qed.

Lemma ts_min_shift (k : Z) (l : list Z) :
  Webapp.ts_min (map (fun x => (x + k)%Z) l)
  = option_map (fun t => (t + k)%Z) (Webapp.ts_min l).
Proof.
  destruct l as [|t l]; [reflexivity|]. simpl. now rewrite fold_min_shift.
Qed.

(** X4: The trend depends on the time elapsed between the rows only, not on
    where the clock starts: moving every timestamp by the same [k] seconds
    leaves every number of the computation as it is. *)
Theorem calc_trend_shift (data : list (Z * float)) (k : Z) :
  Webapp.calc_trend (map (fun p => ((fst p + k)%Z, snd p)) data)
  = Webapp.calc_trend data.
Proof.
  set (g := fun p : Z * float => ((fst p + k)%Z, snd p)).
  destruct (ts_min_cases data) as [->|(t0 & Ht0)]; [reflexivity|].
  assert (Ht1 : Webapp.ts_min (map fst (map g data)) = Some (t0 + k)%Z).
  { rewrite map_map. unfold g. cbn [fst].
    rewrite <- (map_map fst (fun x => (x + k)%Z)), ts_min_shift, Ht0.
    reflexivity. }
  assert (Hs : map (sample_of (t0 + k)) (valid_rows (map g data))
               = map (sample_of t0) (valid_rows data)).
  { clear. induction data as [|[t [|y]] data IH]; [reflexivity|exact IH|].
    change (valid_rows (map g ((t, Fin y) :: data)))
      with (((t + k)%Z, y) :: valid_rows (map g data)).
    change (valid_rows ((t, Fin y) :: data)) with ((t, y) :: valid_rows data).
    cbn [map]. rewrite IH. f_equal. unfold sample_of. cbn [fst snd].
    now replace (t + k - (t0 + k))%Z with (t - t0)%Z by lia. }
  rewrite (calc_trend_rows _ _ Ht0), (calc_trend_rows _ _ Ht1), Hs.
  assert (Hl : List.length (valid_rows (map g data))
               = List.length (valid_rows data)).
  { rewrite <- (length_map (sample_of (t0 + k))), Hs. apply length_map. }
  now rewrite Hl.
Qed.

(** ** The trailing window of the hourly forecaster *)

Lemma fold_min_spec (t : Z) (l : list Z) :
  In (fold_right Z.min t l) (t :: l) /\
  forall x, In x (t :: l) -> (fold_right Z.min t l <= x)%Z.
Proof.
  induction l as [|a l [IH1 IH2]]; simpl.
  - split; [now left|]. intros x [->|[]]. lia.
  - split.
    + destruct (Z.min_spec a (fold_right Z.min t l)) as [[_ ->]|[_ ->]].
      * right. now left.
      * destruct IH1 as [H|H]; [now left|right; now right].
    + intros x [->|[->|Hx]].
      * specialize (IH2 x (or_introl eq_refl)). lia.
      * lia.
      * specialize (IH2 x (or_intror Hx)). lia.
Qed.

Lemma ts_min_spec (l : list Z) (m : Z) :
  Webapp.ts_min l = Some m -> In m l /\ forall x, In x l -> (m <= x)%Z.
Proof.
  destruct l as [|t l]; [discriminate|]. simpl. intro H. injection H as <-.
  apply fold_min_spec.
Qed.

(** The window is made of the rows at most seven days older than the
    latest one. *)
Lemma recent_In (s : list (Z * float)) (last : Z) (p : Z * float) :
  Webapp.ts_max (map fst s) = Some last ->
  (In p (Webapp.recent s) <-> In p s /\ (last - 604800 <= fst p)%Z).
Proof.
  intro H. unfold Webapp.recent. rewrite H, filter_In.
  unfold days_delta. rewrite Z.leb_le. reflexivity.
Qed.

(** X5: On a non-empty series the window holds the latest row, spans between 0
    and 168 hours, and the hour offset of hour [hr] of day [d] lies between
    (d - 1) x 24 + hr and 168 + (d - 1) x 24 + hr. *)
Theorem window_span (s : list (Z * float)) :
  s <> [] ->
  exists last span,
    Webapp.ts_max (map fst s) = Some last /\
    (exists p, In p (Webapp.recent s) /\ fst p = last) /\
    (forall p, In p (Webapp.recent s) -> (last - 604800 <= fst p <= last)%Z) /\
    Webapp.last_hrs s = Fin span /\ 0 <= span /\ span <= 168 /\
    forall d hr : nat,
      Webapp.hr_off s d hr
      = Fin (span + inject_Z ((Z.of_nat d - 1) * 24) + inject_Z (Z.of_nat hr)).
Proof.
  intro Hs.
  assert (Hts : map fst s <> []) by (intro E; apply map_eq_nil in E; contradiction).
  destruct (ts_nonempty _ Hts) as (lo0 & last & _ & Hmax).
  destruct (ts_max_spec _ _ Hmax) as [Hin Hle].
  assert (Hbound : forall p, In p (Webapp.recent s) ->
                             (last - 604800 <= fst p <= last)%Z).
  { intros p Hp. apply (recent_In s last p Hmax) in Hp as [Hp Hlo].
    split; [assumption|]. apply Hle. now apply in_map. }
  assert (Hlast : exists p, In p (Webapp.recent s) /\ fst p = last).
  { apply in_map_iff in Hin as (p & Hp & Hin). exists p. split; [|assumption].
    apply (recent_In s last p Hmax). split; [assumption|lia]. }
  assert (Hr : map fst (Webapp.recent s) <> []).
  { intro E. apply map_eq_nil in E. now apply (recent_nonempty s Hs). }
  destruct (ts_nonempty _ Hr) as (lo & hi & Hlo & Hhi).
  destruct (ts_min_spec _ _ Hlo) as [Hlo_in Hlo_le].
  destruct (ts_max_spec _ _ Hhi) as [Hhi_in Hhi_le].
  apply in_map_iff in Hlo_in as (plo & <- & Hplo).
  apply in_map_iff in Hhi_in as (phi & <- & Hphi).
  pose proof (Hbound plo Hplo). pose proof (Hbound phi Hphi).
  pose proof (Hlo_le (fst phi) (in_map fst _ _ Hphi)).
  exists last, (Webapp.to_hours (fst phi - fst plo)).
  repeat apply conj; try assumption.
  - unfold Webapp.last_hrs. now rewrite Hlo, Hhi.
  - unfold Webapp.to_hours. apply Qle_shift_div_l; [reflexivity|].
    rewrite Qmult_0_l. change 0 with (inject_Z 0). rewrite <- Zle_Qle. lia.
  - unfold Webapp.to_hours. apply Qle_shift_div_r; [reflexivity|].
    change (168 * 3600) with (inject_Z 604800). rewrite <- Zle_Qle. lia.
  - intros d hr. unfold Webapp.hr_off, Webapp.last_hrs. now rewrite Hlo, Hhi.
Qed.

Lemma window_span_witness :
  exists last span,
    Webapp.ts_max (map fst wind_weather) = Some last /\
    Webapp.last_hrs wind_weather = Fin span /\ 0 <= span /\ span <= 168.
Proof.
  destruct (window_span wind_weather) as (last & span & H1 & _ & _ & H2 & H3 & H4 & _).
  - discriminate.
  - exists last, span. repeat apply conj; assumption.
Defined.

(** ** Constant histories *)

Lemma valid_rows_constant (c : Q) (data : list (Z * float)) :
  Forall (fun p => snd p = Fin c) data ->
  valid_rows data = map (fun p => (fst p, c)) data.
Proof.
  induction 1 as [|[t v] data Hp _ IH]; [reflexivity|].
  simpl in Hp. subst v. unfold valid_rows in *. simpl. now rewrite IH.
Qed.

(** The slope over a window of a constant series is 0 when the window has
    fewer than two rows, and when two of its rows differ in their
    timestamps. *)
Lemma calc_trend_constant (c : Q) (data : list (Z * float)) :
  Forall (fun p => snd p = Fin c) data ->
  (List.length data < 2)%nat \/
  (exists p q, In p data /\ In q data /\ fst p <> fst q) ->
  feq (Webapp.calc_trend data) (Fin 0).
Proof.
  intros Hc Hd.
  destruct (ts_min_cases data) as [->|(t0 & Ht0)]; [simpl; reflexivity|].
  rewrite (calc_trend_rows _ _ Ht0), (valid_rows_constant c data Hc), length_map.
  destruct (List.length data <? 2)%nat eqn:El; [simpl; reflexivity|].
  apply Nat.ltb_ge in El. destruct Hd as [Hd|(p & q & Hp & Hq & Hpq)]; [lia|].
  set (vr := map (fun p => (fst p, c)) data).
  assert (Hss : ~ Qss (map fst (map (sample_of t0) vr)) == 0).
  { intro E. apply Hpq.
    apply (proj1 (spread_zero_iff vr t0) E (fst p, c) (fst q, c));
      unfold vr; apply in_map_iff; eauto. }
  destruct (Qsxy_ext_affine (sample_of t0)
              (fun r => (Webapp.to_hours (fst r - t0), 0)) 0 c 0 vr) as [Exy _].
  { intros r Hr. unfold vr in Hr. apply in_map_iff in Hr as (p' & <- & _).
    simpl. split; ring. }
  unfold fdiv. rewrite (Qeq_bool_false _ _ Hss). unfold feq.
  rewrite Exy. field. exact Hss.
Qed.

Lemma ts_max_perm (l l' : list Z) :
  Permutation l l' -> Webapp.ts_max l = Webapp.ts_max l'.
Proof.
  intro Hp.
  destruct (Webapp.ts_max l) as [m|] eqn:E, (Webapp.ts_max l') as [m'|] eqn:E'.
  - apply ts_max_spec in E as [H1 H2]. apply ts_max_spec in E' as [H1' H2'].
    f_equal. apply Z.le_antisymm.
    + apply H2'. now apply (Permutation_in _ Hp).
    + apply H2. apply Permutation_sym in Hp. now apply (Permutation_in _ Hp).
  - destruct l'; [|discriminate]. apply Permutation_sym, Permutation_nil in Hp.
    now subst l.
  - destruct l; [|discriminate]. apply Permutation_nil in Hp. now subst l'.
  - reflexivity.
Qed.

(** The size of the part of a list that passes a test, and whether that
    part passes a second test, do not depend on the order of the list. *)
Lemma selection_order {A : Type} (keep test : A -> bool) (l l' : list A) :
  Permutation l l' ->
  List.length (filter keep l) = List.length (filter keep l') /\
  forallb test (filter keep l) = forallb test (filter keep l').
Proof.
  intro Hp. induction Hp as [|a l l' _ [IHn IHt]|a b l|l l' l'' _ [H1 H2] _ [H3 H4]].
  - split; reflexivity.
  - cbn [filter]. destruct (keep a); cbn [List.length forallb];
      [rewrite IHn, IHt|]; split; auto.
  - cbn [filter]. destruct (keep a), (keep b); cbn [List.length forallb];
      split; try reflexivity.
    now destruct (test a), (test b).
  - split; congruence.
Qed.

(** Whether the window is stalled does not depend on the order of the
    rows. *)
Lemma stalled_perm (ts ts' : list Z) :
  Permutation ts ts' -> stalled ts = stalled ts'.
Proof.
  intro Hp. unfold stalled, window. rewrite (ts_max_perm _ _ Hp).
  destruct (Webapp.ts_max ts') as [last|]; [|reflexivity].
  destruct (selection_order (fun t => (last - days_delta 7 <=? t)%Z)
              (Z.eqb last) ts ts' Hp) as [-> ->].
  reflexivity.
Qed.

Lemma forallb_false {A : Type} (f : A -> bool) (l : list A) :
  forallb f l = false -> exists a, In a l /\ f a = false.
Proof.
  induction l as [|a l IH]; simpl; [discriminate|].
  destruct (f a) eqn:E.
  - intro H. destruct (IH H) as (b & Hb & Hf). exists b. auto.
  - intros _. exists a. auto.
Qed.

(** A stalled window: two rows or more, every one on the first timestamp
    of the window. *)
Lemma stalled_recent (s : list (Z * float)) :
  stalled (map fst s) = true ->
  (2 <= List.length (Webapp.recent s))%nat /\
  forall p, In p (Webapp.recent s) ->
            Webapp.ts_min (map fst (Webapp.recent s)) = Some (fst p).
Proof.
  unfold stalled. destruct (Webapp.ts_max (map fst s)) as [last|]; [|discriminate].
  rewrite <- recent_timestamps, length_map. intro H.
  apply andb_prop in H as [Hlen Hall]. apply Nat.leb_le in Hlen.
  rewrite forallb_forall in Hall. split; [exact Hlen|].
  assert (Heq : forall t, In t (map fst (Webapp.recent s)) -> t = last)
    by (intros t Ht; symmetry; apply Z.eqb_eq; now apply Hall).
  intros p Hp.
  destruct (Webapp.ts_min (map fst (Webapp.recent s))) as [lo|] eqn:E.
  - apply ts_min_spec in E as [Hin _].
    now rewrite (Heq lo Hin), (Heq (fst p) (in_map fst _ _ Hp)).
  - destruct (Webapp.recent s); [contradiction|discriminate].
Qed.

(** A window that is not stalled: fewer than two rows, or two rows whose
    timestamps differ. *)
Lemma moving_recent (s : list (Z * float)) :
  stalled (map fst s) = false ->
  (List.length (Webapp.recent s) < 2)%nat \/
  exists p q, In p (Webapp.recent s) /\ In q (Webapp.recent s) /\ fst p <> fst q.
Proof.
  unfold stalled.
  destruct (Webapp.ts_max (map fst s)) as [last|] eqn:Emax.
  - rewrite <- recent_timestamps, length_map. intro H.
    apply andb_false_iff in H as [Hlen|Hall].
    + left. apply Nat.leb_gt in Hlen. exact Hlen.
    + right. apply forallb_false in Hall as (t & Ht & Hne).
      apply Z.eqb_neq in Hne.
      apply in_map_iff in Ht as (p & <- & Hp).
      destruct (ts_max_spec _ _ Emax) as [Hin _].
      apply in_map_iff in Hin as (q & Hq & Hin).
      exists p, q. repeat apply conj; [assumption| |congruence].
      apply (recent_In s last q Emax). split; [assumption|lia].
  - intros _. left. unfold Webapp.recent. rewrite Emax. simpl. lia.
Qed.

Lemma valid_constant (c : Q) (data : list (Z * float)) :
  Forall (fun p => snd p = Fin c) data ->
  List.length (valid (values data)) = List.length data.
Proof.
  intro H. unfold values. rewrite <- (length_map snd data).
  apply (valid_all c). apply Forall_eq_feq, Forall_map. exact H.
Qed.

Section ConstantPrediction.

Variable now : nat -> Z.
Variable s : list (Z * float).
Variable c : Q.
Hypothesis s_nonempty : s <> [].
Hypothesis s_constant : Forall (fun p => snd p = Fin c) s.
Hypothesis s_moving : stalled (map fst s) = false.

Lemma trend_term_constant (d hr : nat) :
  feq (fmul (Webapp.calc_trend (Webapp.recent s)) (Webapp.hr_off s d hr)) (Fin 0).
Proof.
  destruct (hr_off_finite s s_nonempty d hr) as (q & ->).
  apply fmul_zero_l with (y := q); [|reflexivity].
  apply calc_trend_constant with (c := c).
  - now apply recent_constant.
  - now apply moving_recent.
Qed.

Lemma pred_t_constant (d hr : nat) :
  feq (Webapp.pred_t now no_noise s d hr) (Fin c).
Proof.
  unfold Webapp.pred_t, no_noise.
  eapply feq_trans.
  - repeat apply fadd_feq.
    + apply base_constant with (c := c); assumption.
    + apply hourly_deviation_constant with (c := c); assumption.
    + apply weekly_deviation_constant with (c := c); assumption.
    + apply trend_term_constant.
    + apply feq_refl.
  - simpl. ring.
Qed.

Lemma pred_h_constant (d hr : nat) :
  feq (Webapp.pred_h now no_noise s d hr) (Fin c).
Proof.
  unfold Webapp.pred_h, no_noise.
  eapply feq_trans.
  - repeat apply fadd_feq.
    + apply base_constant with (c := c); assumption.
    + apply hourly_deviation_constant with (c := c); assumption.
    + apply weekly_deviation_constant with (c := c); assumption.
    + apply trend_term_constant.
    + apply feq_refl.
  - simpl. ring.
Qed.

Lemma pred_w_constant (d hr : nat) :
  feq (Webapp.pred_w no_noise s d hr) (Fin c).
Proof.
  unfold Webapp.pred_w, no_noise.
  eapply feq_trans.
  - repeat apply fadd_feq.
    + apply base_constant with (c := c); assumption.
    + apply hourly_deviation_constant with (c := c); assumption.
    + apply trend_term_constant.
    + apply feq_refl.
  - simpl. ring.
Qed.

End ConstantPrediction.

(** The series of a column of a table that has rows, and its window. *)
Lemma series_shape (df : DataFrame) (name : string) (s : list (Z * float)) :
  series (sort_values (rows df)) (columns df) name = Ok s ->
  rows df <> [] ->
  s <> [] /\ stalled (map fst s) = stalled (map timestamp (rows df)).
Proof.
  intros Hs Hne. apply series_timestamps in Hs.
  pose proof (sort_values_perm (rows df)) as Hp.
  split.
  - intro E. rewrite E in Hs. simpl in Hs. symmetry in Hs.
    apply map_eq_nil in Hs. rewrite Hs in Hp.
    symmetry in Hp. apply Permutation_nil in Hp. contradiction.
  - rewrite Hs. apply stalled_perm, Permutation_map, Permutation_sym, Hp.
Qed.

(** The trend of a constant column over a stalled window. *)
Lemma calc_trend_stalled (c : Q) (s : list (Z * float)) :
  Forall (fun p => snd p = Fin c) s ->
  stalled (map fst s) = true ->
  Webapp.calc_trend (Webapp.recent s) = NaN.
Proof.
  intros Hc Hst. destruct (stalled_recent s Hst) as [Hlen Hall].
  apply calc_trend_one_instant.
  - rewrite (valid_constant c); [exact Hlen|].
    apply Forall_forall. intros p Hp. apply recent_incl in Hp.
    rewrite Forall_forall in Hc. now apply Hc.
  - intros t y Hin. exact (Hall (t, Fin y) Hin).
Qed.

Lemma exact_multiples_whole (z : Z) (n : nat) :
  (Z.abs z * Z.of_nat n < 2 ^ 53)%Z -> exact_multiples (inject_Z z) n.
Proof.
  intros H j Hj. exists (Z.of_nat j * z)%Z, 0%Z. repeat apply conj; try lia.
  - rewrite Z.abs_mul. nia.
  - rewrite inject_Z_mult. simpl. ring.
Qed.

(** C8, as the code has it: on a non-empty history in which a quantity is
    one constant [c] at every row, the hourly forecaster with its noise
    stubbed to 0 predicts, for every hour of every day of the horizon, [c]
    clipped to the bounds of the quantity, [c] itself whenever [c] lies
    within them.  This holds for the constants whose multiples up to the
    number of rows are floats, for which the means of the column are
    computed without rounding, and unless the trailing window is stalled
    (two rows or more, all on the latest timestamp): every predicted value
    is then NaN. *)
Theorem constant_history now df days fs :
  rows df <> [] ->
  fst (fst (Webapp.forecast_weather now no_noise df days)) = Some fs ->
  (forall c, constant_column df "temp_C" c ->
     (stalled (map timestamp (rows df)) = false ->
      exact_multiples c (List.length (rows df)) ->
      Forall (fun r => Forall (fun v => feq v (np_clip (Fin c) 15 45) /\
                                        (15 <= c -> c <= 45 -> feq v (Fin c)))
                              (Webapp.temps r)) fs) /\
     (stalled (map timestamp (rows df)) = true ->
      Forall (fun r => Forall (fun v => v = NaN) (Webapp.temps r)) fs)) /\
  (forall c, constant_column df "humidity_percent" c ->
     (stalled (map timestamp (rows df)) = false ->
      exact_multiples c (List.length (rows df)) ->
      Forall (fun r => Forall (fun v => feq v (np_clip (Fin c) 20 100) /\
                                        (20 <= c -> c <= 100 -> feq v (Fin c)))
                              (Webapp.humidity r)) fs) /\
     (stalled (map timestamp (rows df)) = true ->
      Forall (fun r => Forall (fun v => v = NaN) (Webapp.humidity r)) fs)) /\
  (forall c, constant_column df "wind_speed_mps" c ->
     (stalled (map timestamp (rows df)) = false ->
      exact_multiples c (List.length (rows df)) ->
      Forall (fun r => Forall (fun v => feq v (np_clip (Fin c) 0 25) /\
                                        (0 <= c -> c <= 25 -> feq v (Fin c)))
                              (Webapp.wind r)) fs) /\
     (stalled (map timestamp (rows df)) = true ->
      Forall (fun r => Forall (fun v => v = NaN) (Webapp.wind r)) fs)).
Proof.
  intros Hne H.
  apply forecast_weather_Some in H as (trends & H).
  apply forecast_weather_try_Ok in H
    as (t_s & h_s & w_s & Ht & Hh & Hw & -> & _).
  split; [|split]; intros c Hc;
    apply constant_column_series in Hc as (s & Hs & Hc).
  - assert (s = t_s) by congruence. subst s.
    destruct (series_shape _ _ _ Ht Hne) as [Hs1 Hs2]. rewrite <- Hs2.
    split; [intros Hm _|intro Hst];
      apply Forall_map, Forall_forall; intros d _;
      unfold Webapp.forecast_day; cbn [Webapp.temps];
      apply Forall_map, Forall_forall; intros hr _.
    + pose proof (np_clip_feq _ _ 15 45
                    (pred_t_constant now t_s c Hs1 Hc Hm d hr)) as E.
      split; [exact E|]. intros H1 H2.
      eapply feq_trans; [exact E|]. now apply np_clip_id.
    + now rewrite (pred_t_nan now no_noise t_s (calc_trend_stalled c t_s Hc Hst)).
  - assert (s = h_s) by congruence. subst s.
    destruct (series_shape _ _ _ Hh Hne) as [Hs1 Hs2]. rewrite <- Hs2.
    split; [intros Hm _|intro Hst];
      apply Forall_map, Forall_forall; intros d _;
      unfold Webapp.forecast_day; cbn [Webapp.humidity];
      apply Forall_map, Forall_forall; intros hr _.
    + pose proof (np_clip_feq _ _ 20 100
                    (pred_h_constant now h_s c Hs1 Hc Hm d hr)) as E.
      split; [exact E|]. intros H1 H2.
      eapply feq_trans; [exact E|]. now apply np_clip_id.
    + now rewrite (pred_h_nan now no_noise h_s (calc_trend_stalled c h_s Hc Hst)).
  - assert (s = w_s) by congruence. subst s.
    destruct (series_shape _ _ _ Hw Hne) as [Hs1 Hs2]. rewrite <- Hs2.
    split; [intros Hm _|intro Hst];
      apply Forall_map, Forall_forall; intros d _;
      unfold Webapp.forecast_day; cbn [Webapp.wind];
      apply Forall_map, Forall_forall; intros hr _.
    + pose proof (np_clip_feq _ _ 0 25
                    (pred_w_constant w_s c Hs1 Hc Hm d hr)) as E.
      split; [exact E|]. intros H1 H2.
      eapply feq_trans; [exact E|]. now apply np_clip_id.
    + now rewrite (pred_w_nan no_noise w_s (calc_trend_stalled c w_s Hc Hst)).
Qed.

Lemma constant_history_witness :
  exists fs,
    fst (fst (Webapp.forecast_weather (clock_at monday) no_noise df_steady 3))
      = Some fs /\
    List.length fs = 3%nat /\
    Forall (fun r => Forall (fun v => feq v (Fin 20)) (Webapp.temps r)) fs /\
    Forall (fun r => Forall (fun v => feq v (Fin 50)) (Webapp.humidity r)) fs /\
    Forall (fun r => Forall (fun v => feq v (Fin 3)) (Webapp.wind r)) fs.
Proof.
  assert (Hfs : exists fs,
             fst (fst (Webapp.forecast_weather (clock_at monday) no_noise
                         df_steady 3)) = Some fs /\ List.length fs = 3%nat)
    by (eexists; split; vm_compute; reflexivity).
  destruct Hfs as (fs & Hfs & Hlen). exists fs.
  destruct (constant_history (clock_at monday) df_steady 3 fs) as (Ht & Hh & Hw).
  - discriminate.
  - exact Hfs.
  - repeat apply conj; [exact Hfs|exact Hlen| | |].
    + destruct (Ht 20) as [Hv _].
      * exists 1%nat. split; [reflexivity|].
        intros r [<-|[<-|[]]]; reflexivity.
      * eapply Forall_impl; [|apply Hv].
        -- intros r Hr. eapply Forall_impl; [|exact Hr].
           intros v [_ Hc]. apply Hc; lra.
        -- reflexivity.
        -- apply (exact_multiples_whole 20). simpl. lia.
    + destruct (Hh 50) as [Hv _].
      * exists 2%nat. split; [reflexivity|].
        intros r [<-|[<-|[]]]; reflexivity.
      * eapply Forall_impl; [|apply Hv].
        -- intros r Hr. eapply Forall_impl; [|exact Hr].
           intros v [_ Hc]. apply Hc; lra.
        -- reflexivity.
        -- apply (exact_multiples_whole 50). simpl. lia.
    + destruct (Hw 3) as [Hv _].
      * exists 3%nat. split; [reflexivity|].
        intros r [<-|[<-|[]]]; reflexivity.
      * eapply Forall_impl; [|apply Hv].
        -- intros r Hr. eapply Forall_impl; [|exact Hr].
           intros v [_ Hc]. apply Hc; lra.
        -- reflexivity.
        -- apply (exact_multiples_whole 3). simpl. lia.
Defined.

(** C8 as stated fails in three ways.  A constant below the clipping
    bounds is forecast as the bound: 10 degrees as 15.  With two rows on
    one timestamp the slope is 0/0 and every forecast value is NaN.  And
    the floats of the code round: over three rows that all hold 0.1 the
    baseline, their mean, is the next float above 0.1. *)
Lemma constant_history_counterexample :
  (constant_column df_cold "temp_C" 10 /\
   exists r,
     fst (fst (Webapp.forecast_weather (clock_at monday) no_noise df_cold 1))
       = Some [r] /\
     Forall (fun v => feq v (Fin 15) /\ ~ feq v (Fin 10)) (Webapp.temps r)) /\
  (constant_column df_twins "temp_C" 20 /\
   exists r,
     fst (fst (Webapp.forecast_weather (clock_at monday) no_noise df_twins 1))
       = Some [r] /\
     Forall (fun v => v = NaN) (Webapp.temps r)) /\
  PrimFloat.eqb
    (Binary64.base [Binary64.tenth; Binary64.tenth; Binary64.tenth])
    Binary64.tenth = false /\
  PrimFloat.ltb
    Binary64.tenth
    (Binary64.base [Binary64.tenth; Binary64.tenth; Binary64.tenth]) = true.
Proof.
  split; [|split]; [| |split; vm_compute; reflexivity];
    (split; [exists 1%nat; split; [reflexivity|];
             intros r [<-|[<-|[]]]; reflexivity|]).
  - eexists. split; [vm_compute; reflexivity|].
    repeat constructor; vm_compute; try reflexivity; discriminate.
  - eexists. split; [vm_compute; reflexivity|].
    repeat constructor.
Qed.

(** ** More on the seasonal forecaster *)

Lemma lookup_groupby_inv {A : Type} (key : Z -> Z) (keys : list Z)
  (f : list float -> A) (s : list (Z * float)) (k : Z) (a : A) :
  lookup k (groupby key keys f s) = Some a ->
  a = f (values (filter (fun p => (key (fst p) =? k)%Z) s)) /\
  filter (fun p => (key (fst p) =? k)%Z) s <> [].
Proof.
  unfold groupby. induction keys as [|k' keys IH]; [discriminate|].
  cbn [flat_map]. rewrite lookup_app.
  destruct (filter (fun p => (key (fst p) =? k')%Z) s) as [|q g] eqn:E.
  - simpl. exact IH.
  - simpl. destruct (k' =? k)%Z eqn:Ek; [|exact IH].
    apply Z.eqb_eq in Ek. subst k'. intro H. injection H as <-.
    rewrite E. split; [reflexivity|discriminate].
Qed.

Lemma valid_app (l l' : list float) : valid (l ++ l') = valid l ++ valid l'.
Proof.
  induction l as [|[|q] l IH]; simpl; [reflexivity|assumption|now rewrite IH].
Qed.

Lemma valid_filter_le (f : Z * float -> bool) (s : list (Z * float)) :
  (List.length (valid (values (filter f s))) <= List.length (valid (values s)))%nat.
Proof.
  unfold values. induction s as [|[t [|y]] s IH]; simpl; [lia| |];
    destruct (f _); simpl; lia.
Qed.

Lemma valid_tail_le (n : nat) (l : list float) :
  (List.length (valid (tail n l)) <= List.length (valid l))%nat.
Proof.
  unfold tail. set (k := (List.length l - n)%nat).
  assert (E : valid l = valid (firstn k l) ++ valid (skipn k l))
    by (now rewrite <- valid_app, firstn_skipn).
  rewrite E, length_app. lia.
Qed.

Lemma std_NaN (sqrtQ : Q -> Q) (l : list float) :
  (List.length (valid l) < 2)%nat -> Streamlitaap.std sqrtQ l = NaN.
Proof.
  intro H. unfold Streamlitaap.std.
  replace (List.length (valid l) <? 2)%nat with true; [reflexivity|].
  symmetry. apply Nat.ltb_lt. lia.
Qed.

Lemma std_Fin (sqrtQ : Q -> Q) (l : list float) :
  (2 <= List.length (valid l))%nat -> exists sd, Streamlitaap.std sqrtQ l = Fin sd.
Proof.
  intro H. unfold Streamlitaap.std.
  replace (List.length (valid l) <? 2)%nat with false; [eauto|].
  symmetry. apply Nat.ltb_ge. lia.
Qed.

(** The statistics the loop body works with are those of the rows of the
    target day of the week, or of the last 336 rows when there are none. *)
Lemma seasonal_aqi_cases (sqrtQ : Q -> Q) (aqi_s : list (Z * float)) (dow : Z) :
  exists l,
    Streamlitaap.seasonal_aqi sqrtQ aqi_s dow = Ok (mean l, Streamlitaap.std sqrtQ l) /\
    ((l = values (filter (fun p => (dayofweek (fst p) =? dow)%Z) aqi_s) /\
      filter (fun p => (dayofweek (fst p) =? dow)%Z) aqi_s <> []) \/
     l = values (tail 336 aqi_s)).
Proof.
  unfold Streamlitaap.seasonal_aqi, contains, getitem.
  destruct (lookup dow (Streamlitaap.daily_aqi sqrtQ aqi_s)) as [[m sd]|] eqn:E.
  - apply lookup_groupby_inv in E as [E Hne]. injection E as -> ->.
    eexists. split; [reflexivity|]. left. split; [reflexivity|assumption].
  - eexists. split; [reflexivity|]. now right.
Qed.

(** X6: A history with fewer than two AQI values cannot be forecast: every
    standard deviation is NaN, the first noise draw raises and the
    forecaster returns the absent result for any horizon of one day or
    more. *)
Theorem forecast_simple_thin_history now uniform sqrtQ df (days : nat)
  (aqi_s : list (Z * float)) :
  series (sort_values (rows df)) (columns df) "aqi" = Ok aqi_s ->
  (List.length (valid (values aqi_s)) < 2)%nat ->
  (1 <= days)%nat ->
  fst (Streamlitaap.forecast_simple now uniform sqrtQ df days) = None.
Proof.
  intros Ha Hthin Hd.
  unfold Streamlitaap.forecast_simple, Streamlitaap.forecast_simple_try.
  apply grouped_Ok in Ha. rewrite Ha. cbn [bind].
  destruct (grouped (sort_values (rows df)) (columns df) "temp") as [temp_s|e];
    [|reflexivity].
  cbn [bind]. destruct days as [|n]; [lia|]. cbn [seq for_each].
  unfold Streamlitaap.forecast_day at 1. unfold Streamlitaap.predict.
  destruct (seasonal_aqi_cases sqrtQ aqi_s
              (dayofweek (Streamlitaap.fdate now 1))) as (l & -> & Hl).
  rewrite std_NaN; [reflexivity|].
  destruct Hl as [[-> _]| ->].
  - pose proof (valid_filter_le
                  (fun p => (dayofweek (fst p)
                             =? dayofweek (Streamlitaap.fdate now 1))%Z) aqi_s).
    lia.
  - rewrite values_tail. pose proof (valid_tail_le 336 (values aqi_s)). lia.
Qed.

Lemma forecast_simple_thin_history_witness :
  fst (Streamlitaap.forecast_simple (clock_at sunday) midpoint sqrt6
         {| columns := ["timestamp"; "temp"; "aqi"];
            rows := [mkRow 345600 [Text "1970-01-05 00:00"; Number 20; Number 80]] |}
         3) = None.
Proof.
  apply (forecast_simple_thin_history (clock_at sunday) midpoint sqrt6 _ 3
           [(345600%Z, Fin 80)]).
  - reflexivity.
  - simpl. lia.
  - lia.
Defined.

Lemma for_each_total {A B : Type} (f : A -> result B) (l : list A) :
  (forall a, In a l -> exists b, f a = Ok b) -> exists bs, for_each f l = Ok bs.
Proof.
  induction l as [|a l IH]; intro H; [exists []; reflexivity|].
  destruct (H a (or_introl eq_refl)) as (b & Hb).
  destruct IH as (bs & Hbs); [intros a' Ha'; apply H; now right|].
  exists (b :: bs). simpl. now rewrite Hb, Hbs.
Qed.

(** X7: The seasonal forecaster returns a full forecast, whatever the clock, the
    draws and the horizon, as soon as its two columns are readable, every
    day of the week that occurs in the history has two AQI values or more,
    and so have the last 336 rows. *)
Theorem forecast_simple_succeeds now uniform sqrtQ df (days : nat)
  (aqi_s temp_s : list (Z * float)) :
  series (sort_values (rows df)) (columns df) "aqi" = Ok aqi_s ->
  series (sort_values (rows df)) (columns df) "temp" = Ok temp_s ->
  (forall k,
      filter (fun p => (dayofweek (fst p) =? k)%Z) aqi_s = [] \/
      (2 <= List.length
              (valid (values (filter (fun p => (dayofweek (fst p) =? k)%Z) aqi_s))))%nat) ->
  (2 <= List.length (valid (values (tail 336 aqi_s))))%nat ->
  exists fs,
    Streamlitaap.forecast_simple now uniform sqrtQ df days = (Some fs, []) /\
    List.length fs = days.
Proof.
  intros Ha Ht Hgroups Hrecent.
  destruct (for_each_total
              (Streamlitaap.forecast_day now uniform sqrtQ aqi_s temp_s)
              (seq 1 days)) as (fs & Hfs).
  { intros d _. unfold Streamlitaap.forecast_day, Streamlitaap.predict.
    destruct (seasonal_aqi_cases sqrtQ aqi_s
                (dayofweek (Streamlitaap.fdate now d))) as (l & -> & Hl).
    destruct (std_Fin sqrtQ l) as (sd & ->).
    - destruct Hl as [[-> Hne]| ->]; [|assumption].
      destruct (Hgroups (dayofweek (Streamlitaap.fdate now d))); [contradiction|assumption].
    - cbn [bind fneg fmul Streamlitaap.np_random_uniform fst snd]. eauto. }
  exists fs. split.
  - unfold Streamlitaap.forecast_simple, Streamlitaap.forecast_simple_try.
    apply grouped_Ok in Ha, Ht. rewrite Ha, Ht. cbn [bind]. now rewrite Hfs.
  - apply for_each_length in Hfs. now rewrite length_seq in Hfs.
Qed.

Lemma forecast_simple_succeeds_witness :
  exists fs,
    Streamlitaap.forecast_simple (clock_at sunday) midpoint sqrt6 df_extreme 7
    = (Some fs, []) /\ List.length fs = 7%nat.
Proof.
  apply (forecast_simple_succeeds (clock_at sunday) midpoint sqrt6 df_extreme 7
           aqi_extreme temp_extreme).
  - reflexivity.
  - reflexivity.
  - intro k. destruct (Z.eq_dec k 0) as [->|Hk].
    + right. simpl. lia.
    + left. unfold aqi_extreme. cbn [filter fst].
      change (dayofweek 345600) with 0%Z. change (dayofweek 349200) with 0%Z.
      destruct (0 =? k)%Z eqn:E; [|reflexivity].
      apply Z.eqb_eq in E. congruence.
  - simpl. lia.
Defined.

Lemma tail_all {A : Type} (n : nat) (l : list A) :
  (List.length l <= n)%nat -> tail n l = l.
Proof.
  intro H. unfold tail. replace (List.length l - n)%nat with 0%nat by lia.
  reflexivity.
Qed.

(** X8: With at most 72 rows the last 72 rows and the last 336 rows are the
    same rows: the trend delta is 0 (NaN when no row has an AQI value), and
    the prediction has no trend term. *)
Theorem aqi_trend_short_history (aqi_s : list (Z * float)) :
  (List.length aqi_s <= 72)%nat ->
  (valid (values aqi_s) = [] /\ Streamlitaap.aqi_trend aqi_s = NaN) \/
  (valid (values aqi_s) <> [] /\ feq (Streamlitaap.aqi_trend aqi_s) (Fin 0)).
Proof.
  intro H.
  unfold Streamlitaap.aqi_trend, Streamlitaap.recent_aqi_last3,
    Streamlitaap.recent_aqi, Streamlitaap.recent.
  rewrite (tail_all 336 aqi_s) by lia.
  rewrite (tail_all 72 (values aqi_s)) by (unfold values; rewrite length_map; lia).
  unfold mean. destruct (valid (values aqi_s)) as [|q v].
  - left. split; reflexivity.
  - right. split; [discriminate|]. simpl. ring.
Qed.

Lemma aqi_trend_short_history_witness :
  feq (Streamlitaap.aqi_trend aqi_extreme) (Fin 0).
Proof.
  destruct (aqi_trend_short_history aqi_extreme) as [[E _]|[_ H]].
  - simpl. lia.
  - discriminate E.
  - exact H.
Defined.

(** [.get(k, default)] on a grouped aggregate: the aggregate of the rows
    with key [k], the default when there are none. *)
Lemma get_groupby {A : Type} (key : Z -> Z) (keys : list Z)
  (f : list float -> A) (s : list (Z * float)) (k : Z) (default : A) :
  In k keys ->
  get (groupby key keys f s) k default =
  match filter (fun p => (key (fst p) =? k)%Z) s with
  | [] => default
  | g => f (values g)
  end.
Proof.
  intro Hk. unfold get.
  destruct (filter (fun p => (key (fst p) =? k)%Z) s) as [|p g] eqn:E.
  - rewrite lookup_groupby_None; [reflexivity|].
    intros q Hq Hkey.
    assert (Hin : In q (filter (fun p => (key (fst p) =? k)%Z) s))
      by (apply filter_In; split; [assumption|now apply Z.eqb_eq]).
    rewrite E in Hin. contradiction.
  - assert (Hp : In p (filter (fun p => (key (fst p) =? k)%Z) s))
      by (rewrite E; now left).
    apply filter_In in Hp as [Hp Hkey]. apply Z.eqb_eq in Hkey.
    rewrite (lookup_groupby_Some key keys f s k Hk (ex_intro _ p (conj Hp Hkey))).
    now rewrite E.
Qed.

(** X9: In a returned forecast the temperature of day [d] is, clipped to
    [15,45], the mean temperature of the rows of the target day of the week
    (of the last 336 rows when there are none) plus a uniform draw between
    -1 and 1: with that mean between 16 and 44 the forecast is within one
    degree of it. *)
Theorem seasonal_temp_prediction now uniform sqrtQ df days fs (d : nat) :
  (forall k a b, a <= b -> a <= uniform k a b /\ uniform k a b <= b) ->
  fst (Streamlitaap.forecast_simple now uniform sqrtQ df days) = Some fs ->
  (1 <= d <= days)%nat ->
  exists temp_s r jitter,
    series (sort_values (rows df)) (columns df) "temp" = Ok temp_s /\
    nth_error fs (d - 1) = Some r /\
    - (1) <= jitter /\ jitter <= 1 /\
    let group :=
      filter (fun p => (dayofweek (fst p)
                        =? dayofweek (now d + 86400 * Z.of_nat d))%Z) temp_s in
    let base :=
      match group with
      | [] => mean (tail 336 (values temp_s))
      | _ => mean (values group)
      end in
    Streamlitaap.temp r = np_clip (fadd base (Fin jitter)) 15 45 /\
    (forall b, base = Fin b -> 16 <= b -> b <= 44 ->
       exists t, Streamlitaap.temp r = Fin t /\ b - 1 <= t /\ t <= b + 1).
Proof.
  intros Hu H Hd.
  apply forecast_simple_Some in H.
  destruct (forecast_simple_nth _ _ _ _ _ _ d H Hd)
    as (aqi_s & temp_s & r & Ha & Ht & Hn & Hr).
  apply forecast_day_Ok in Hr as (p_aqi & p_temp & Hp & ->).
  unfold Streamlitaap.predict in Hp.
  change (Streamlitaap.fdate now d) with (now d + 86400 * Z.of_nat d)%Z in Hp.
  set (dow := dayofweek (now d + 86400 * Z.of_nat d)) in *.
  apply bind_Ok in Hp as ([base_aqi aqi_std] & _ & Hp).
  apply bind_Ok in Hp as (j1 & _ & Hp).
  cbn [Streamlitaap.np_random_uniform bind] in Hp. injection Hp as _ <-.
  destruct (Hu (2 * (d - 1) + 1)%nat (- (1)) 1) as [Hlo Hhi]; [lra|].
  exists temp_s. eexists. exists (uniform (2 * (d - 1) + 1)%nat (- (1)) 1).
  split; [exact Ht|]. split; [exact Hn|]. split; [exact Hlo|]. split; [exact Hhi|].
  cbv zeta. cbn [Streamlitaap.temp].
  assert (E : Streamlitaap.seasonal_temp temp_s dow
              = match filter (fun p => (dayofweek (fst p) =? dow)%Z) temp_s with
                | [] => mean (tail 336 (values temp_s))
                | _ :: _ => mean (values (filter (fun p => (dayofweek (fst p) =? dow)%Z) temp_s))
                end).
  { unfold Streamlitaap.seasonal_temp, Streamlitaap.daily_temp,
      Streamlitaap.recent_temp, Streamlitaap.recent.
    rewrite (get_groupby dayofweek weekdays mean temp_s dow _ (dayofweek_range _)).
    rewrite values_tail.
    now destruct (filter (fun p => (dayofweek (fst p) =? dow)%Z) temp_s). }
  rewrite E. split; [reflexivity|].
  intros b -> Hb1 Hb2. cbn [np_clip fadd].
  set (j := uniform (2 * (d - 1) + 1)%nat (- (1)) 1) in *.
  exists (Qmin (Qmax (b + j) 15) 45). split; [reflexivity|].
  assert (E2 : Qmin (Qmax (b + j) 15) 45 == b + j).
  { rewrite Q.max_l by lra. rewrite Q.min_l by lra. reflexivity. }
  rewrite E2. lra.
Qed.

Lemma seasonal_temp_prediction_witness :
  exists r t,
    fst (Streamlitaap.forecast_simple (clock_at sunday) midpoint sqrt6 df_short 1)
      = Some [r] /\
    Streamlitaap.temp r = Fin t /\ (41 # 2) - 1 <= t /\ t <= (41 # 2) + 1.
Proof.
  assert (Hfs : exists r,
             fst (Streamlitaap.forecast_simple (clock_at sunday) midpoint sqrt6
                    df_short 1) = Some [r])
    by (eexists; vm_compute; reflexivity).
  destruct Hfs as (r & Hfs).
  destruct (seasonal_temp_prediction (clock_at sunday) midpoint sqrt6 df_short 1
              [r] 1 midpoint_within Hfs)
    as (temp_s & r' & jitter & Ht & Hn & _ & _ & _ & Hb); [lia|].
  injection Hn as <-. vm_compute in Ht. injection Ht as <-.
  destruct (Hb (41 # 2)) as (t & Et & H1 & H2).
  - vm_compute. reflexivity.
  - lra.
  - lra.
  - exists r, t. repeat apply conj; assumption.
Defined.

(** ** Missing columns and failed loads *)

Lemma positions_absent (name : string) (cols : list string) (i : nat) :
  ~ In name cols -> positions name cols i = [].
Proof.
  revert i. induction cols as [|c cols IH]; intros i H; [reflexivity|].
  simpl. destruct (String.eqb c name) eqn:E.
  - apply String.eqb_eq in E. exfalso. apply H. now left.
  - apply IH. intro Hin. apply H. now right.
Qed.

Lemma grouped_absent (rs : list Row) (cols : list string) (name : string) :
  ~ In name cols -> exists e, grouped rs cols name = Raise e.
Proof.
  intro H. unfold grouped. rewrite (positions_absent _ _ _ H). eauto.
Qed.

(** X10: A table without one of the columns a forecaster reads makes it return
    the absent result with one message, whatever the horizon, 0
    included. *)
Theorem forecast_missing_column :
  (forall now uniform sqrtQ df days,
      ~ In "aqi" (columns df) \/ ~ In "temp" (columns df) ->
      exists msg,
        Streamlitaap.forecast_simple now uniform sqrtQ df days = (None, [msg])) /\
  (forall now normal df days,
      ~ In "temp_C" (columns df) \/ ~ In "humidity_percent" (columns df) \/
      ~ In "wind_speed_mps" (columns df) ->
      exists msg,
        Webapp.forecast_weather now normal df days = ((None, None), [msg])).
Proof.
  split.
  - intros now uniform sqrtQ df days H.
    unfold Streamlitaap.forecast_simple, Streamlitaap.forecast_simple_try.
    destruct (grouped (sort_values (rows df)) (columns df) "aqi") as [aqi_s|e] eqn:Ea.
    + destruct H as [H|H].
      * destruct (grouped_absent (sort_values (rows df)) _ _ H) as (e & He). congruence.
      * destruct (grouped_absent (sort_values (rows df)) _ _ H) as (e & ->).
        simpl. eauto.
    + simpl. eauto.
  - intros now normal df days H.
    unfold Webapp.forecast_weather, Webapp.forecast_weather_try.
    destruct (grouped (sort_values (rows df)) (columns df) "temp_C") as [t_s|e] eqn:Et;
      [|simpl; eauto].
    destruct (grouped (sort_values (rows df)) (columns df) "humidity_percent")
      as [h_s|e] eqn:Eh; [|simpl; eauto].
    destruct (grouped (sort_values (rows df)) (columns df) "wind_speed_mps")
      as [w_s|e] eqn:Ew; [|simpl; eauto].
    exfalso. destruct H as [H|[H|H]];
      destruct (grouped_absent (sort_values (rows df)) _ _ H) as (e & He); congruence.
Qed.

Lemma forecast_missing_column_witness :
  (exists msg,
      Streamlitaap.forecast_simple (clock_at sunday) midpoint sqrt6 df_weather 0
      = (None, [msg])) /\
  (exists msg,
      Webapp.forecast_weather (clock_at sunday) no_noise df_no_humidity 0
      = ((None, None), [msg])).
Proof.
  destruct forecast_missing_column as [S W]. split.
  - apply S. left. simpl. intuition discriminate.
  - apply W. right. left. simpl. intuition discriminate.
Defined.

Lemma positions_count (name : string) (cols : list string) (i : nat) :
  List.length (positions name cols i) = count_occ string_dec cols name.
Proof.
  revert i. induction cols as [|c cols IH]; intro i; [reflexivity|].
  simpl. destruct (String.eqb c name) eqn:E.
  - apply String.eqb_eq in E. subst c.
    destruct (string_dec name name); [|congruence]. simpl. now rewrite IH.
  - apply String.eqb_neq in E. destruct (string_dec c name); [congruence|].
    apply IH.
Qed.

Lemma dropna_length (l : list (option Z * list cell)) :
  (List.length (dropna l) <= List.length l)%nat.
Proof. induction l as [|[[t|] r] l IH]; simpl; lia. Qed.

Lemma sort_values_length (l : list Row) :
  List.length (sort_values l) = List.length l.
Proof. symmetry. apply Permutation_length, sort_values_perm. Qed.

(** X11: The outcomes of [load_data] on a file whose labels are ASCII text:
    a failed read gives no table and the message of the exception; so does
    a file none of whose labels is 'timestamp' once trimmed (KeyError);
    with exactly one such label the outcome is that of the conversion of
    the column: its exception gives no table and the message, and
    otherwise the table loads, without a message and with no more rows
    than the file has. *)
Theorem load_data_outcomes :
  (forall to_datetime e,
      load_data to_datetime (Raise e)
      = (None, [("Error loading data: " ++ str e)%string])) /\
  (forall to_datetime raw,
      Forall (fun s => ascii_label s = true) (raw_columns raw) ->
      ~ In "timestamp" (map strip (raw_columns raw)) ->
      load_data to_datetime (Ok raw)
      = (None, ["Error loading data: 'timestamp'"])) /\
  (forall to_datetime raw,
      Forall (fun s => ascii_label s = true) (raw_columns raw) ->
      count_occ string_dec (map strip (raw_columns raw)) "timestamp" = 1%nat ->
      exists i,
        column_index (map strip (raw_columns raw)) "timestamp" = Ok i /\
        match to_datetime (map (fun r => nth i r Missing) (raw_rows raw)) with
        | Raise e =>
            load_data to_datetime (Ok raw)
            = (None, [("Error loading data: " ++ str e)%string])
        | Ok _ =>
            exists df,
              load_data to_datetime (Ok raw) = (Some df, []) /\
              (List.length (rows df) <= List.length (raw_rows raw))%nat
        end).
Proof.
  repeat apply conj.
  - reflexivity.
  - intros to_datetime raw _ H. unfold load_data, load_data_try, column_index.
    cbn [bind]. now rewrite (positions_absent _ _ _ H).
  - intros to_datetime raw _ H. unfold load_data, load_data_try, column_index.
    cbn [bind]. rewrite <- (positions_count _ _ 0) in H.
    destruct (positions "timestamp" (map strip (raw_columns raw)) 0)
      as [|i [|j l]]; try discriminate H.
    exists i. split; [reflexivity|]. cbn [bind].
    destruct (to_datetime (map (fun r => nth i r Missing) (raw_rows raw)))
      as [parse|e]; cbn [bind]; [|reflexivity].
    eexists. split; [reflexivity|]. cbn [rows].
    rewrite sort_values_length.
    etransitivity; [apply dropna_length|]. now rewrite length_map.
Qed.

Lemma load_data_outcomes_witness :
  load_data parse_epoch (Ok {| raw_columns := ["time "; "aqi"];
                               raw_rows := [[Text "3600"; Number 80]] |})
  = (None, ["Error loading data: 'timestamp'"]) /\
  (exists df, load_data parse_epoch (Ok raw_messy) = (Some df, []) /\
              (List.length (rows df) <= 3)%nat) /\
  fst (load_data parse_mixed (Ok raw_messy)) = None.
Proof.
  destruct load_data_outcomes as (_ & H1 & H2). repeat apply conj.
  - apply H1; [repeat constructor|]. vm_compute. intuition discriminate.
  - destruct (H2 parse_epoch raw_messy) as (i & _ & H);
      [repeat constructor|reflexivity|].
    exact H.
  - destruct (H2 parse_mixed raw_messy) as (i & _ & H);
      [repeat constructor|reflexivity|].
    cbn [parse_mixed] in H. now rewrite H.
Defined.

(** ** The current readings of the dashboards *)

Lemma iloc_last_app {A : Type} (l : list A) (a : A) : iloc_last (l ++ [a]) = Some a.
Proof. unfold iloc_last. now rewrite rev_app_distr. Qed.

Lemma iloc_last_Some {A : Type} (l : list A) :
  l <> [] -> exists l' a, l = l' ++ [a] /\ iloc_last l = Some a.
Proof.
  intro H. destruct (exists_last H) as (l' & a & ->).
  exists l', a. split; [reflexivity|apply iloc_last_app].
Qed.

Lemma for_each_app {A B : Type} (f : A -> result B) (l l' : list A) (bs : list B) :
  for_each f (l ++ l') = Ok bs ->
  exists b1 b2, for_each f l = Ok b1 /\ for_each f l' = Ok b2 /\ bs = b1 ++ b2.
Proof.
  revert bs. induction l as [|a l IH]; simpl; intros bs H.
  - exists [], bs. auto.
  - apply bind_Ok in H as (b & Hb & H). apply bind_Ok in H as (bs' & Hbs & H).
    injection H as <-. destruct (IH _ Hbs) as (b1 & b2 & H1 & H2 & ->).
    exists (b :: b1), b2. rewrite Hb, H1. auto.
Qed.

Lemma sorted_last_max (l : list Row) (r : Row) :
  Sorted by_time (l ++ [r]) ->
  forall r', In r' (l ++ [r]) -> (timestamp r' <= timestamp r)%Z.
Proof.
  intro H. apply Sorted_StronglySorted in H;
    [|intros x y z; unfold by_time; lia].
  induction l as [|a l IH]; simpl in *.
  - intros r' [<-|[]]. lia.
  - inversion H as [|? ? Hl Ha]; subst. intros r' [<-|Hr'].
    + rewrite Forall_forall in Ha. apply Ha. apply in_or_app. right. now left.
    + now apply IH.
Qed.

(** X12: After a load that leaves at least one row, the reading the dashboards
    show as current ([df[col].iloc[-1]]) is the one of a row with the
    latest timestamp of the table. *)
Theorem current_reading_latest to_datetime (file : result RawFrame) (df : DataFrame) :
  fst (load_data to_datetime file) = Some df ->
  rows df <> [] ->
  exists r,
    iloc_last (rows df) = Some r /\
    (forall r', In r' (rows df) -> (timestamp r' <= timestamp r)%Z) /\
    forall name v,
      current df name = Ok v ->
      exists x, v = Some x /\
                series [r] (columns df) name = Ok [(timestamp r, x)].
Proof.
  intros Hload Hne.
  assert (Hsorted : Sorted by_time (rows df)).
  { apply load_data_Some in Hload. unfold load_data_try in Hload.
    apply bind_Ok in Hload as (raw & _ & Hload).
    apply bind_Ok in Hload as (i & _ & Hload).
    apply bind_Ok in Hload as (parse & _ & Hload). injection Hload as <-.
    apply sort_values_sorted. }
  destruct (iloc_last_Some (rows df) Hne) as (l & r & El & Hlast).
  exists r. split; [exact Hlast|]. split.
  - rewrite El in *. now apply sorted_last_max.
  - intros name v Hv. unfold current in Hv.
    apply bind_Ok in Hv as (s & Hs & Hv). injection Hv as <-.
    unfold series in *. apply bind_Ok in Hs as (i & Hi & Hs). rewrite Hi.
    cbn [bind]. rewrite El in Hs.
    apply for_each_app in Hs as (b1 & b2 & _ & H2 & ->).
    cbn [for_each] in H2 |- *.
    destruct (to_float name (nth i (cells r) Missing)) as [x|e];
      [|discriminate H2].
    cbn [bind] in H2 |- *. injection H2 as <-.
    exists x. split; [|reflexivity].
    unfold values. rewrite map_app. apply iloc_last_app.
Qed.

Lemma current_reading_latest_witness :
  exists df r,
    fst (load_data parse_epoch (Ok raw_messy)) = Some df /\
    iloc_last (rows df) = Some r /\ timestamp r = 7200%Z /\
    current df "aqi" = Ok (Some (Fin 80)).
Proof.
  assert (H : exists df, fst (load_data parse_epoch (Ok raw_messy)) = Some df /\
                         rows df <> [] /\ current df "aqi" = Ok (Some (Fin 80)) /\
                         In (mkRow 7200 [Text "7200"; Number 80; Number 21]) (rows df)).
  { eexists. repeat apply conj; try (vm_compute; reflexivity).
    - vm_compute. discriminate.
    - vm_compute. tauto. }
  destruct H as (df & Hdf & Hne & Hc & Hin).
  destruct (current_reading_latest parse_epoch (Ok raw_messy) df Hdf Hne)
    as (r & Hr & Hmax & _).
  exists df, r. repeat apply conj; try assumption.
  vm_compute in Hdf. injection Hdf as <-. vm_compute in Hr.
  now injection Hr as <-.
Defined.

(** ** The cards of the forecast tab *)

Lemma Qsum_ge (m : Q) (qs : list Q) :
  (forall q, In q qs -> m <= q) -> m * Qlen qs <= Qsum qs.
Proof.
  induction qs as [|q qs IH]; intro H;
    [change (Qlen []) with 0; change (Qsum []) with 0; lra|].
  rewrite Qlen_cons. simpl.
  pose proof (H q (or_introl eq_refl)).
  assert (m * Qlen qs <= Qsum qs) by (apply IH; intros; apply H; now right).
  lra.
Qed.

Lemma Qsum_le (m : Q) (qs : list Q) :
  (forall q, In q qs -> q <= m) -> Qsum qs <= m * Qlen qs.
Proof.
  induction qs as [|q qs IH]; intro H;
    [change (Qlen []) with 0; change (Qsum []) with 0; lra|].
  rewrite Qlen_cons. simpl.
  pose proof (H q (or_introl eq_refl)).
  assert (Qsum qs <= m * Qlen qs) by (apply IH; intros; apply H; now right).
  lra.
Qed.

Lemma Qmean_between (lo hi : Q) (qs : list Q) :
  qs <> [] -> (forall q, In q qs -> lo <= q /\ q <= hi) ->
  lo <= Qmean qs /\ Qmean qs <= hi.
Proof.
  intros Hne H. pose proof (Qlen_pos qs Hne) as Hn. unfold Qmean. split.
  - apply Qle_shift_div_l; [assumption|]. apply Qsum_ge. intros q Hq. now apply H.
  - apply Qle_shift_div_r; [assumption|]. apply Qsum_le. intros q Hq. now apply H.
Qed.

Lemma no_nan_fins (l : list float) :
  Forall (fun v => v <> NaN) l ->
  l = map Fin (valid l) /\ existsb is_nan l = false.
Proof.
  induction 1 as [|[|q] l Hv _ [IH1 IH2]]; [split; reflexivity|congruence|].
  simpl. split; [now rewrite <- IH1|assumption].
Qed.

Lemma fold_fmin (lo : Q) (qs : list Q) (q : Q) :
  lo <= q -> (forall x, In x qs -> lo <= x) ->
  exists m, fold_left fmin (map Fin qs) (Fin q) = Fin m /\
            lo <= m /\ m <= q /\ (forall x, In x qs -> m <= x).
Proof.
  revert q. induction qs as [|a qs IH]; intros q Hq H; cbn [fold_left map fmin].
  - exists q. repeat apply conj; [reflexivity|lra|lra|intros x []].
  - pose proof (H a (or_introl eq_refl)) as Ha.
    destruct (IH (Qmin q a)) as (m & E & H0 & H1 & H2).
    + now apply Q.min_glb.
    + intros x Hx. apply H. now right.
    + exists m. pose proof (Q.le_min_l q a). pose proof (Q.le_min_r q a).
      repeat apply conj; [exact E|lra|lra|].
      intros x [<-|Hx]; [lra|now apply H2].
Qed.

Lemma fold_fmax (hi : Q) (qs : list Q) (q : Q) :
  q <= hi -> (forall x, In x qs -> x <= hi) ->
  exists m, fold_left fmax (map Fin qs) (Fin q) = Fin m /\
            m <= hi /\ q <= m /\ (forall x, In x qs -> x <= m).
Proof.
  revert q. induction qs as [|a qs IH]; intros q Hq H; cbn [fold_left map fmax].
  - exists q. repeat apply conj; [reflexivity|lra|lra|intros x []].
  - pose proof (H a (or_introl eq_refl)) as Ha.
    destruct (IH (Qmax q a)) as (m & E & H0 & H1 & H2).
    + now apply Q.max_lub.
    + intros x Hx. apply H. now right.
    + exists m. pose proof (Q.le_max_l q a). pose proof (Q.le_max_r q a).
      repeat apply conj; [exact E|lra|lra|].
      intros x [<-|Hx]; [lra|now apply H2].
Qed.

Lemma valid_map_Fin (qs : list Q) : valid (map Fin qs) = qs.
Proof. induction qs as [|q qs IH]; simpl; [reflexivity|now rewrite IH]. Qed.

Lemma np_mean_nan (l : list float) : In NaN l -> np_mean l = NaN.
Proof.
  intro H. unfold np_mean.
  replace (existsb is_nan l) with true; [reflexivity|].
  symmetry. apply existsb_exists. exists NaN. now split.
Qed.

(** Mean, minimum and maximum of a non-empty list of values within
    [lo, hi], none of them NaN. *)
Lemma summary_between (lo hi : Q) (l : list float) :
  l <> [] -> Forall (fun v => v <> NaN) l ->
  Forall (fun v => v = NaN \/ within v lo hi) l ->
  exists m a M,
    np_min l = Ok (Fin m) /\ np_mean l = Fin a /\ np_max l = Ok (Fin M) /\
    lo <= m /\ m <= a /\ a <= M /\ M <= hi.
Proof.
  intros Hne Hfin Hin. destruct (no_nan_fins l Hfin) as [El Ex].
  assert (Hq : forall q, In q (valid l) -> lo <= q /\ q <= hi).
  { intros q Hq. rewrite Forall_forall in Hin.
    destruct (Hin (Fin q)) as [H|H];
      [rewrite El; now apply in_map|discriminate|exact H]. }
  destruct (valid l) as [|q qs] eqn:Eqs; [now subst l|].
  destruct (Hq q (or_introl eq_refl)) as [Hq1 Hq2].
  destruct (fold_fmin lo qs q Hq1) as (m & Em & Hm0 & Hm1 & Hm2);
    [intros x Hx; apply Hq; now right|].
  destruct (fold_fmax hi qs q Hq2) as (M & EM & HM0 & HM1 & HM2);
    [intros x Hx; apply Hq; now right|].
  destruct (Qmean_between m M (q :: qs)) as [Ha1 Ha2]; [discriminate| |].
  { intros x [<-|Hx]; [split; assumption|split; [now apply Hm2|now apply HM2]]. }
  exists m, (Qmean (q :: qs)), M.
  repeat apply conj; try assumption.
  - rewrite El. cbn [map np_min]. now rewrite Em.
  - unfold np_mean, mean. now rewrite Ex, Eqs.
  - rewrite El. cbn [map np_max]. now rewrite EM.
Qed.

Lemma np_min_total (l : list float) : l <> [] -> exists x, np_min l = Ok x.
Proof. destruct l; [congruence|]. simpl. eauto. Qed.

Lemma np_max_total (l : list float) : l <> [] -> exists x, np_max l = Ok x.
Proof. destruct l; [congruence|]. simpl. eauto. Qed.

(** X13: The card of every day of a returned forecast is computed without an
    exception.  Without NaN among the 24 temperatures, minimum, average and
    maximum are ordered and lie in [15,45], and the average humidity and
    wind lie in their bounds; with a NaN among them the average is NaN and
    the day is labelled "Pleasant". *)
Theorem card_within_bounds now normal df days fs (r : Webapp.Forecast) :
  fst (fst (Webapp.forecast_weather now normal df days)) = Some fs ->
  In r fs ->
  exists c,
    card r = Ok c /\
    (Forall (fun v => v <> NaN) (Webapp.temps r) ->
     exists lo a hi,
       min_t c = Fin lo /\ avg_t c = Fin a /\ max_t c = Fin hi /\
       15 <= lo /\ lo <= a /\ a <= hi /\ hi <= 45) /\
    (In NaN (Webapp.temps r) ->
     avg_t c = NaN /\ cond c = ("😊 Pleasant", "#3b82f6")) /\
    (Forall (fun v => v <> NaN) (Webapp.humidity r) ->
     exists a, avg_h c = Fin a /\ 20 <= a /\ a <= 100) /\
    (Forall (fun v => v <> NaN) (Webapp.wind r) ->
     exists a, avg_w c = Fin a /\ 0 <= a /\ a <= 25).
Proof.
  intros H Hr.
  apply forecast_weather_Some in H as (trends & H).
  apply forecast_weather_try_Ok in H as (t_s & h_s & w_s & _ & _ & _ & -> & _).
  apply in_map_iff in Hr as (d & <- & _).
  set (r := Webapp.forecast_day now normal t_s h_s w_s d).
  assert (Ht : Webapp.temps r <> [] /\
               Forall (fun v => v = NaN \/ within v 15 45) (Webapp.temps r)).
  { split; [discriminate|]. apply Forall_map, Forall_forall. intros hr _.
    apply np_clip_cases. lra. }
  assert (Hh : Webapp.humidity r <> [] /\
               Forall (fun v => v = NaN \/ within v 20 100) (Webapp.humidity r)).
  { split; [discriminate|]. apply Forall_map, Forall_forall. intros hr _.
    apply np_clip_cases. lra. }
  assert (Hw : Webapp.wind r <> [] /\
               Forall (fun v => v = NaN \/ within v 0 25) (Webapp.wind r)).
  { split; [discriminate|]. apply Forall_map, Forall_forall. intros hr _.
    apply np_clip_cases. lra. }
  destruct Ht as [Ht1 Ht2], Hh as [Hh1 Hh2], Hw as [Hw1 Hw2].
  destruct (np_min_total _ Ht1) as (lo & Elo).
  destruct (np_max_total _ Ht1) as (hi & Ehi).
  eexists. split; [unfold card; rewrite Elo, Ehi; reflexivity|].
  cbn [avg_t min_t max_t avg_h avg_w cond]. repeat apply conj.
  - intro Hfin.
    destruct (summary_between 15 45 _ Ht1 Hfin Ht2)
      as (m & a & M & E1 & E2 & E3 & B).
    exists m, a, M. rewrite E2. repeat apply conj; try apply B; congruence.
  - intro Hnan. rewrite (np_mean_nan _ Hnan). split; reflexivity.
  - intro Hfin.
    destruct (summary_between 20 100 _ Hh1 Hfin Hh2)
      as (m & a & M & _ & E2 & _ & B).
    exists a. split; [exact E2|]. split; lra.
  - intro Hfin.
    destruct (summary_between 0 25 _ Hw1 Hfin Hw2)
      as (m & a & M & _ & E2 & _ & B).
    exists a. split; [exact E2|]. split; lra.
Qed.

Lemma card_within_bounds_witness :
  exists r c,
    fst (fst (Webapp.forecast_weather (clock_at monday) no_noise df_steady 1))
      = Some [r] /\
    card r = Ok c /\
    exists lo a hi,
      min_t c = Fin lo /\ avg_t c = Fin a /\ max_t c = Fin hi /\
      15 <= lo /\ lo <= a /\ a <= hi /\ hi <= 45.
Proof.
  assert (Hfs : exists r,
             fst (fst (Webapp.forecast_weather (clock_at monday) no_noise
                         df_steady 1)) = Some [r] /\
             Forall (fun v => v <> NaN) (Webapp.temps r)).
  { eexists. split; [vm_compute; reflexivity|].
    repeat constructor; discriminate. }
  destruct Hfs as (r & Hfs & Hfin).
  destruct (card_within_bounds (clock_at monday) no_noise df_steady 1 [r] r Hfs
              (or_introl eq_refl)) as (c & Hc & H & _).
  exists r, c. split; [exact Hfs|]. split; [exact Hc|]. exact (H Hfin).
Defined.

(** ** Trend labels *)

(** X14: A trend is labelled "Rising" only for a slope above 0: a window with
    fewer than two values, whose slope is 0, and a window whose values
    all lie on its first timestamp, whose slope is NaN, are labelled
    "Falling". *)
Theorem trend_label_flat (data : list (Z * float)) :
  (List.length (valid (values data)) < 2)%nat \/
  (forall t y, In (t, Fin y) data -> Webapp.ts_min (map fst data) = Some t) ->
  trend_label (Webapp.calc_trend data) = "📉 Falling".
Proof.
  unfold trend_label. intros [H|H].
  - unfold Webapp.calc_trend. fold (samples data). rewrite samples_length.
    replace (List.length (valid (values data)) <? 2)%nat with true; [reflexivity|].
    symmetry. apply Nat.ltb_lt. lia.
  - destruct (Nat.lt_ge_cases (List.length (valid (values data))) 2) as [Hl|Hl].
    + unfold Webapp.calc_trend. fold (samples data). rewrite samples_length.
      replace (List.length (valid (values data)) <? 2)%nat with true; [reflexivity|].
      symmetry. apply Nat.ltb_lt. lia.
    + now rewrite (calc_trend_one_instant data Hl H).
Qed.

Lemma trend_label_flat_witness :
  trend_label (Webapp.calc_trend [(0, Fin 20); (3600, NaN); (7200, NaN)]%Z)
  = "📉 Falling" /\
  trend_label (Webapp.calc_trend [(3600, Fin 20); (3600, Fin 25)]%Z)
  = "📉 Falling".
Proof.
  split; apply trend_label_flat.
  - left. simpl. lia.
  - right. intros t y [E|[E|[]]]; injection E as <- _; reflexivity.
Defined.

(** ** Heat index and advice *)

Lemma fgt_true (q b : Q) : fgt (Fin q) b = true <-> b < q.
Proof.
  simpl. rewrite negb_true_iff. split; intro H.
  - apply Qnot_le_lt. intro Hle. apply Qle_bool_iff in Hle. congruence.
  - destruct (Qle_bool q b) eqn:E; [|reflexivity].
    apply Qle_bool_iff in E. lra.
Qed.

Lemma fgt_false (q b : Q) : fgt (Fin q) b = false <-> q <= b.
Proof.
  simpl. rewrite negb_false_iff. apply Qle_bool_iff.
Qed.

(** X15: With a humidity between 0 and 100 the heat index is within 2.5 degrees
    of the mean temperature, equal to it at 50, so that a mean temperature
    up to 27.5 always gets "Perfect for outdoor activities" and one above
    37.5 always "Stay indoors"; a table whose last 24 rows have no
    temperature, or no humidity, gets "Perfect for outdoor activities" as
    well (its heat index is NaN). *)
Theorem heat_index_bounds :
  (forall t h, 0 <= h -> h <= 100 ->
     exists x,
       heat_index (Fin t) (Fin h) = Fin x /\
       t - (5 # 2) <= x /\ x <= t + (5 # 2) /\
       (h == 50 -> x == t) /\
       (t <= 55 # 2 -> advice (Fin x) = "Perfect for outdoor activities") /\
       (75 # 2 < t -> advice (Fin x) = "Stay indoors • High heat risk")) /\
  (forall df temp_col hum_col t h,
     series (rows df) (columns df) temp_col = Ok t ->
     series (rows df) (columns df) hum_col = Ok h ->
     valid (tail 24 (values t)) = [] \/ valid (tail 24 (values h)) = [] ->
     exists x,
       table_heat_index df temp_col hum_col = Ok x /\
       advice x = "Perfect for outdoor activities").
Proof.
  split.
  - intros t h H0 H100.
    exists (t + (1 # 2) * (h - 50) / 10).
    assert (E : (1 # 2) * (h - 50) / 10 == (1 # 20) * h - (5 # 2)) by field.
    repeat apply conj.
    + reflexivity.
    + rewrite E. lra.
    + rewrite E. lra.
    + intro Hh. rewrite E, Hh. lra.
    + intro Ht. unfold advice.
      assert (H1 : t + (1 # 2) * (h - 50) / 10 <= 30) by (rewrite E; lra).
      assert (H2 : t + (1 # 2) * (h - 50) / 10 <= 35) by lra.
      apply fgt_false in H1, H2. now rewrite H1, H2.
    + intro Ht. unfold advice.
      assert (H1 : 35 < t + (1 # 2) * (h - 50) / 10) by (rewrite E; lra).
      apply fgt_true in H1. now rewrite H1.
  - intros df temp_col hum_col t h Ht Hh Hnan.
    unfold table_heat_index. rewrite Ht, Hh. cbn [bind].
    eexists. split; [reflexivity|]. unfold mean.
    destruct Hnan as [-> | ->]; [reflexivity|].
    destruct (valid (tail 24 (values t))); reflexivity.
Qed.

Lemma heat_index_bounds_witness :
  exists x, heat_index (Fin 27) (Fin 80) = Fin x /\
            advice (Fin x) = "Perfect for outdoor activities".
Proof.
  destruct (proj1 heat_index_bounds 27 80) as (x & E & _ & _ & _ & H & _);
    [lra|lra|].
  exists x. split; [exact E|]. apply H. lra.
Defined.

(** ** Peak and best hours *)

Section BestSpec.

Variable better : Q -> Q -> bool.
Variable R : Q -> Q -> Prop.
Hypothesis R_refl : forall x, R x x.
Hypothesis R_trans : forall x y z, R x y -> R y z -> R x z.
Hypothesis better_true : forall v v0, better v v0 = true -> R v0 v.
Hypothesis better_false : forall v v0, better v v0 = false -> R v v0.

(** [best] returns an entry of the profile (or the one it started from)
    that every entry with a value is related to; nothing only when there
    is no value at all. *)
Lemma best_spec (profile : list (Z * float)) (acc : option (Z * Q)) :
  match best better profile acc with
  | None => acc = None /\ forall k v, ~ In (k, Fin v) profile
  | Some (k, v) =>
      (In (k, Fin v) profile \/ acc = Some (k, v)) /\
      (forall k' x, In (k', Fin x) profile -> R x v) /\
      (forall k0 v0, acc = Some (k0, v0) -> R v0 v)
  end.
Proof.
  revert acc. induction profile as [|[k [|v]] profile IH]; intro acc.
  - simpl. destruct acc as [[k v]|].
    + repeat apply conj; [now right|intros k' x []|].
      intros k0 v0 E. injection E as -> ->. apply R_refl.
    + split; [reflexivity|intros k v []].
  - cbn [best]. specialize (IH acc).
    destruct (best better profile acc) as [[k1 v1]|].
    + destruct IH as (H1 & H2 & H3). repeat apply conj.
      * destruct H1; [left; now right|now right].
      * intros k' x [E|H]; [discriminate|eauto].
      * assumption.
    + destruct IH as [H1 H2]. split; [assumption|].
      intros k' x [E|H]; [discriminate|exact (H2 _ _ H)].
  - cbn [best]. destruct acc as [[k0 v0]|].
    + destruct (better v v0) eqn:Eb.
      * specialize (IH (Some (k, v))).
        destruct (best better profile (Some (k, v))) as [[k1 v1]|].
        -- destruct IH as (H1 & H2 & H3). repeat apply conj.
           ++ destruct H1 as [H1|H1]; [left; now right|].
              injection H1 as <- <-. left. now left.
           ++ intros k' x [E|H]; [injection E as <- <-; now apply (H3 k)|eauto].
           ++ intros k2 v2 E. injection E as <- <-.
              apply R_trans with v; [now apply better_true|now apply (H3 k)].
        -- destruct IH as [H1 _]. discriminate.
      * specialize (IH (Some (k0, v0))).
        destruct (best better profile (Some (k0, v0))) as [[k1 v1]|].
        -- destruct IH as (H1 & H2 & H3). repeat apply conj.
           ++ destruct H1 as [H1|H1]; [left; now right|now right].
           ++ intros k' x [E|H]; [|eauto]. injection E as <- <-.
              apply R_trans with v0; [now apply better_false|now apply (H3 k0)].
           ++ assumption.
        -- destruct IH as [H1 _]. discriminate.
    + specialize (IH (Some (k, v))).
      destruct (best better profile (Some (k, v))) as [[k1 v1]|].
      * destruct IH as (H1 & H2 & H3). repeat apply conj.
        -- destruct H1 as [H1|H1]; [left; now right|].
           injection H1 as <- <-. left. now left.
        -- intros k' x [E|H]; [injection E as <- <-; now apply (H3 k)|eauto].
        -- discriminate.
      * destruct IH as [H1 _]. discriminate.
Qed.

End BestSpec.

Lemma Qlt_bool_true (a b : Q) : Qlt_bool a b = true -> a < b.
Proof.
  unfold Qlt_bool. rewrite negb_true_iff. intro H.
  apply Qnot_le_lt. intro Hle. apply Qle_bool_iff in Hle. congruence.
Qed.

Lemma Qlt_bool_false (a b : Q) : Qlt_bool a b = false -> b <= a.
Proof.
  unfold Qlt_bool. rewrite negb_false_iff. apply Qle_bool_iff.
Qed.

Lemma best_max_spec (profile : list (Z * float)) :
  match best (fun v v0 => Qlt_bool v0 v) profile None with
  | None => forall k v, ~ In (k, Fin v) profile
  | Some (k, v) =>
      In (k, Fin v) profile /\ forall k' x, In (k', Fin x) profile -> x <= v
  end.
Proof.
  pose proof (best_spec (fun v v0 => Qlt_bool v0 v) (fun x v => x <= v)
                Qle_refl (fun x y z => @Qle_trans x y z)
                (fun v v0 H => Qlt_le_weak _ _ (Qlt_bool_true _ _ H))
                (fun v v0 H => Qlt_bool_false _ _ H) profile None) as H.
  destruct (best (fun v v0 => Qlt_bool v0 v) profile None) as [[k v]|].
  - destruct H as ([H|H] & H2 & _); [now split|discriminate].
  - now destruct H.
Qed.

Lemma best_min_spec (profile : list (Z * float)) :
  match best (fun v v0 => Qlt_bool v v0) profile None with
  | None => forall k v, ~ In (k, Fin v) profile
  | Some (k, v) =>
      In (k, Fin v) profile /\ forall k' x, In (k', Fin x) profile -> v <= x
  end.
Proof.
  pose proof (best_spec (fun v v0 => Qlt_bool v v0) (fun x v => v <= x)
                Qle_refl (fun x y z H1 H2 => @Qle_trans z y x H2 H1)
                (fun v v0 H => Qlt_le_weak _ _ (Qlt_bool_true _ _ H))
                (fun v v0 H => Qlt_bool_false _ _ H) profile None) as H.
  destruct (best (fun v v0 => Qlt_bool v v0) profile None) as [[k v]|].
  - destruct H as ([H|H] & H2 & _); [now split|discriminate].
  - now destruct H.
Qed.

Lemma groupby_keys {A : Type} (key : Z -> Z) (keys : list Z)
  (f : list float -> A) (s : list (Z * float)) (k : Z) (a : A) :
  In (k, a) (groupby key keys f s) -> In k keys.
Proof.
  unfold groupby. rewrite in_flat_map. intros (k' & Hk' & H).
  destruct (filter (fun p => (key (fst p) =? k')%Z) s); [contradiction|].
  destruct H as [E|[]]. now injection E as <- _.
Qed.

Lemma hours_of_day_range (k : Z) : In k hours_of_day -> (0 <= k <= 23)%Z.
Proof.
  unfold hours_of_day. rewrite in_map_iff. intros (n & <- & Hn).
  apply in_seq in Hn. lia.
Qed.

(** X16: For a readable temperature column, "Peak Heat" and "Best Walk Time"
    are shown together or not at all (not when no hour has a mean).  When
    shown, each names an hour between 0 and 23 with the hourly mean it
    displays, no hourly mean lies above the peak or below the best, and the
    best-walk temperature is at most the peak one. *)
Theorem insight_hours (df : DataFrame) (temp_col : string) (s : list (Z * float)) :
  series (rows df) (columns df) temp_col = Ok s ->
  let ht := groupby hour hours_of_day mean s in
  ((forall k x, ~ In (k, Fin x) ht) ->
   peak_heat df temp_col = None /\ best_walk df temp_col = None) /\
  ((exists k x, In (k, Fin x) ht) ->
   exists ph pt ch ct,
     peak_heat df temp_col = Some (ph, Fin pt) /\
     best_walk df temp_col = Some (ch, Fin ct) /\
     In (ph, Fin pt) ht /\ In (ch, Fin ct) ht /\
     (0 <= ph <= 23)%Z /\ (0 <= ch <= 23)%Z /\
     (forall k x, In (k, Fin x) ht -> ct <= x /\ x <= pt) /\
     ct <= pt).
Proof.
  intros Hs ht. unfold peak_heat, best_walk, idxmax, idxmin, series_max,
    series_min. rewrite Hs. cbn [bind]. fold ht.
  pose proof (best_max_spec ht) as Hmax. pose proof (best_min_spec ht) as Hmin.
  destruct (best (fun v v0 => Qlt_bool v0 v) ht None) as [[ph pt]|];
    destruct (best (fun v v0 => Qlt_bool v v0) ht None) as [[ch ct]|].
  - split.
    + intro Hno. destruct Hmax as [Hin _]. exfalso. exact (Hno _ _ Hin).
    + intros _. destruct Hmax as [Hp1 Hp2], Hmin as [Hc1 Hc2].
      exists ph, pt, ch, ct. cbn [bind shown].
      split; [reflexivity|]. split; [reflexivity|].
      split; [exact Hp1|]. split; [exact Hc1|].
      split; [apply hours_of_day_range; eapply groupby_keys; exact Hp1|].
      split; [apply hours_of_day_range; eapply groupby_keys; exact Hc1|].
      split; [|exact (Hp2 _ _ Hc1)].
      intros k x Hx. split; [exact (Hc2 _ _ Hx)|exact (Hp2 _ _ Hx)].
  - destruct Hmax as [Hin _]. exfalso. exact (Hmin _ _ Hin).
  - destruct Hmin as [Hin _]. exfalso. exact (Hmax _ _ Hin).
  - split; [intros _; split; reflexivity|].
    intros (k & x & Hx). exfalso. exact (Hmax _ _ Hx).
Qed.

Lemma insight_hours_witness :
  exists ph pt ch ct,
    peak_heat df_weather "temp_C" = Some (ph, Fin pt) /\
    best_walk df_weather "temp_C" = Some (ch, Fin ct) /\
    (0 <= ph <= 23)%Z /\ (0 <= ch <= 23)%Z /\ ct <= pt.
Proof.
  destruct (insight_hours df_weather "temp_C"
              [(345600, Fin 20); (432000, Fin 22)]%Z eq_refl) as [_ H].
  destruct H as (ph & pt & ch & ct & H1 & H2 & _ & _ & H3 & H4 & _ & H5).
  - exists 0%Z. eexists. vm_compute. left. reflexivity.
  - exists ph, pt, ch, ct.
    split; [exact H1|]. split; [exact H2|]. split; [exact H3|].
    split; [exact H4|exact H5].
Defined.

(** ** Order of the AQI categories *)

Lemma severity_cases (q : Q) :
  (q <= 50 /\ severity (get_aqi_category (Fin q)) = 0%nat) \/
  (50 < q /\ q <= 100 /\ severity (get_aqi_category (Fin q)) = 1%nat) \/
  (100 < q /\ q <= 150 /\ severity (get_aqi_category (Fin q)) = 2%nat) \/
  (150 < q /\ q <= 200 /\ severity (get_aqi_category (Fin q)) = 3%nat) \/
  (200 < q /\ q <= 300 /\ severity (get_aqi_category (Fin q)) = 4%nat) \/
  (300 < q /\ severity (get_aqi_category (Fin q)) = 5%nat).
Proof.
  unfold get_aqi_category.
  destruct (fle (Fin q) 50) eqn:E1;
    [apply fle_Fin in E1; left; split; [assumption|reflexivity]|].
  apply fle_Fin_false in E1. right.
  destruct (fle (Fin q) 100) eqn:E2;
    [apply fle_Fin in E2; left; repeat split; assumption|].
  apply fle_Fin_false in E2. right.
  destruct (fle (Fin q) 150) eqn:E3;
    [apply fle_Fin in E3; left; repeat split; assumption|].
  apply fle_Fin_false in E3. right.
  destruct (fle (Fin q) 200) eqn:E4;
    [apply fle_Fin in E4; left; repeat split; assumption|].
  apply fle_Fin_false in E4. right.
  destruct (fle (Fin q) 300) eqn:E5;
    [apply fle_Fin in E5; left; repeat split; assumption|].
  apply fle_Fin_false in E5. right. split; [assumption|reflexivity].
Qed.

(** X17: A higher AQI never gets a milder category: the rank of the category in
    the order Good, Moderate, Unhealthy for Sensitive, Unhealthy, Very
    Unhealthy, Hazardous does not decrease with the value.  A missing AQI
    (NaN) falls through every comparison and is labelled "Hazardous". *)
Theorem get_aqi_category_monotone :
  (forall a b, a <= b ->
     (severity (get_aqi_category (Fin a)) <= severity (get_aqi_category (Fin b)))%nat) /\
  (forall x, In (get_aqi_category x) categories) /\
  get_aqi_category NaN = ("Hazardous", "#7c2d12").
Proof.
  repeat apply conj.
  - intros a b Hab.
    destruct (severity_cases a) as [[? ->]|[(? & ? & ->)|[(? & ? & ->)|
                                   [(? & ? & ->)|[(? & ? & ->)|[? ->]]]]]];
    destruct (severity_cases b) as [[? ->]|[(? & ? & ->)|[(? & ? & ->)|
                                   [(? & ? & ->)|[(? & ? & ->)|[? ->]]]]]];
    first [lia | exfalso; lra].
  - intros [|q]; [simpl; tauto|].
    unfold get_aqi_category.
    destruct (fle (Fin q) 50); [simpl; tauto|].
    destruct (fle (Fin q) 100); [simpl; tauto|].
    destruct (fle (Fin q) 150); [simpl; tauto|].
    destruct (fle (Fin q) 200); [simpl; tauto|].
    destruct (fle (Fin q) 300); simpl; tauto.
  - reflexivity.
Qed.

Lemma get_aqi_category_monotone_witness :
  (severity (get_aqi_category (Fin 120)) <= severity (get_aqi_category (Fin 250)))%nat.
Proof. apply (proj1 get_aqi_category_monotone). lra. Defined.

(** ** The feature pipeline *)

Module PipelineFacts.

Import Pipeline.

Lemma date_ltb_spec (a b : date) :
  date_ltb a b = true <->
  (year a < year b \/
   (year a = year b /\ (month a < month b \/ (month a = month b /\ day a < day b))))%Z.
Proof.
  unfold date_ltb.
  rewrite !orb_true_iff, !andb_true_iff, !orb_true_iff, !andb_true_iff.
  rewrite !Z.ltb_lt, !Z.eqb_eq. reflexivity.
Qed.

Lemma date_ltb_irrefl (a : date) : date_ltb a a = false.
Proof.
  destruct (date_ltb a a) eqn:E; [|reflexivity].
  apply date_ltb_spec in E. lia.
Qed.

Lemma date_eq (a b : date) :
  date_ltb a b = false -> date_ltb b a = false -> a = b.
Proof.
  intros H1 H2.
  assert (N1 : ~ date_ltb a b = true) by congruence.
  assert (N2 : ~ date_ltb b a = true) by congruence.
  rewrite date_ltb_spec in N1, N2.
  destruct a as [ya ma da], b as [yb mb db]. simpl in *.
  assert (ya = yb) by lia. assert (ma = mb) by lia. assert (da = db) by lia.
  now subst.
Qed.

Lemma add_month_later (d : date) : date_ltb d (add_month d) = true.
Proof.
  apply date_ltb_spec. unfold add_month. cbn [year month day].
  destruct (month d =? 12)%Z eqn:E; [left; lia|right].
  split; [reflexivity|left; lia].
Qed.

Lemma add_month_index (d : date) :
  month_index (add_month d) = (month_index d + 1)%Z.
Proof.
  unfold month_index, add_month. cbn [year month].
  destruct (month d =? 12)%Z eqn:E; [apply Z.eqb_eq in E|]; lia.
Qed.

Lemma add_month_valid (d : date) : valid_month d -> valid_month (add_month d).
Proof.
  unfold valid_month, add_month. cbn [month]. intro H.
  destruct (month d =? 12)%Z eqn:E; [lia|apply Z.eqb_neq in E; lia].
Qed.

Lemma date_ltb_index (a b : date) :
  valid_month a -> valid_month b -> date_ltb a b = true ->
  (month_index a <= month_index b)%Z.
Proof.
  unfold valid_month, month_index. intros Ha Hb H.
  apply date_ltb_spec in H. lia.
Qed.

Lemma date_min_cases (a b : date) :
  (date_min a b = a /\ date_ltb b a = false) \/
  (date_min a b = b /\ date_ltb b a = true).
Proof. unfold date_min. destruct (date_ltb b a); auto. Qed.

(** With enough fuel the loop ends, and more fuel changes nothing. *)
Lemma schedule_terminates (stop : date) (fuel : nat) (current : date) :
  valid_month stop -> valid_month current ->
  (1 <= fuel)%nat ->
  (Z.to_nat (month_index stop - month_index current + 2) <= fuel)%nat ->
  exists sch, schedule fuel stop current = Some sch /\
              (Z.of_nat (List.length sch)
               <= Z.max 0 (month_index stop - month_index current + 1))%Z.
Proof.
  intro Hs. revert current.
  induction fuel as [|fuel IH]; intros current Hc H1 Hf; [lia|].
  cbn [schedule]. destruct (date_ltb current stop) eqn:Elt.
  - pose proof (date_ltb_index _ _ Hc Hs Elt) as Hidx.
    destruct (date_min_cases (add_month current) stop) as [[-> Hm]|[-> Hm]].
    + destruct (IH (add_month current)) as (sch & -> & Hlen).
      * now apply add_month_valid.
      * lia.
      * rewrite add_month_index. lia.
      * exists ((current, add_month current) :: sch). split; [reflexivity|].
        rewrite add_month_index in Hlen. cbn [List.length]. lia.
    + destruct fuel as [|fuel]; [lia|]. cbn [schedule].
      rewrite date_ltb_irrefl. exists [(current, stop)].
      split; [reflexivity|]. cbn [List.length]. lia.
  - exists []. split; [reflexivity|]. cbn [List.length]. lia.
Qed.

Lemma schedule_chained (stop : date) (fuel : nat) (current : date)
  (sch : list (date * date)) :
  schedule fuel stop current = Some sch ->
  (date_ltb current stop = true -> chained current sch stop) /\
  (date_ltb current stop = false -> sch = []).
Proof.
  revert current sch. induction fuel as [|fuel IH]; intros current sch H;
    [discriminate|].
  cbn [schedule] in H. destruct (date_ltb current stop) eqn:Elt.
  - split; [intros _|discriminate].
    destruct (schedule fuel stop (date_min (add_month current) stop))
      as [sch'|] eqn:E; [|discriminate].
    injection H as <-. destruct (IH _ _ E) as [IH1 IH2]. cbn [chained].
    split; [reflexivity|].
    destruct (date_min_cases (add_month current) stop) as [[Em Hm]|[Em Hm]];
      rewrite Em in *.
    + split; [apply add_month_later|]. split; [now left|].
      destruct (date_ltb (add_month current) stop) eqn:E2; [now apply IH1|].
      rewrite (IH2 eq_refl). cbn [chained]. now apply date_eq.
    + split; [assumption|]. split; [right; now split|].
      rewrite (IH2 (date_ltb_irrefl stop)). reflexivity.
  - injection H as <-. split; [discriminate|reflexivity].
Qed.

End PipelineFacts.

(** The loop and its schedule: the frames kept are those of the scheduled
    ranges that are not empty, in order, and the first exception of a fetch
    ends the loop. *)
Lemma feature_loop_schedule (F : Type) (fetch : Pipeline.date -> Pipeline.date -> result F)
  (empty : F -> bool) (stop : Pipeline.date) (fuel : nat) :
  forall current frames sch,
    Pipeline.schedule fuel stop current = Some sch ->
    Pipeline.feature_loop F fetch empty fuel stop current frames
    = Some (fs <- for_each (fun c => fetch (fst c) (snd c)) sch ;;
            Ok (frames ++ Pipeline.kept empty fs)).
Proof.
  induction fuel as [|fuel IH]; intros current frames sch H; [discriminate|].
  cbn [Pipeline.schedule Pipeline.feature_loop] in *.
  destruct (Pipeline.date_ltb current stop).
  - destruct (Pipeline.schedule fuel stop
                (Pipeline.date_min (Pipeline.add_month current) stop))
      as [sch'|] eqn:E; [|discriminate].
    injection H as <-. cbn [for_each fst snd].
    destruct (fetch current (Pipeline.date_min (Pipeline.add_month current) stop))
      as [df_chunk|e]; [|reflexivity].
    rewrite (IH _ _ _ E). cbn [bind]. f_equal.
    destruct (for_each (fun c => fetch (fst c) (snd c)) sch') as [fs|e];
      [|reflexivity].
    cbn [bind]. unfold Pipeline.kept. cbn [filter].
    destruct (empty df_chunk); cbn [negb]; [reflexivity|].
    now rewrite <- app_assoc.
  - injection H as <-. cbn [for_each bind]. unfold Pipeline.kept. cbn [filter].
    now rewrite app_nil_r.
Qed.

(** X18: The loop of the feature pipeline ends for any two dates and any fetch:
    with enough fuel it fetches date ranges that follow one another from
    the start date to the end date, each starting where the one before
    ends, none empty and none longer than a month, at most one per month
    in between; it fetches nothing when the start date is not before the
    end date. *)
Theorem pipeline_schedule (start stop : Pipeline.date) (fuel : nat) :
  Pipeline.valid_month start -> Pipeline.valid_month stop ->
  (Pipeline.enough start stop <= fuel)%nat ->
  exists sch,
    Pipeline.schedule fuel stop start = Some sch /\
    (Pipeline.date_ltb start stop = true -> Pipeline.chained start sch stop) /\
    (Pipeline.date_ltb start stop = false -> sch = []) /\
    (Z.of_nat (List.length sch)
     <= Z.max 0 (Pipeline.month_index stop - Pipeline.month_index start + 1))%Z /\
    forall (F : Type) (fetch : Pipeline.date -> Pipeline.date -> result F)
           (empty : F -> bool),
      Pipeline.feature_loop F fetch empty fuel stop start []
      = Some (fs <- for_each (fun c => fetch (fst c) (snd c)) sch ;;
              Ok (Pipeline.kept empty fs)).
Proof.
  intros Hs Ht Hf. unfold Pipeline.enough in Hf.
  destruct (PipelineFacts.schedule_terminates stop fuel start Ht Hs)
    as (sch & E & Hlen); [lia|lia|].
  destruct (PipelineFacts.schedule_chained _ _ _ _ E) as [H1 H2].
  exists sch.
  split; [exact E|]. split; [exact H1|]. split; [exact H2|].
  split; [exact Hlen|].
  intros F fetch empty.
  exact (feature_loop_schedule F fetch empty stop fuel start [] sch E).
Qed.

(** The configured run: twelve fetches, one per month of 2024. *)
Lemma pipeline_schedule_witness :
  exists sch,
    Pipeline.schedule 14 Pipeline.end_date Pipeline.start_date = Some sch /\
    Pipeline.chained Pipeline.start_date sch Pipeline.end_date /\
    List.length sch = 12%nat.
Proof.
  destruct (pipeline_schedule Pipeline.start_date Pipeline.end_date 14)
    as (sch & E & H & _).
  - unfold Pipeline.valid_month. simpl. lia.
  - unfold Pipeline.valid_month. simpl. lia.
  - vm_compute. lia.
  - exists sch. split; [exact E|]. split; [now apply H|].
    vm_compute in E. now injection E as <-.
Defined.

(** X19: What the feature pipeline does with the frames it fetches: the first
    exception of a fetch leaves the pipeline; otherwise it aborts, saving
    nothing, exactly when every fetched frame is empty, and else builds
    and saves the table from the frames that are not empty, in the order
    of their dates. *)
Theorem run_between_outcome (F T : Type)
  (fetch : Pipeline.date -> Pipeline.date -> result F) (empty : F -> bool)
  (engineer : list F -> result T) (start stop : Pipeline.date) (fuel : nat) :
  Pipeline.valid_month start -> Pipeline.valid_month stop ->
  (Pipeline.enough start stop <= fuel)%nat ->
  exists sch,
    Pipeline.schedule fuel stop start = Some sch /\
    Pipeline.run_between F T fetch empty engineer fuel start stop
    = Some match for_each (fun c => fetch (fst c) (snd c)) sch with
           | Raise e => Raise e
           | Ok fs =>
               match Pipeline.kept empty fs with
               | [] => Ok Pipeline.Aborted
               | frames => t <- engineer frames ;; Ok (Pipeline.Saved t)
               end
           end.
Proof.
  intros Hs Ht Hf. unfold Pipeline.enough in Hf.
  destruct (PipelineFacts.schedule_terminates stop fuel start Ht Hs)
    as (sch & E & _); [lia|lia|].
  exists sch. split; [exact E|].
  unfold Pipeline.run_between.
  rewrite (feature_loop_schedule F fetch empty stop fuel start [] sch E).
  destruct (for_each (fun c => fetch (fst c) (snd c)) sch) as [fs|e];
    [|reflexivity].
  cbn [bind app]. now destruct (Pipeline.kept empty fs).
Qed.

(** The configured run with a fetch that returns the month of the range:
    with the first six frames empty the other six are saved in order; with
    every frame empty the pipeline aborts. *)
Lemma run_between_outcome_witness :
  Pipeline.run_feature_pipeline Z (list Z)
    (fun a _ => Ok (Pipeline.month a)) (fun m => (m <=? 6)%Z) (fun fs => Ok fs) 14
  = Some (Ok (Pipeline.Saved [7; 8; 9; 10; 11; 12]%Z)) /\
  Pipeline.run_feature_pipeline Z (list Z)
    (fun a _ => Ok (Pipeline.month a)) (fun _ => true) (fun fs => Ok fs) 14
  = Some (Ok Pipeline.Aborted).
Proof.
  assert (Hv1 : Pipeline.valid_month Pipeline.start_date)
    by (unfold Pipeline.valid_month; simpl; lia).
  assert (Hv2 : Pipeline.valid_month Pipeline.end_date)
    by (unfold Pipeline.valid_month; simpl; lia).
  assert (Hf : (Pipeline.enough Pipeline.start_date Pipeline.end_date <= 14)%nat)
    by (vm_compute; lia).
  unfold Pipeline.run_feature_pipeline. split.
  - destruct (run_between_outcome Z (list Z) (fun a _ => Ok (Pipeline.month a))
                (fun m => (m <=? 6)%Z) (fun fs => Ok fs)
                Pipeline.start_date Pipeline.end_date 14 Hv1 Hv2 Hf)
      as (sch & E & ->).
    vm_compute in E. injection E as <-. reflexivity.
  - destruct (run_between_outcome Z (list Z) (fun a _ => Ok (Pipeline.month a))
                (fun _ => true) (fun fs => Ok fs)
                Pipeline.start_date Pipeline.end_date 14 Hv1 Hv2 Hf)
      as (sch & E & ->).
    vm_compute in E. injection E as <-. reflexivity.
Defined.
